(** * Indicator engine of the stock-analysis tool: a shallow embedding

    The development follows [data_download.py].  Every transform of the
    engine ([add_moving_average], [calculate_rsi], [calculate_macd],
    [add_technical_indicators], [calculate_standard_deviation],
    [advanced_price_analysis], [notify_if_strong_fluctuations],
    [calculate_average_price]) is translated to a function of a small
    state-and-exception monad:

    - the state holds the heap of [DataFrame] objects (Python passes frames
      by reference, and [data['Moving_Average'] = ...] updates the object the
      caller holds) and the lines written by [print];
    - [try: ... except Exception as e: ...] is [try_except].

    Numbers.  A cell of a numeric column is a [float64]: an exact rational,
    one of the two infinities, or NaN.  The special values follow IEEE 754
    (x/0 is infinite, 0/0 and inf-inf are NaN, NaN compares false with
    everything); finite arithmetic is exact, so rounding to 53 bits is not
    part of the model, and zero carries no sign.  Where a statement turns
    on a comparison of a computed number, the function is taken again with
    binary64 arithmetic (module [b64]).

    pandas.  The Series methods the source calls ([diff], [clip],
    [rolling(w).mean()], [ewm(span, adjust=False).mean()], [min], [max],
    [mean], [std], [var], [pct_change], [iloc]) are modelled after the
    library's documented behaviour: NaN cells are skipped by the
    reductions, a rolling window needs [w] observations, infinite cells
    count as missing inside a rolling window, [rolling] refuses a negative
    window and [ewm] a span below 1.  Column labels of a frame are looked up
    first match first; frames with a repeated label are outside the scope of
    the statements below, which carry [price_frame] or [numeric_column], or
    speak of the heap only. *)

From Stdlib Require Import ZArith QArith Qround Qabs Qpower Lqa Lia.
From stdpp Require Import gmap strings list fin_maps.

Set Default Proof Using "Type".

(* ===================================================================== *)
(** ** Numbers *)
(* ===================================================================== *)

Inductive float64 : Type :=
| Fin (q : Q)
| PInf
| NInf
| NaN.

(** The infinity (or NaN) that a division of a number of sign [c] by zero,
    or its product with +inf, gives. *)
Definition inf_of_sign (c : comparison) : float64 :=
  match c with
  | Gt => PInf
  | Lt => NInf
  | Eq => NaN
  end.

Definition fopp (x : float64) : float64 :=
  match x with
  | Fin a => Fin (Qred (- a))
  | PInf => NInf
  | NInf => PInf
  | NaN => NaN
  end.

Definition fadd (x y : float64) : float64 :=
  match x, y with
  | NaN, _ | _, NaN => NaN
  | Fin a, Fin b => Fin (Qred (a + b))
  | PInf, NInf | NInf, PInf => NaN
  | PInf, _ | _, PInf => PInf
  | NInf, _ | _, NInf => NInf
  end.

Definition fsub (x y : float64) : float64 :=
  match x, y with
  | NaN, _ | _, NaN => NaN
  | Fin a, Fin b => Fin (Qred (a - b))
  | PInf, PInf | NInf, NInf => NaN
  | PInf, _ | _, NInf => PInf
  | NInf, _ | _, PInf => NInf
  end.

Definition fmul (x y : float64) : float64 :=
  match x, y with
  | NaN, _ | _, NaN => NaN
  | Fin a, Fin b => Fin (Qred (a * b))
  | Fin a, PInf | PInf, Fin a => inf_of_sign (a ?= 0)%Q
  | Fin a, NInf | NInf, Fin a => inf_of_sign (0 ?= a)%Q
  | PInf, PInf | NInf, NInf => PInf
  | PInf, NInf | NInf, PInf => NInf
  end.

Definition fdiv (x y : float64) : float64 :=
  match x, y with
  | NaN, _ | _, NaN => NaN
  | Fin a, Fin b =>
      if Qeq_bool b 0 then inf_of_sign (a ?= 0)%Q else Fin (Qred (a / b))
  | Fin _, (PInf | NInf) => Fin 0
  | PInf, Fin b => if Qle_bool 0 b then PInf else NInf
  | NInf, Fin b => if Qle_bool 0 b then NInf else PInf
  | (PInf | NInf), (PInf | NInf) => NaN
  end.

(** [x < y]; false as soon as one side is NaN. *)
Definition fltb (x y : float64) : bool :=
  match x, y with
  | NaN, _ | _, NaN => false
  | Fin a, Fin b => negb (Qle_bool b a)
  | NInf, (Fin _ | PInf) => true
  | Fin _, PInf => true
  | _, _ => false
  end.

(** [x == y] on floats. *)
Definition feqb (x y : float64) : bool :=
  match x, y with
  | Fin a, Fin b => Qeq_bool a b
  | PInf, PInf | NInf, NInf => true
  | _, _ => false
  end.

(** [x > y], as in [price_range_percent > threshold]. *)
Definition fgtb (x y : float64) : bool := fltb y x.

(** [x == x]: pandas' test for "this cell is an observation". *)
Definition is_observation (x : float64) : bool :=
  match x with
  | NaN => false
  | _ => true
  end.

Definition is_finite (x : float64) : Prop :=
  match x with
  | Fin _ => True
  | _ => False
  end.

(** Square root at a fixed binary precision: exact on squares of
    rationals, positive on positive arguments. *)
Definition sqrt_scale : Z := 2 ^ 52.

Definition Qsqrt (a : Q) : Q :=
  Qred (Z.sqrt (Qnum a * Zpos (Qden a) * sqrt_scale * sqrt_scale)
        # (Qden a * Z.to_pos sqrt_scale)).

Definition fsqrt (x : float64) : float64 :=
  match x with
  | Fin a => if Qle_bool 0 a then Fin (Qsqrt a) else NaN
  | PInf => PInf
  | NInf | NaN => NaN
  end.

(** [round(x, 2)] of a numpy float: to the nearest hundredth, ties to the
    even hundredth. *)
Definition round_half_even (q : Q) : Z :=
  let f := Qfloor q in
  match (q - inject_Z f ?= 1 # 2)%Q with
  | Lt => f
  | Gt => (f + 1)%Z
  | Eq => if Z.even f then f else (f + 1)%Z
  end.

Definition fround2 (x : float64) : float64 :=
  match x with
  | Fin q => Fin (Qred (round_half_even (q * 100) # 100))
  | _ => x
  end.

Definition of_Z (z : Z) : float64 := Fin (inject_Z z).
Definition of_nat (n : nat) : float64 := Fin (inject_Z (Z.of_nat n)).

(* ===================================================================== *)
(** ** pandas Series *)
(* ===================================================================== *)

(** A numeric [Series], by position (the index of dates is implicit). *)
Abbreviation Series := (list float64).

(** Python exceptions the engine can meet. *)
Inductive exn : Type :=
| KeyError (label : string)
| ValueError (what : string)
| TypeError (what : string)
| IndexError.

Inductive outcome (A : Type) : Type :=
| Ok (a : A)
| Raise (e : exn).
Arguments Ok {A} a.
Arguments Raise {A} e.

Module pd.

(** The finite cells of a window: NaN is missing, and the rolling
    aggregations turn infinite cells into NaN before they start. *)
Definition observations (xs : Series) : list Q :=
  omap (λ x, match x with Fin q => Some q | _ => None end) xs.

Definition Qsum (qs : list Q) : Q := foldr Qplus 0%Q qs.

(** [s.diff()] *)
Definition diff (xs : Series) : Series :=
  match xs with
  | [] => []
  | _ :: tl => NaN :: zip_with fsub tl xs
  end.

(** [s.clip(lower=0)] and [s.clip(upper=0)] *)
Definition clip_lower0 (xs : Series) : Series :=
  (λ x, if fltb x (Fin 0) then Fin 0 else x) <$> xs.

Definition clip_upper0 (xs : Series) : Series :=
  (λ x, if fltb (Fin 0) x then Fin 0 else x) <$> xs.

(** [-s] *)
Definition neg (xs : Series) : Series := fopp <$> xs.

(** The trailing window of [w] cells that ends at position [t]. *)
Definition window_at (w t : nat) (xs : Series) : Series :=
  drop (t + 1 - w) (take (t + 1) xs).

(** One entry of [rolling(w).mean()], with [min_periods = w]. *)
Definition roll_mean_at (w : nat) (xs : Series) (t : nat) : float64 :=
  let obs := observations (window_at w t xs) in
  let nobs := length obs in
  if (w <=? nobs)%nat && (0 <? nobs)%nat
  then Fin (Qred (Qsum obs / inject_Z (Z.of_nat nobs)))
  else NaN.

Definition roll_mean (w : nat) (xs : Series) : Series :=
  roll_mean_at w xs <$> seq 0 (length xs).

(** [s.rolling(window=w).mean()] *)
Definition rolling_mean (window : Z) (xs : Series) : outcome Series :=
  if (window <? 0)%Z
  then Raise (ValueError "window must be an integer 0 or greater")
  else Ok (roll_mean (Z.to_nat window) xs).

(** [alpha] of [ewm(span=...)]: the centre of mass is [(span-1)/2]. *)
Definition ewm_alpha (span : Z) : Q :=
  (1 / (1 + (inject_Z span - 1) / 2))%Q.

(** The loop of [ewm(adjust=False, ignore_na=False).mean()]:
    [weighted] is the running average, [old_wt] the weight it carries,
    [nobs] the observations met so far.  An observation equal to the
    running average leaves it as it is. *)
Fixpoint ewm_loop (alpha : Q) (weighted : float64) (old_wt : Q)
    (nobs : nat) (xs : Series) : Series :=
  match xs with
  | [] => []
  | cur :: rest =>
      let nobs' := if is_observation cur then S nobs else nobs in
      let '(weighted', old_wt') :=
        if is_observation weighted then
          let old_wt1 := (old_wt * (1 - alpha))%Q in
          if is_observation cur then
            (if feqb weighted cur then weighted
             else fdiv (fadd (fmul (Fin old_wt1) weighted)
                             (fmul (Fin alpha) cur))
                       (Fin (old_wt1 + alpha)),
             1%Q)
          else (weighted, old_wt1)
        else if is_observation cur then (cur, old_wt)
        else (weighted, old_wt) in
      (if (1 <=? nobs')%nat then weighted' else NaN)
        :: ewm_loop alpha weighted' old_wt' nobs' rest
  end.

Definition ewm (alpha : Q) (xs : Series) : Series :=
  match xs with
  | [] => []
  | x0 :: rest =>
      let nobs := if is_observation x0 then 1%nat else 0%nat in
      (if (1 <=? nobs)%nat then x0 else NaN) :: ewm_loop alpha x0 1 nobs rest
  end.

(** [s.ewm(span=span, adjust=False).mean()] *)
Definition ewm_mean (span : Z) (xs : Series) : outcome Series :=
  if (span <? 1)%Z
  then Raise (ValueError "span must satisfy: span >= 1")
  else Ok (ewm (ewm_alpha span) xs).

(** The cells a reduction sees ([skipna=True]). *)
Definition dropna (xs : Series) : Series := List.filter is_observation xs.

Definition fsum (xs : Series) : float64 := foldl fadd (Fin 0) xs.

(** [s.min()], [s.max()] *)
Definition min (xs : Series) : float64 :=
  match dropna xs with
  | [] => NaN
  | x :: tl => foldl (λ m y, if fltb y m then y else m) x tl
  end.

Definition max (xs : Series) : float64 :=
  match dropna xs with
  | [] => NaN
  | x :: tl => foldl (λ m y, if fltb m y then y else m) x tl
  end.

(** [s.mean()] *)
Definition mean (xs : Series) : float64 :=
  let v := dropna xs in
  match v with
  | [] => NaN
  | _ => fdiv (fsum v) (of_nat (length v))
  end.

(** [s.var(ddof=1)]: squared deviations from the mean over [n - 1]. *)
Definition var (xs : Series) : float64 :=
  let v := dropna xs in
  if (length v <=? 1)%nat then NaN
  else
    let avg := fdiv (fsum v) (of_nat (length v)) in
    let sqr := (λ x, let d := fsub avg x in fmul d d) <$> v in
    fdiv (fsum sqr) (of_nat (length v - 1)).

(** [s.std(ddof=1)] *)
Definition std (xs : Series) : float64 := fsqrt (var xs).

(** [s.pct_change()]: [s / s.shift(1) - 1] *)
Definition pct_change (xs : Series) : Series :=
  match xs with
  | [] => []
  | _ :: tl => NaN :: zip_with (λ x prev, fsub (fdiv x prev) (Fin 1)) tl xs
  end.

(** [s.iloc[0]] and [s.iloc[-1]] *)
Definition iloc_first (xs : Series) : outcome float64 :=
  match xs with
  | [] => Raise IndexError
  | x :: _ => Ok x
  end.

Definition iloc_last (xs : Series) : outcome float64 :=
  match last xs with
  | None => Raise IndexError
  | Some x => Ok x
  end.

End pd.

(* ===================================================================== *)
(** ** Frames, the heap and the monad of the engine *)
(* ===================================================================== *)

(** A column holds numbers, or the [None] objects that
    [frame['RSI'] = None] leaves. *)
Inductive column : Type :=
| FloatCol (xs : Series)
| NoneCol.

(** A [DataFrame]: its columns in order, by label. *)
Abbreviation DataFrame := (list (string * column)).

Fixpoint frame_get (f : DataFrame) (label : string) : option column :=
  match f with
  | [] => None
  | (k, c) :: rest => if String.eqb k label then Some c else frame_get rest label
  end.

(** [f[label] = c]: replaces the column in place, or appends it. *)
Fixpoint frame_set (f : DataFrame) (label : string) (c : column) : DataFrame :=
  match f with
  | [] => [(label, c)]
  | (k, c0) :: rest =>
      if String.eqb k label then (k, c) :: rest
      else (k, c0) :: frame_set rest label c
  end.

Definition labels (f : DataFrame) : list string := fst <$> f.

(** A frame of bars as the acquisition layer hands it over: labels are
    pairwise distinct and [Close] is a numeric column. *)
Definition price_frame (f : DataFrame) (close : Series) : Prop :=
  NoDup (labels f) ∧ frame_get f "Close" = Some (FloatCol close).

(** References to the frames of the heap. *)
Abbreviation loc := nat.

(** What the functions return for their dictionaries. *)
Record FluctuationInfo : Type := mkFluctuationInfo {
  fi_ticker : string;
  fi_min_price : float64;
  fi_max_price : float64;
  fi_fluctuation_percent : float64
}.

Record Stats : Type := mkStats {
  std_deviation : float64;
  variance : float64;
  min_price : float64;
  max_price : float64;
  price_range : float64;
  coefficient_variation : float64
}.

Record Analysis : Type := mkAnalysis {
  mean_daily_return : float64;
  daily_volatility : float64;
  annualized_volatility : float64;
  start_price : float64;
  end_price : float64;
  total_return_percent : float64
}.

(** The lines the functions print, with the values they format. *)
Inductive message : Type :=
| MovingAverageError (e : exn)
| NoDataAverage
| AveragePrice (avg : float64)
| AveragePriceError (e : exn)
| NoDataFluctuations
| FluctuationWarning (ticker : string)
| FluctuationRange (lo hi : float64)
| FluctuationPercent (p : float64)
| FluctuationError (e : exn)
| InsufficientRSI
| RSIError (e : exn)
| InsufficientMACD
| MACDError (e : exn)
| NoDataIndicators
| IndicatorsError (e : exn)
| StatsReport (s : Stats)
| StatsError (e : exn)
| AnalysisReport (a : Analysis)
| AnalysisError (e : exn).

Record state : Type := mkState {
  heap : gmap loc DataFrame;
  stdout : list message
}.

Definition M (A : Type) : Type := state → outcome A * state.

#[global] Instance M_ret : MRet M := λ A a σ, (Ok a, σ).

#[global] Instance M_bind : MBind M := λ A B k m σ,
  match m σ with
  | (Ok a, σ') => k a σ'
  | (Raise e, σ') => (Raise e, σ')
  end.

Definition raise {A} (e : exn) : M A := λ σ, (Raise e, σ).

Definition lift {A} (o : outcome A) : M A := λ σ, (o, σ).

(** [try: body except Exception as e: handler e]; what [body] did to the
    heap and printed before it raised stays. *)
Definition try_except {A} (body : M A) (handler : exn → M A) : M A := λ σ,
  match body σ with
  | (Raise e, σ') => handler e σ'
  | r => r
  end.

Definition print (m : message) : M unit := λ σ,
  (Ok (), mkState (heap σ) (stdout σ ++ [m])).

(** The object behind a reference.  A Python reference always names a live
    object; the model raises on one that does not. *)
Definition deref (d : loc) : M DataFrame := λ σ,
  match heap σ !! d with
  | Some f => (Ok f, σ)
  | None => (Raise (TypeError "not a DataFrame"), σ)
  end.

Definition store (d : loc) (f : DataFrame) : M unit := λ σ,
  (Ok (), mkState (<[d := f]> (heap σ)) (stdout σ)).

(** A new object. *)
Definition alloc (f : DataFrame) : M loc := λ σ,
  let l := fresh (dom (heap σ)) in
  (Ok l, mkState (<[l := f]> (heap σ)) (stdout σ)).

(** [label in data.columns] *)
Definition has_column (d : loc) (label : string) : M bool :=
  f ← deref d;
  mret (bool_decide (is_Some (frame_get f label))).

(** [data[label]] *)
Definition getitem (d : loc) (label : string) : M column :=
  f ← deref d;
  match frame_get f label with
  | Some c => mret c
  | None => raise (KeyError label)
  end.

(** [data[label] = c] *)
Definition setitem (d : loc) (label : string) (c : column) : M unit :=
  f ← deref d;
  store d (frame_set f label c).

(** The numbers of a column; arithmetic on [None] objects raises. *)
Definition numeric (c : column) : M Series :=
  match c with
  | FloatCol xs => mret xs
  | NoneCol => raise (TypeError "unsupported operand type: NoneType")
  end.

(** [data.copy()] *)
Definition copy (d : loc) : M loc :=
  f ← deref d;
  alloc f.

(** [pd.concat([a, b], axis=1)] of two frames over the same index. *)
Definition concat_columns (a b : loc) : M loc :=
  fa ← deref a;
  fb ← deref b;
  alloc (fa ++ fb).

(* ===================================================================== *)
(** ** The transforms of [data_download.py] *)
(* ===================================================================== *)

Definition add_moving_average (data : option loc) (window_size : Z)
    : M (option loc) :=
  match data with
  | None => mret None
  | Some d =>
      try_except
        (close ← getitem d "Close" ≫= numeric;
         ma ← lift (pd.rolling_mean window_size close);
         setitem d "Moving_Average" (FloatCol ma);;
         mret (Some d))
        (λ e, print (MovingAverageError e);; mret (Some d))
  end.

Definition calculate_average_price (data : option loc) : M (option float64) :=
  match data with
  | None => print NoDataAverage;; mret None
  | Some d =>
      try_except
        (close ← getitem d "Close" ≫= numeric;
         let average_price := pd.mean close in
         print (AveragePrice average_price);;
         mret (Some average_price))
        (λ e, print (AveragePriceError e);; mret None)
  end.

Definition price_range_percent (min_price max_price : float64) : float64 :=
  fmul (fdiv (fsub max_price min_price) min_price) (Fin 100).

Definition notify_if_strong_fluctuations (data : option loc) (ticker : string)
    (threshold : float64) : M (option FluctuationInfo) :=
  match data with
  | None => print NoDataFluctuations;; mret None
  | Some d =>
      try_except
        (close_prices ← getitem d "Close" ≫= numeric;
         let min_price := pd.min close_prices in
         let max_price := pd.max close_prices in
         let percent := price_range_percent min_price max_price in
         if fgtb percent threshold then
           let fluctuation_info :=
             {| fi_ticker := ticker;
                fi_min_price := min_price;
                fi_max_price := max_price;
                fi_fluctuation_percent := fround2 percent |} in
           print (FluctuationWarning ticker);;
           print (FluctuationRange min_price max_price);;
           print (FluctuationPercent percent);;
           mret (Some fluctuation_info)
         else mret None)
        (λ e, print (FluctuationError e);; mret None)
  end.

(** The intermediate series of [calculate_rsi]. *)
Definition rsi_gain (close : Series) : Series :=
  pd.clip_lower0 (pd.diff close).

Definition rsi_loss (close : Series) : Series :=
  pd.neg (pd.clip_upper0 (pd.diff close)).

Definition rsi_of_strength (relative_strength : float64) : float64 :=
  fsub (Fin 100) (fdiv (Fin 100) (fadd (Fin 1) relative_strength)).

Definition calculate_rsi (data : option loc) (periods : Z)
    : M (option Series) :=
  match data with
  | None => print InsufficientRSI;; mret None
  | Some d =>
      has_close ← has_column d "Close";
      if negb has_close then print InsufficientRSI;; mret None
      else
        try_except
          (close ← getitem d "Close" ≫= numeric;
           let gain := rsi_gain close in
           let loss := rsi_loss close in
           avg_gain ← lift (pd.rolling_mean periods gain);
           avg_loss ← lift (pd.rolling_mean periods loss);
           let relative_strength := zip_with fdiv avg_gain avg_loss in
           let rsi := rsi_of_strength <$> relative_strength in
           mret (Some rsi))
          (λ e, print (RSIError e);; mret None)
  end.

Definition calculate_macd (data : option loc)
    (fast_period slow_period signal_period : Z) : M (option loc) :=
  match data with
  | None => print InsufficientMACD;; mret None
  | Some d =>
      has_close ← has_column d "Close";
      if negb has_close then print InsufficientMACD;; mret None
      else
        try_except
          (close ← getitem d "Close" ≫= numeric;
           exp1 ← lift (pd.ewm_mean fast_period close);
           exp2 ← lift (pd.ewm_mean slow_period close);
           let macd := zip_with fsub exp1 exp2 in
           signal_line ← lift (pd.ewm_mean signal_period macd);
           let histogram := zip_with fsub macd signal_line in
           macd_data ← alloc [("MACD", FloatCol macd);
                              ("Signal_Line", FloatCol signal_line);
                              ("Histogram", FloatCol histogram)];
           mret (Some macd_data))
          (λ e, print (MACDError e);; mret None)
  end.

(** The column [frame['RSI'] = calculate_rsi(data)] stores. *)
Definition rsi_column (rsi : option Series) : column :=
  match rsi with
  | Some s => FloatCol s
  | None => NoneCol
  end.

Definition add_technical_indicators (data : option loc) (add_rsi add_macd : bool)
    : M (option loc) :=
  match data with
  | None => print NoDataIndicators;; mret None
  | Some d =>
      try_except
        (indicators_data ← copy d;
         (if add_rsi then
            rsi ← calculate_rsi data 14;
            setitem indicators_data "RSI" (rsi_column rsi)
          else mret ());;
         if add_macd then
           macd_indicators ← calculate_macd data 12 26 9;
           match macd_indicators with
           | Some m =>
               merged ← concat_columns indicators_data m;
               mret (Some merged)
           | None => mret (Some indicators_data)
           end
         else mret (Some indicators_data))
        (λ e, print (IndicatorsError e);; mret None)
  end.

Definition subscript (data : option loc) (label : string) : M column :=
  match data with
  | Some d => getitem d label
  | None => raise (TypeError "'NoneType' object is not subscriptable")
  end.

Definition calculate_standard_deviation (data : option loc) (label : string)
    : M (option Stats) :=
  try_except
    (xs ← subscript data label ≫= numeric;
     let stats :=
       {| std_deviation := pd.std xs;
          variance := pd.var xs;
          min_price := pd.min xs;
          max_price := pd.max xs;
          price_range := fsub (pd.max xs) (pd.min xs);
          coefficient_variation :=
            fmul (fdiv (pd.std xs) (pd.mean xs)) (Fin 100) |} in
     print (StatsReport stats);;
     mret (Some stats))
    (λ e, print (StatsError e);; mret None).

(** Trading days in a year, the [252] of the source. *)
Definition trading_days : float64 := Fin 252.

Definition advanced_price_analysis (data : option loc) : M (option Analysis) :=
  try_except
    (close ← subscript data "Close" ≫= numeric;
     let daily_returns := pd.pct_change close in
     first ← lift (pd.iloc_first close);
     last ← lift (pd.iloc_last close);
     let analysis :=
       {| mean_daily_return := pd.mean daily_returns;
          daily_volatility := pd.std daily_returns;
          annualized_volatility :=
            fmul (pd.std daily_returns) (fsqrt trading_days);
          start_price := first;
          end_price := last;
          total_return_percent :=
            fmul (fdiv (fsub last first) first) (Fin 100) |} in
     print (AnalysisReport analysis);;
     mret (Some analysis))
    (λ e, print (AnalysisError e);; mret None).

(* ===================================================================== *)
(** ** Vocabulary of the statements *)
(* ===================================================================== *)

(** The arithmetic mean of a list of numbers. *)
Definition arithmetic_mean (qs : list Q) : Q :=
  (pd.Qsum qs / inject_Z (Z.of_nat (length qs)))%Q.

(** The [w] close prices that end at position [t], inclusive. *)
Definition trailing (w t : nat) (close : Series) : Series :=
  take w (drop (t + 1 - w) close).



(** The smoothing factor the specification gives for a span. *)
Definition spec_alpha (span : Z) : Q := (2 / (inject_Z span + 1))%Q.

(** [ys] is the exponential moving average of [xs]:
    [ys[0] = xs[0]] and [ys[t] = alpha * xs[t] + (1 - alpha) * ys[t-1]]. *)
Definition is_ema (alpha : Q) (xs ys : list Q) : Prop :=
  length ys = length xs
  ∧ ys !! 0 = xs !! 0
  ∧ ∀ t x prev y,
      xs !! S t = Some x → ys !! t = Some prev → ys !! S t = Some y →
      (y == alpha * x + (1 - alpha) * prev)%Q.

(** The least and the greatest of a list of numbers. *)
Definition is_minimum (lo : Q) (cs : list Q) : Prop :=
  lo ∈ cs ∧ ∀ x, x ∈ cs → (lo <= x)%Q.

Definition is_maximum (hi : Q) (cs : list Q) : Prop :=
  hi ∈ cs ∧ ∀ x, x ∈ cs → (x <= hi)%Q.

(** [r] is [p] to two decimal places. *)
Definition rounded_to_cents (r p : Q) : Prop :=
  (∃ n : Z, r == n # 100)%Q ∧ (Qabs (r - p) <= 1 # 200)%Q.

(** What [notify_if_strong_fluctuations] prints with an alert. *)
Definition alert_lines (ticker : string) (lo hi percent : float64)
    : list message :=
  [FluctuationWarning ticker; FluctuationRange lo hi;
   FluctuationPercent percent].

(** [label] names a numeric column of a frame with distinct labels. *)
Definition numeric_column (f : DataFrame) (label : string) (xs : Series)
    : Prop :=
  NoDup (labels f) ∧ frame_get f label = Some (FloatCol xs).

(** The statistics record of a column, as [calculate_standard_deviation]
    builds it. *)
Definition stats_of (xs : Series) : Stats :=
  {| std_deviation := pd.std xs;
     variance := pd.var xs;
     min_price := pd.min xs;
     max_price := pd.max xs;
     price_range := fsub (pd.max xs) (pd.min xs);
     coefficient_variation := fmul (fdiv (pd.std xs) (pd.mean xs)) (Fin 100) |}.





(** The series [calculate_rsi] computes from the closes. *)
Definition rsi_series (periods : nat) (close : Series) : Series :=
  rsi_of_strength
    <$> zip_with fdiv (pd.roll_mean periods (rsi_gain close))
                      (pd.roll_mean periods (rsi_loss close)).

(** The three series [calculate_macd] computes from the closes. *)
Definition macd_line (fast slow : Z) (close : Series) : Series :=
  zip_with fsub (pd.ewm (pd.ewm_alpha fast) close)
                (pd.ewm (pd.ewm_alpha slow) close).

Definition macd_signal (fast slow signal : Z) (close : Series) : Series :=
  pd.ewm (pd.ewm_alpha signal) (macd_line fast slow close).

Definition macd_histogram (fast slow signal : Z) (close : Series) : Series :=
  zip_with fsub (macd_line fast slow close)
                (macd_signal fast slow signal close).

Definition macd_frame (fast slow signal : Z) (close : Series) : DataFrame :=
  [("MACD", FloatCol (macd_line fast slow close));
   ("Signal_Line", FloatCol (macd_signal fast slow signal close));
   ("Histogram", FloatCol (macd_histogram fast slow signal close))].

(** The columns [add_technical_indicators] appends with its default
    periods. *)
Definition indicator_columns (close : Series) : DataFrame :=
  ("RSI", FloatCol (rsi_series 14 close)) :: macd_frame 12 26 9 close.

(* ===================================================================== *)
(** ** Sample frames *)
(* ===================================================================== *)

(** A heap with one frame, at reference 0, and nothing printed yet. *)
Definition one_frame (f : DataFrame) : state := mkState {[ 0%nat := f ]} [].

Definition bars (closes : list Z) : DataFrame :=
  [("Close", FloatCol (of_Z <$> closes))].

(** Seven bars. *)
Definition week : list Z := [100; 102; 101; 105; 103; 108; 107]%Z.

(** Ten bars that rise from 100 to 200. *)
Definition rally : list Z :=
  [100; 111; 122; 133; 144; 155; 166; 177; 188; 200]%Z.

(** Three bars that only rise. *)
Definition climb : list Z := [1; 2; 3]%Z.

(** A column whose mean is 0. *)
Definition balanced : list Z := [-1; 0; 1]%Z.

(** A series that starts at a close of 0. *)
Definition from_zero : list Z := [0; 10]%Z.

(** A frame that already has a column called [RSI]. *)
Definition with_rsi : DataFrame :=
  [("Close", FloatCol [of_Z 1; of_Z 2]); ("RSI", FloatCol [of_Z 50; of_Z 50])].

(* ===================================================================== *)
(** ** Vocabulary of the further statements *)
(* ===================================================================== *)

(** The changes from one close to the next. *)
Definition steps (cs : list Q) : list Q :=
  zip_with (λ b a, Qred (b - a)) (tail cs) cs.

(** What a change adds to the gains and to the losses of [calculate_rsi]. *)
Definition gain_of (s : Q) : Q := if Qle_bool 0 s then s else 0%Q.

Definition loss_of (s : Q) : Q := Qred (- (if Qle_bool s 0 then s else 0%Q)).

(** Closes that rise, fall, or stay where they are, bar after bar. *)
Definition rising (cs : list Q) : Prop :=
  ∀ i a b, cs !! i = Some a → cs !! S i = Some b → (a < b)%Q.

Definition falling (cs : list Q) : Prop :=
  ∀ i a b, cs !! i = Some a → cs !! S i = Some b → (b < a)%Q.

Definition flat (cs : list Q) : Prop :=
  ∀ i a b, cs !! i = Some a → cs !! S i = Some b → (a == b)%Q.

(** The columns [add_technical_indicators] appends for its two flags. *)
Definition selected_columns (add_rsi add_macd : bool) (close : Series)
    : DataFrame :=
  (if add_rsi then [("RSI", FloatCol (rsi_series 14 close))] else [])
  ++ (if add_macd then macd_frame 12 26 9 close else []).

(** What a function may be handed for its [data]: [None], or a reference
    to a frame of the heap. *)
Definition live (σ : state) (data : option loc) : Prop :=
  match data with
  | Some d => is_Some (heap σ !! d)
  | None => True
  end.

(** The computation returns: no exception leaves it. *)
Definition returns {A} (m : M A) (σ : state) : Prop :=
  ∃ (a : A) (σ' : state), m σ = (Ok a, σ').

(** The computation returns [a], prints [lines] and leaves every frame as
    it is. *)
Definition reports {A} (m : M A) (σ : state) (a : A) (lines : list message)
    : Prop :=
  m σ = (Ok a, mkState (heap σ) (stdout σ ++ lines)).

(** The analysis steps of [main], between the download and the chart
    ([main.py], lines 56 to 65); [stock_data] is not [None] there. *)
Definition main_analysis (stock_data : loc) (ticker : string)
    : M (option loc * option Stats * option Analysis) :=
  stock_data ← add_moving_average (Some stock_data) 5;
  stock_data ← add_technical_indicators stock_data true true;
  notify_if_strong_fluctuations stock_data ticker (Fin 3);;
  calculate_average_price stock_data;;
  std_deviation ← calculate_standard_deviation stock_data "Close";
  trend_analysis ← advanced_price_analysis stock_data;
  mret (stock_data, std_deviation, trend_analysis).

(* ===================================================================== *)
(** ** Downloading and exporting: [fetch_stock_data], [export_data_to_csv] *)
(* ===================================================================== *)

(** The two functions talk to Yahoo Finance, to the file system and to the
    keyboard.  What those answer is not in the source: it is a parameter
    of the model, and every statement about the two functions holds for
    every such world. *)

(** An exception, as the handlers tell them apart: [except ValueError]
    takes a [ValueError] or an instance of a subclass, [except Exception]
    takes every one. *)
Inductive error : Type :=
| ValueErr (text : string)
| OtherErr (text : string).

Inductive result (A : Type) : Type :=
| Returned (a : A)
| Failed (e : error).
Arguments Returned {A} a.
Arguments Failed {A} e.

Class Outside : Type := {
  (** the object made by [yf.Ticker] *)
  Stock : Type;
  (** a [pd.Timestamp] *)
  Timestamp : Type;
  (** the files *)
  Disk : Type;
  yf_Ticker : string → result Stock;
  to_datetime : string → result Timestamp;
  (** [start >= end] *)
  timestamp_ge : Timestamp → Timestamp → result bool;
  (** [stock.history(start=start, end=end)] *)
  history_between : Stock → Timestamp → Timestamp → result DataFrame;
  (** [stock.history(period=period)] *)
  history_period : Stock → option string → result DataFrame;
  (** [s.lower()] *)
  str_lower : string → string;
  (** [os.path.exists(path)] *)
  path_exists : Disk → string → bool;
  (** [data.to_csv(path, index=True)]: may fail, and may have touched the
      disk when it does *)
  to_csv : DataFrame → string → Disk → result unit * Disk
}.

(** The lines of the two functions, with the values they format; the
    prompt of [input] is one of them. *)
Inductive line : Type :=
| DateOrderError
| DateFormatError (e : error)
| DownloadEmpty (ticker : string)
| DownloadError (e : error)
| NotADataFrame
| OverwritePrompt (filename : string)
| ExportCancelled
| ExportSaved (filename : string)
| ExportError (e : error).

(** [data.empty]: the frame has no column or no row.  The rows of a frame
    are the cells of its columns; a downloaded frame has numeric columns. *)
Definition frame_empty (data : DataFrame) : bool :=
  match data with
  | [] => true
  | (_, FloatCol []) :: _ => true
  | _ => false
  end.

(** The truth value of an optional string: [None] and [''] are false. *)
Definition truthy (s : option string) : option string :=
  match s with
  | Some text => if String.eqb text "" then None else Some text
  | None => None
  end.

(** [s.endswith(suffix)] *)
Definition endswith (s suffix : string) : bool :=
  (String.length suffix <=? String.length s)%nat
  && String.eqb (String.substring (String.length s - String.length suffix)
                                  (String.length suffix) s)
                suffix.

(** The answers [export_data_to_csv] takes for a yes. *)
Definition affirmative : list string := ["да"; "yes"; "y"].

Section outside.
Context `{Outside}.

Record world : Type := mkWorld {
  disk : Disk;
  stdin : list string;
  console : list line
}.

Definition IO (A : Type) : Type := world → result A * world.

#[global] Instance IO_ret : MRet IO := λ A a w, (Returned a, w).

#[global] Instance IO_bind : MBind IO := λ A B k m w,
  match m w with
  | (Returned a, w') => k a w'
  | (Failed e, w') => (Failed e, w')
  end.

(** A call into a library that changes nothing here. *)
Definition call {A} (r : result A) : IO A := λ w, (r, w).

(** [print(...)] *)
Definition say (l : line) : IO unit := λ w,
  (Returned (), mkWorld (disk w) (stdin w) (console w ++ [l])).

(** [input(prompt)]: the prompt is written, then a line is read; at the
    end of the input [EOFError] is raised. *)
Definition input (prompt : line) : IO string := λ w,
  let w' := mkWorld (disk w) (stdin w) (console w ++ [prompt]) in
  match stdin w with
  | answer :: rest => (Returned answer, mkWorld (disk w) rest (console w'))
  | [] => (Failed (OtherErr "EOF when reading a line"), w')
  end.

(** [os.path.exists(path)] *)
Definition exists_path (path : string) : IO bool := λ w,
  (Returned (path_exists (disk w) path), w).

(** [data.to_csv(path, index=True)] *)
Definition write_csv (data : DataFrame) (path : string) : IO unit := λ w,
  let '(r, d) := to_csv data path (disk w) in
  (r, mkWorld d (stdin w) (console w)).

(** [try: body except Exception as e: handler e] *)
Definition attempt {A} (body : IO A) (handler : error → IO A) : IO A := λ w,
  match body w with
  | (Failed e, w') => handler e w'
  | r => r
  end.

(** [try: body except ValueError as e: handler e] *)
Definition attempt_value {A} (body : IO A) (handler : error → IO A)
    : IO A := λ w,
  match body w with
  | (Failed (ValueErr text), w') => handler (ValueErr text) w'
  | r => r
  end.

(** [fetch_stock_data].  Inside the two [try] blocks a [return] is the
    right injection: the function is over, with that value. *)
Definition fetch_stock_data (ticker : string)
    (period start_date end_date : option string) : IO (option DataFrame) :=
  attempt
    (stock ← call (yf_Ticker ticker);
     downloaded ←
       match truthy start_date, truthy end_date with
       | Some start_date, Some end_date =>
           attempt_value
             (start ← call (to_datetime start_date);
              end_ ← call (to_datetime end_date);
              late ← call (timestamp_ge start end_);
              if late : bool then say DateOrderError;; mret (inr None)
              else
                data ← call (history_between stock start end_);
                mret (inl data))
             (λ date_error,
                say (DateFormatError date_error);; mret (inr None))
       | _, _ =>
           data ← call (history_period stock period);
           mret (inl data)
       end;
     match downloaded with
     | inr returned => mret returned
     | inl data =>
         if frame_empty data then say (DownloadEmpty ticker);; mret None
         else mret (Some data)
     end)
    (λ e, say (DownloadError e);; mret None).

(** The name [export_data_to_csv] writes to: the extension is added
    unless the name, in lower case, has it. *)
Definition csv_name (filename : string) : string :=
  if endswith (str_lower filename) ".csv" then filename
  else filename ++ ".csv".

(** [export_data_to_csv].  [data] is the frame to write, or [None] for a
    value that is not a [DataFrame]; [filename] is a string, so the second
    type test of the source always passes. *)
Definition export_data_to_csv (data : option DataFrame) (filename : string)
    : IO (option string) :=
  attempt
    (match data with
     | None => say NotADataFrame;; mret None
     | Some frame =>
         let filename := csv_name filename in
         present ← exists_path filename;
         confirmed ←
           (if present : bool then
              answer ← input (OverwritePrompt filename);
              let overwrite := str_lower answer in
              mret (bool_decide (overwrite ∈ affirmative))
            else mret true);
         if confirmed : bool then
           write_csv frame filename;;
           say (ExportSaved filename);;
           mret (Some filename)
         else say ExportCancelled;; mret None
     end)
    (λ e, say (ExportError e);; mret None).

End outside.

(** A small world for examples: every ticker is known and has one bar per
    letter of its name, dates are the strings of ten characters, compared
    as strings, the disk is a table of frames and writing never fails. *)
Definition lower_ascii (c : Ascii.ascii) : Ascii.ascii :=
  let n := Ascii.nat_of_ascii c in
  if (65 <=? n)%nat && (n <=? 90)%nat then Ascii.ascii_of_nat (n + 32)
  else c.

Fixpoint lower_string (s : string) : string :=
  match s with
  | EmptyString => EmptyString
  | String c rest => String (lower_ascii c) (lower_string rest)
  end.

Definition sample_outside : Outside := {|
  Stock := string;
  Timestamp := string;
  Disk := gmap string DataFrame;
  yf_Ticker := λ ticker, Returned ticker;
  to_datetime := λ s,
    if (String.length s =? 10)%nat then Returned s
    else Failed (ValueErr "Unknown datetime string format");
  timestamp_ge := λ a b, Returned (String.leb b a);
  history_between := λ stock _ _,
    Returned [("Close", FloatCol (replicate (String.length stock) (Fin 1)))];
  history_period := λ stock _,
    Returned [("Close", FloatCol (replicate (String.length stock) (Fin 1)))];
  str_lower := lower_string;
  path_exists := λ d path, bool_decide (is_Some (d !! path));
  to_csv := λ data path d, (Returned (), <[path := data]> d)
|}.

(* ===================================================================== *)
(** ** Binary64 arithmetic *)
(* ===================================================================== *)

(** The cells of a frame are IEEE 754 binary64 numbers and numpy computes
    on them in binary64: the result of an operation is the exact result,
    rounded to the nearest binary64 number, ties to the even significand,
    and to an infinity beyond the largest number.  Where a statement turns
    on the last bit - a comparison with a threshold - the functions are
    taken with this arithmetic.  Zero carries no sign. *)
Module b64.

(** [floor (log2 a)], for [a > 0]. *)
Definition ilog2 (a : Q) : Z :=
  let k := (Z.log2 (Qnum a) - Z.log2 (Zpos (Qden a)))%Z in
  if Qle_bool (2 ^ k) a then k else (k - 1)%Z.

(** The exponent of the last place of [a]: 52 below its leading bit, and
    not below that of the subnormal numbers. *)
Definition ulp_exponent (a : Q) : Z := Z.max (ilog2 a - 52) (-1074).

(** The binary64 number nearest to [q]. *)
Definition round64 (q : Q) : float64 :=
  if Qeq_bool q 0 then Fin 0
  else
    let a := Qabs q in
    let e := ulp_exponent a in
    let r := (inject_Z (round_half_even (a / 2 ^ e)) * 2 ^ e)%Q in
    if Qle_bool (2 ^ 1024) r then (if Qle_bool 0 q then PInf else NInf)
    else Fin (Qred (if Qle_bool 0 q then r else - r)).

Definition rnd (x : float64) : float64 :=
  match x with
  | Fin q => round64 q
  | _ => x
  end.

Definition sub (x y : float64) : float64 := rnd (fsub x y).
Definition mul (x y : float64) : float64 := rnd (fmul x y).
Definition div (x y : float64) : float64 := rnd (fdiv x y).

(** [np.rint]: to the nearest integer, ties to the even one. *)
Definition rint (x : float64) : float64 :=
  match x with
  | Fin q => Fin (inject_Z (round_half_even q))
  | _ => x
  end.


(** [round(x, 2)] of a numpy float, as [np.round] computes it: times 100,
    to the nearest integer, divided by 100. *)
Definition round2 (x : float64) : float64 :=
  div (rint (mul x (Fin 100))) (Fin 100).

(** [((max_price - min_price) / min_price) * 100] *)
Definition price_range_percent (min_price max_price : float64) : float64 :=
  mul (div (sub max_price min_price) min_price) (Fin 100).

(** [notify_if_strong_fluctuations], with the arithmetic of the source. *)
Definition notify_if_strong_fluctuations (data : option loc) (ticker : string)
    (threshold : float64) : M (option FluctuationInfo) :=
  match data with
  | None => print NoDataFluctuations;; mret None
  | Some d =>
      try_except
        (close_prices ← getitem d "Close" ≫= numeric;
         let min_price := pd.min close_prices in
         let max_price := pd.max close_prices in
         let percent := price_range_percent min_price max_price in
         if fgtb percent threshold then
           let fluctuation_info :=
             {| fi_ticker := ticker;
                fi_min_price := min_price;
                fi_max_price := max_price;
                fi_fluctuation_percent := round2 percent |} in
           print (FluctuationWarning ticker);;
           print (FluctuationRange min_price max_price);;
           print (FluctuationPercent percent);;
           mret (Some fluctuation_info)
         else mret None)
        (λ e, print (FluctuationError e);; mret None)
  end.

End b64.

(** A number that binary64 holds as it is. *)
Definition binary64 (q : Q) : Prop := b64.round64 q = Fin q.

(** Two bars, 100 then 107: the exact range is 7 percent. *)
Definition seven_percent : list Z := [100; 107]%Z.
(* ===================================================================== *)
(** ** Facts about the numbers *)
(* ===================================================================== *)

Lemma Qred_zero (q : Q) : (q == 0)%Q → Qred q = 0%Q.
Proof. intros H. apply (Qred_complete q 0 H). Qed.

Lemma Qeq_bool_false (a b : Q) : ¬ (a == b)%Q → Qeq_bool a b = false.
Proof.
  intros H. destruct (Qeq_bool a b) eqn:E; [|done].
  apply Qeq_bool_iff in E. contradiction.
Qed.

Lemma Qle_bool_false (a b : Q) : (b < a)%Q → Qle_bool a b = false.
Proof.
  intros H. destruct (Qle_bool a b) eqn:E; [|done].
  apply Qle_bool_iff in E. lra.
Qed.

Lemma Qcompare_Gt (a b : Q) : (b < a)%Q → (a ?= b)%Q = Gt.
Proof. intros H. by apply Qgt_alt. Qed.

Lemma Qcompare_Eq (a b : Q) : (a == b)%Q → (a ?= b)%Q = Eq.
Proof. intros H. by apply Qeq_alt. Qed.

Lemma fltb_Fin (a b : Q) : fltb (Fin a) (Fin b) = true ↔ (a < b)%Q.
Proof.
  simpl. rewrite negb_true_iff. split; intros H.
  - destruct (Qlt_le_dec a b) as [|Hle]; [done|].
    apply Qle_bool_iff in Hle. congruence.
  - by apply Qle_bool_false.
Qed.

Lemma fltb_Fin_false (a b : Q) : fltb (Fin a) (Fin b) = false ↔ (b <= a)%Q.
Proof.
  simpl. rewrite negb_false_iff. apply Qle_bool_iff.
Qed.

(* ===================================================================== *)
(** ** Rolling windows *)
(* ===================================================================== *)

Section rolling.
Implicit Types (xs : Series) (qs : list Q) (w t : nat).

Lemma observations_Fin qs : pd.observations (Fin <$> qs) = qs.
Proof.
  unfold pd.observations.
  induction qs as [|q qs IH]; csimpl; [done|]. by rewrite IH.
Qed.

Lemma length_observations xs : length (pd.observations xs) ≤ length xs.
Proof.
  induction xs as [|x xs IH]; simpl; [done|].
  destruct x; simpl; lia.
Qed.

Lemma observations_full xs :
  length (pd.observations xs) = length xs → xs = Fin <$> pd.observations xs.
Proof.
  induction xs as [|x xs IH]; simpl; [done|].
  pose proof (length_observations xs).
  destruct x; simpl; intros Hl; try lia.
  f_equal. apply IH. lia.
Qed.

Lemma length_roll_mean w xs : length (pd.roll_mean w xs) = length xs.
Proof. unfold pd.roll_mean. by rewrite length_fmap, length_seq. Qed.

Lemma roll_mean_lookup w xs t :
  t < length xs → pd.roll_mean w xs !! t = Some (pd.roll_mean_at w xs t).
Proof.
  intros Ht. unfold pd.roll_mean.
  rewrite list_lookup_fmap, lookup_seq_lt by done. done.
Qed.

Lemma length_window_at w t xs :
  length (pd.window_at w t xs) = (t + 1) `min` length xs - (t + 1 - w).
Proof. unfold pd.window_at. by rewrite length_drop, length_take. Qed.

Lemma window_at_trailing w t xs :
  w ≤ t + 1 → pd.window_at w t xs = take w (drop (t + 1 - w) xs).
Proof.
  intros Hw. unfold pd.window_at. rewrite take_drop_commute.
  do 2 f_equal. lia.
Qed.

(** Before the window is full there is no value. *)
Lemma roll_mean_at_warmup w t xs : t + 1 < w → pd.roll_mean_at w xs t = NaN.
Proof.
  intros Ht. unfold pd.roll_mean_at.
  pose proof (length_observations (pd.window_at w t xs)) as Hobs.
  rewrite length_window_at in Hobs.
  destruct (w <=? _)%nat eqn:E; [|done].
  apply Nat.leb_le in E. lia.
Qed.

(** A full window of numbers gives their mean. *)
Lemma roll_mean_at_full w t xs qs :
  0 < w → w ≤ t + 1 → length qs = w →
  take w (drop (t + 1 - w) xs) = Fin <$> qs →
  pd.roll_mean_at w xs t
  = Fin (Qred (pd.Qsum qs / inject_Z (Z.of_nat w))).
Proof.
  intros Hw Ht Hlen Hwin. unfold pd.roll_mean_at.
  rewrite window_at_trailing, Hwin, observations_Fin, Hlen by done.
  rewrite Nat.leb_refl. simpl.
  destruct (0 <? w)%nat eqn:E; [done|]. apply Nat.ltb_ge in E. lia.
Qed.

(** A value is only ever produced from a full window of numbers. *)
Lemma roll_mean_at_defined w t xs v :
  pd.roll_mean_at w xs t = v → v ≠ NaN →
  0 < w ∧ w ≤ t + 1 ∧
  ∃ qs, length qs = w ∧ take w (drop (t + 1 - w) xs) = Fin <$> qs.
Proof.
  intros Hv Hnan.
  destruct (decide (t + 1 < w)) as [Hlt|Hge].
  { rewrite roll_mean_at_warmup in Hv by done. congruence. }
  unfold pd.roll_mean_at in Hv.
  destruct (_ && _) eqn:E; [|congruence].
  apply andb_true_iff in E as [E1 E2].
  apply Nat.leb_le in E1. apply Nat.ltb_lt in E2.
  pose proof (length_observations (pd.window_at w t xs)) as Hobs.
  assert (length (pd.window_at w t xs) ≤ w) as Hwl.
  { rewrite length_window_at. lia. }
  assert (length (pd.observations (pd.window_at w t xs)) = w) as Hfull by lia.
  split; [lia|]. split; [lia|].
  exists (pd.observations (pd.window_at w t xs)). split; [done|].
  rewrite <- window_at_trailing by lia.
  apply observations_full. lia.
Qed.

End rolling.

(* ===================================================================== *)
(** ** Running the monad *)
(* ===================================================================== *)

Lemma bind_run {A B} (m : M A) (k : A → M B) (σ : state) :
  (m ≫= k) σ
  = match m σ with
    | (Ok a, σ') => k a σ'
    | (Raise e, σ') => (Raise e, σ')
    end.
Proof. done. Qed.

Lemma getitem_run (σ : state) (d : loc) (f : DataFrame) (label : string) :
  heap σ !! d = Some f →
  getitem d label σ
  = match frame_get f label with
    | Some c => (Ok c, σ)
    | None => (Raise (KeyError label), σ)
    end.
Proof.
  intros Hd. unfold getitem. rewrite bind_run. unfold deref. rewrite Hd.
  by destruct (frame_get f label).
Qed.

Lemma subscript_numeric_run (σ : state) (d : loc) (f : DataFrame)
    (label : string) (xs : Series) :
  heap σ !! d = Some f →
  frame_get f label = Some (FloatCol xs) →
  (getitem d label ≫= numeric) σ = (Ok xs, σ).
Proof.
  intros Hd Hc. rewrite bind_run, (getitem_run σ d f) by done.
  by rewrite Hc.
Qed.

Lemma setitem_run (σ : state) (d : loc) (f : DataFrame) (label : string)
    (c : column) :
  heap σ !! d = Some f →
  setitem d label c σ
  = (Ok (), mkState (<[d := frame_set f label c]> (heap σ)) (stdout σ)).
Proof.
  intros Hd. unfold setitem. rewrite bind_run. unfold deref. by rewrite Hd.
Qed.


Lemma has_column_run (σ : state) (d : loc) (f : DataFrame) (label : string) :
  heap σ !! d = Some f →
  has_column d label σ = (Ok (bool_decide (is_Some (frame_get f label))), σ).
Proof.
  intros Hd. unfold has_column. rewrite bind_run. unfold deref. by rewrite Hd.
Qed.

Lemma has_close_run (σ : state) (d : loc) (f : DataFrame) (close : Series) :
  heap σ !! d = Some f →
  price_frame f close →
  has_column d "Close" σ = (Ok true, σ).
Proof.
  intros Hd [_ Hc]. rewrite (has_column_run σ d f) by done.
  rewrite Hc. by rewrite bool_decide_eq_true_2.
Qed.

Lemma deref_run (σ : state) (d : loc) (f : DataFrame) :
  heap σ !! d = Some f → deref d σ = (Ok f, σ).
Proof. intros Hd. unfold deref. by rewrite Hd. Qed.

Lemma copy_run (σ : state) (d : loc) (f : DataFrame) :
  heap σ !! d = Some f → copy d σ = alloc f σ.
Proof. intros Hd. unfold copy. by rewrite bind_run, (deref_run σ d f). Qed.

Lemma concat_columns_run (σ : state) (a b : loc) (fa fb : DataFrame) :
  heap σ !! a = Some fa → heap σ !! b = Some fb →
  concat_columns a b σ = alloc (fa ++ fb) σ.
Proof.
  intros Ha Hb. unfold concat_columns.
  rewrite bind_run, (deref_run σ a fa) by done.
  by rewrite bind_run, (deref_run σ b fb).
Qed.

Lemma state_eta (σ : state) : mkState (heap σ) (stdout σ) = σ.
Proof. by destruct σ. Qed.

Lemma alloc_run (σ : state) (f : DataFrame) :
  alloc f σ
  = (Ok (fresh (dom (heap σ))),
     mkState (<[fresh (dom (heap σ)) := f]> (heap σ)) (stdout σ)).
Proof. done. Qed.

Lemma fresh_unused (h : gmap nat (list (string * column))) :
  h !! fresh (dom h) = None.
Proof. apply not_elem_of_dom, is_fresh. Qed.

Lemma print_run (m : message) (σ : state) :
  print m σ = (Ok (), mkState (heap σ) (stdout σ ++ [m])).
Proof. done. Qed.

Lemma ret_run {A} (a : A) (σ : state) : (mret a : M A) σ = (Ok a, σ).
Proof. done. Qed.

Lemma lift_run {A} (o : outcome A) (σ : state) : lift o σ = (o, σ).
Proof. done. Qed.

Lemma raise_run {A} (e : exn) (σ : state) :
  (raise e : M A) σ = (Raise e, σ).
Proof. done. Qed.

(** Runs the binds, prints, allocations and returns at the head of a
    computation. *)
Ltac mrun :=
  repeat first
    [ rewrite bind_run
    | rewrite print_run
    | rewrite alloc_run
    | rewrite ret_run
    | rewrite lift_run
    | rewrite raise_run
    | progress cbn [numeric]
    | progress cbv beta iota
    | progress cbn [heap stdout] ].

(** Running [notify_if_strong_fluctuations] on a frame of bars. *)
Lemma notify_run (σ : state) (d : loc) (f : DataFrame) (close : Series)
    (ticker : string) (threshold : float64) :
  heap σ !! d = Some f →
  price_frame f close →
  let lo := pd.min close in
  let hi := pd.max close in
  let percent := price_range_percent lo hi in
  notify_if_strong_fluctuations (Some d) ticker threshold σ
  = if fgtb percent threshold
    then (Ok (Some {| fi_ticker := ticker;
                      fi_min_price := lo;
                      fi_max_price := hi;
                      fi_fluctuation_percent := fround2 percent |}),
          mkState (heap σ) (stdout σ ++ alert_lines ticker lo hi percent))
    else (Ok None, σ).
Proof.
  intros Hd [_ Hclose] lo hi percent.
  unfold notify_if_strong_fluctuations, try_except.
  rewrite bind_run, (subscript_numeric_run σ d f "Close" close) by done.
  cbv beta iota zeta. fold lo hi percent.
  destruct (fgtb percent threshold); [|done].
  mrun. unfold alert_lines. by rewrite <- !app_assoc.
Qed.

(* ===================================================================== *)
(** ** Frames and the heap *)
(* ===================================================================== *)

Lemma frame_get_set_ne (f : DataFrame) (label k : string) (c : column) :
  k ≠ label → frame_get (frame_set f label c) k = frame_get f k.
Proof.
  intros Hne. induction f as [|[k0 c0] f IH]; simpl.
  - by rewrite (proj2 (String.eqb_neq label k)).
  - destruct (String.eqb k0 label) eqn:E; simpl.
    + apply String.eqb_eq in E as ->.
      by rewrite (proj2 (String.eqb_neq label k)).
    + by rewrite IH.
Qed.

Lemma frame_get_set_eq (f : DataFrame) (label : string) (c : column) :
  frame_get (frame_set f label c) label = Some c.
Proof.
  induction f as [|[k0 c0] f IH]; simpl.
  - by rewrite String.eqb_refl.
  - destruct (String.eqb k0 label) eqn:E; simpl; by rewrite E.
Qed.

(** Assigning to a label the frame does not have appends the column. *)
Lemma frame_set_new (f : DataFrame) (label : string) (c : column) :
  frame_get f label = None → frame_set f label c = f ++ [(label, c)].
Proof.
  induction f as [|[k0 c0] f IH]; simpl; [done|].
  destruct (String.eqb k0 label); [done|]. intros H. by rewrite IH.
Qed.

Section keeps.
Context (h0 : gmap nat (list (string * column))).
















End keeps.




(* ===================================================================== *)
(** ** The moving average *)
(* ===================================================================== *)

(** C2.  On a frame of [L] bars and a window [1 <= w <= L],
    [add_moving_average] stores a [Moving_Average] column of length [L];
    its first [w - 1] entries are NaN; the entry at [w - 1] is the exact
    arithmetic mean of the closes [0 .. w-1]; every entry at [t >= w - 1]
    over a window of numbers is the exact mean of the [w] closes that end
    at [t]; and an entry that is defined is always such a mean. *)
Theorem add_moving_average_trailing_mean (σ : state) (d : loc)
    (f : DataFrame) (close : Series) (w : nat) :
  heap σ !! d = Some f →
  price_frame f close →
  1 ≤ w ≤ length close →
  ∃ ma : Series,
    add_moving_average (Some d) (Z.of_nat w) σ
    = (Ok (Some d),
       mkState (<[d := frame_set f "Moving_Average" (FloatCol ma)]> (heap σ))
               (stdout σ))
    ∧ length ma = length close
    ∧ (∀ t, t < w - 1 → ma !! t = Some NaN)
    ∧ (∀ qs, take w close = Fin <$> qs →
         ∃ m, ma !! (w - 1) = Some (Fin m) ∧ (m == arithmetic_mean qs)%Q)
    ∧ (∀ t qs, w - 1 ≤ t < length close →
         trailing w t close = Fin <$> qs →
         ∃ m, ma !! t = Some (Fin m) ∧ (m == arithmetic_mean qs)%Q)
    ∧ (∀ t v, ma !! t = Some v → v ≠ NaN →
         w - 1 ≤ t ∧
         ∃ qs m, trailing w t close = Fin <$> qs ∧ v = Fin m
                 ∧ (m == arithmetic_mean qs)%Q).
Proof.
  intros Hd [_ Hclose] [Hw1 HwL].
  exists (pd.roll_mean w close).
  assert (∀ t qs, w - 1 ≤ t < length close →
            trailing w t close = Fin <$> qs →
            ∃ m, pd.roll_mean w close !! t = Some (Fin m)
                 ∧ (m == arithmetic_mean qs)%Q) as Hmean.
  { intros t qs [Hlo Hhi] Hwin.
    assert (length qs = w) as Hlen.
    { apply (f_equal length) in Hwin. unfold trailing in Hwin.
      rewrite length_fmap, length_take, length_drop in Hwin. lia. }
    eexists. split.
    - rewrite roll_mean_lookup by done.
      by rewrite (roll_mean_at_full w t close qs) by (done || lia).
    - unfold arithmetic_mean. rewrite Hlen. apply Qred_correct. }
  split; [|split; [|split; [|split; [|split]]]].
  - unfold add_moving_average, try_except.
    rewrite bind_run, (subscript_numeric_run σ d f "Close" close) by done.
    rewrite bind_run. unfold lift, pd.rolling_mean.
    destruct (Z.of_nat w <? 0)%Z eqn:E; [apply Z.ltb_lt in E; lia|].
    rewrite Nat2Z.id, bind_run, (setitem_run σ d f) by done. done.
  - apply length_roll_mean.
  - intros t Ht. rewrite roll_mean_lookup by lia.
    by rewrite roll_mean_at_warmup by lia.
  - intros qs Hqs. apply Hmean; [lia|].
    unfold trailing. by replace (w - 1 + 1 - w) with 0 by lia.
  - done.
  - intros t v Hv Hnan.
    assert (t < length close) as Ht.
    { apply lookup_lt_Some in Hv. by rewrite length_roll_mean in Hv. }
    rewrite roll_mean_lookup in Hv by done. injection Hv as Hv.
    destruct (roll_mean_at_defined w t close v Hv Hnan)
      as (_ & Hwt & qs & Hlen & Hwin).
    split; [lia|].
    destruct (Hmean t qs) as (m & Hm & Hmq); [lia|done|].
    exists qs, m. split; [done|]. split; [|done].
    rewrite roll_mean_lookup in Hm by done. congruence.
Qed.

(** The example of the specification: seven bars, a window of 3; entries 0
    and 1 are NaN and entry 2 is (100 + 102 + 101) / 3 = 101. *)
Lemma add_moving_average_trailing_mean_witness :
  ∃ ma : Series,
    (add_moving_average (Some 0%nat) 3 (one_frame (bars week))).1
    = Ok (Some 0%nat)
    ∧ heap (add_moving_average (Some 0%nat) 3 (one_frame (bars week))).2
        !! 0%nat
      = Some (bars week ++ [("Moving_Average", FloatCol ma)])
    ∧ length ma = 7
    ∧ ma !! 0%nat = Some NaN
    ∧ ma !! 1%nat = Some NaN
    ∧ ∃ m, ma !! 2%nat = Some (Fin m) ∧ (m == 101)%Q.
Proof.
  destruct (add_moving_average_trailing_mean
              (one_frame (bars week)) 0 (bars week) (of_Z <$> week) 3)
    as (ma & Hrun & Hlen & Hwarm & Hfirst & _).
  - reflexivity.
  - split; [apply NoDup_singleton|reflexivity].
  - simpl. lia.
  - exists ma. change (Z.of_nat 3) with 3%Z in Hrun. rewrite Hrun.
    split; [reflexivity|]. split; [reflexivity|]. split; [exact Hlen|].
    split; [apply Hwarm; simpl; lia|]. split; [apply Hwarm; simpl; lia|].
    destruct (Hfirst [100; 102; 101]%Q eq_refl) as (m & Hm & Hmean).
    exists m. split; [exact Hm|]. rewrite Hmean. reflexivity.
Defined.

(* ===================================================================== *)
(** ** The relative strength index *)
(* ===================================================================== *)

Section rsi.
Implicit Types (xs close : Series) (w t : nat).

Lemma length_diff xs : length (pd.diff xs) = length xs.
Proof.
  destruct xs as [|x tl]; simpl; [done|].
  rewrite length_zip_with. simpl. lia.
Qed.

Lemma length_rsi_gain close : length (rsi_gain close) = length close.
Proof.
  unfold rsi_gain, pd.clip_lower0. by rewrite length_fmap, length_diff.
Qed.

Lemma length_rsi_loss close : length (rsi_loss close) = length close.
Proof.
  unfold rsi_loss, pd.neg, pd.clip_upper0.
  by rewrite !length_fmap, length_diff.
Qed.





(** A rolling mean is NaN or a number. *)
Lemma roll_mean_at_cases w xs t :
  pd.roll_mean_at w xs t = NaN ∨ ∃ q, pd.roll_mean_at w xs t = Fin q.
Proof.
  unfold pd.roll_mean_at. destruct (_ && _); eauto.
Qed.

Lemma rsi_of_strength_saturated (g l : Q) :
  (0 < g)%Q → (l == 0)%Q →
  rsi_of_strength (fdiv (Fin g) (Fin l)) = Fin 100.
Proof.
  intros Hg Hl. unfold fdiv.
  rewrite (proj2 (Qeq_bool_iff l 0) Hl), Qcompare_Gt by done.
  reflexivity.
Qed.



End rsi.

Lemma rolling_mean_run (periods : Z) (xs : Series) :
  pd.rolling_mean periods xs
  = if (periods <? 0)%Z
    then Raise (ValueError "window must be an integer 0 or greater")
    else Ok (pd.roll_mean (Z.to_nat periods) xs).
Proof. done. Qed.



(* ===================================================================== *)
(** ** MACD *)
(* ===================================================================== *)

Section macd.
Implicit Types (qs ys : list Q) (alpha : Q).

Lemma ewm_alpha_spec (span : Z) :
  (1 <= span)%Z → (pd.ewm_alpha span == spec_alpha span)%Q.
Proof.
  intros Hs. unfold pd.ewm_alpha, spec_alpha.
  assert (1 <= inject_Z span)%Q as H1.
  { change 1%Q with (inject_Z 1). by rewrite <- Zle_Qle. }
  field; lra.
Qed.

(** One turn of the loop on numbers. *)
Lemma ewm_step_number alpha (prev x : Q) :
  ∃ y, (if feqb (Fin prev) (Fin x) then Fin prev
        else fdiv (fadd (fmul (Fin (1 * (1 - alpha))) (Fin prev))
                        (fmul (Fin alpha) (Fin x)))
                  (Fin (1 * (1 - alpha) + alpha))) = Fin y
       ∧ (y == alpha * x + (1 - alpha) * prev)%Q.
Proof.
  cbn [feqb]. destruct (Qeq_bool prev x) eqn:E.
  { apply Qeq_bool_iff in E. exists prev. split; [done|]. rewrite <- E. ring. }
  assert (1 * (1 - alpha) + alpha == 1)%Q as Hden by ring.
  cbn [fmul fadd fdiv]. rewrite Qeq_bool_false by (rewrite Hden; lra).
  eexists. split; [done|].
  rewrite !Qred_correct, Hden. field.
Qed.

Lemma ewm_loop_numbers alpha (prev : Q) (nobs : nat) qs :
  1 ≤ nobs →
  ∃ ys, pd.ewm_loop alpha (Fin prev) 1 nobs (Fin <$> qs) = Fin <$> ys
        ∧ length ys = length qs
        ∧ ∀ t x p y,
            qs !! t = Some x → (prev :: ys) !! t = Some p → ys !! t = Some y →
            (y == alpha * x + (1 - alpha) * p)%Q.
Proof.
  revert prev nobs. induction qs as [|x qs IH]; intros prev nobs Hn.
  { exists []. split; [done|]. split; [done|]. intros t ????. by destruct t. }
  destruct (ewm_step_number alpha prev x) as (y & Hy & Hrec).
  destruct (IH y (S nobs)) as (ys & Hys & Hlen & Hchain); [lia|].
  exists (y :: ys). split; [|split].
  - rewrite fmap_cons. cbn [pd.ewm_loop is_observation].
    rewrite Hy, Hys. done.
  - simpl. by rewrite Hlen.
  - intros [|t] x' p y' Hx Hp Hy'; simpl in *.
    + congruence.
    + by apply (Hchain t).
Qed.

Lemma ewm_numbers alpha qs :
  ∃ ys, pd.ewm alpha (Fin <$> qs) = Fin <$> ys ∧ is_ema alpha qs ys.
Proof.
  destruct qs as [|x0 qs].
  { exists []. split; [done|]. split; [done|]. split; [done|].
    intros t ????. by destruct t. }
  destruct (ewm_loop_numbers alpha x0 1 qs) as (ys & Hys & Hlen & Hchain);
    [done|].
  exists (x0 :: ys). split; [|split; [|split]].
  - rewrite fmap_cons. cbn [pd.ewm is_observation Nat.leb]. by rewrite Hys.
  - simpl. by rewrite Hlen.
  - done.
  - intros t x p y Hx Hp Hy. by apply (Hchain t).
Qed.

Lemma ewm_mean_numbers (span : Z) qs :
  (1 <= span)%Z →
  ∃ ys, pd.ewm_mean span (Fin <$> qs) = Ok (Fin <$> ys)
        ∧ is_ema (pd.ewm_alpha span) qs ys.
Proof.
  intros Hs. unfold pd.ewm_mean.
  destruct (span <? 1)%Z eqn:E; [apply Z.ltb_lt in E; lia|].
  destruct (ewm_numbers (pd.ewm_alpha span) qs) as (ys & -> & Hema).
  by exists ys.
Qed.

Lemma is_ema_alpha alpha alpha' qs ys :
  (alpha == alpha')%Q → is_ema alpha qs ys → is_ema alpha' qs ys.
Proof.
  intros Ha (Hlen & H0 & Hrec). split; [done|]. split; [done|].
  intros t x p y Hx Hp Hy. rewrite <- Ha. by apply (Hrec t).
Qed.

(** The difference of two series of numbers, cell by cell. *)
Lemma zip_with_fsub_numbers (xs ys : list Q) :
  zip_with fsub (Fin <$> xs) (Fin <$> ys)
  = Fin <$> zip_with (λ a b, Qred (a - b)) xs ys.
Proof.
  revert ys. induction xs as [|x xs IH]; intros [|y ys]; csimpl; try done.
  by rewrite IH.
Qed.

End macd.

(** C4.  On a frame whose closes are numbers, and for spans of at least 1
    (the defaults are 12, 26 and 9), [calculate_macd] returns a new frame
    whose three columns hold a number at every position; the two averages
    and the signal line follow [ema[0] = x[0]],
    [ema[t] = alpha * x[t] + (1 - alpha) * ema[t-1]] with
    [alpha = 2 / (span + 1)]; the MACD line is their difference and the
    histogram is the MACD line minus the signal line at every position. *)
Theorem calculate_macd_defined (σ : state) (d : loc) (f : DataFrame)
    (cs : list Q) (fast slow signal : Z) :
  heap σ !! d = Some f →
  price_frame f (Fin <$> cs) →
  (1 <= fast)%Z → (1 <= slow)%Z → (1 <= signal)%Z →
  ∃ (m : loc) (fast_ema slow_ema macd signal_line histogram : list Q),
    calculate_macd (Some d) fast slow signal σ
    = (Ok (Some m),
       mkState (<[m := [("MACD", FloatCol (Fin <$> macd));
                        ("Signal_Line", FloatCol (Fin <$> signal_line));
                        ("Histogram", FloatCol (Fin <$> histogram))]]>
                  (heap σ))
               (stdout σ))
    ∧ heap σ !! m = None
    ∧ length macd = length cs
    ∧ length signal_line = length cs
    ∧ length histogram = length cs
    ∧ is_ema (spec_alpha fast) cs fast_ema
    ∧ is_ema (spec_alpha slow) cs slow_ema
    ∧ (∀ t, t < length cs →
         ∃ a b c, fast_ema !! t = Some a ∧ slow_ema !! t = Some b
                  ∧ macd !! t = Some c ∧ (c == a - b)%Q)
    ∧ is_ema (spec_alpha signal) macd signal_line
    ∧ (∀ t, t < length cs →
         ∃ a b h, macd !! t = Some a ∧ signal_line !! t = Some b
                  ∧ histogram !! t = Some h
                  ∧ Fin h = fsub (Fin a) (Fin b) ∧ (h == a - b)%Q).
Proof.
  intros Hd Hpf Hfast Hslow Hsignal. pose proof Hpf as [_ Hclose].
  destruct (ewm_mean_numbers fast cs Hfast) as (e1 & He1 & Hema1).
  destruct (ewm_mean_numbers slow cs Hslow) as (e2 & He2 & Hema2).
  set (macd := zip_with (λ a b, Qred (a - b)) e1 e2).
  destruct (ewm_mean_numbers signal macd Hsignal) as (sg & Hsg & Hema3).
  set (hist := zip_with (λ a b, Qred (a - b)) macd sg).
  assert (length e1 = length cs) as Hl1 by apply Hema1.
  assert (length e2 = length cs) as Hl2 by apply Hema2.
  assert (length macd = length cs) as Hlm.
  { unfold macd. rewrite length_zip_with. lia. }
  assert (length sg = length cs) as Hls.
  { rewrite <- Hlm. apply Hema3. }
  assert (length hist = length cs) as Hlh.
  { unfold hist. rewrite length_zip_with. lia. }
  exists (fresh (dom (heap σ))), e1, e2, macd, sg, hist.
  split; [|split; [|split; [|split; [|split; [|split; [|split;
    [|split; [|split]]]]]]]]; try done.
  - unfold calculate_macd.
    rewrite bind_run, (has_close_run σ d f (Fin <$> cs)) by done.
    cbn [negb]. unfold try_except.
    rewrite bind_run, (subscript_numeric_run σ d f "Close" (Fin <$> cs))
      by done.
    rewrite bind_run. unfold lift. rewrite He1. cbv beta iota.
    rewrite bind_run, He2. cbv beta iota zeta.
    rewrite zip_with_fsub_numbers. fold macd.
    rewrite bind_run, Hsg. cbv beta iota zeta.
    rewrite zip_with_fsub_numbers. fold hist.
    rewrite bind_run, alloc_run. done.
  - apply fresh_unused.
  - by apply (is_ema_alpha (pd.ewm_alpha fast)); [apply ewm_alpha_spec|].
  - by apply (is_ema_alpha (pd.ewm_alpha slow)); [apply ewm_alpha_spec|].
  - intros t Ht.
    destruct (lookup_lt_is_Some_2 e1 t) as [a Ha]; [lia|].
    destruct (lookup_lt_is_Some_2 e2 t) as [b Hb]; [lia|].
    exists a, b, (Qred (a - b)). split; [done|]. split; [done|].
    split; [|apply Qred_correct].
    unfold macd. apply lookup_zip_with_Some. by exists a, b.
  - by apply (is_ema_alpha (pd.ewm_alpha signal)); [apply ewm_alpha_spec|].
  - intros t Ht.
    destruct (lookup_lt_is_Some_2 macd t) as [a Ha]; [lia|].
    destruct (lookup_lt_is_Some_2 sg t) as [b Hb]; [lia|].
    exists a, b, (Qred (a - b)). split; [done|]. split; [done|].
    split; [|split; [done|apply Qred_correct]].
    unfold hist. apply lookup_zip_with_Some. by exists a, b.
Qed.

(** Seven bars and the default spans 12, 26 and 9. *)
Lemma calculate_macd_defined_witness :
  ∃ (m : loc) (macd signal_line histogram : list Q),
    (calculate_macd (Some 0%nat) 12 26 9 (one_frame (bars week))).1
    = Ok (Some m)
    ∧ heap (calculate_macd (Some 0%nat) 12 26 9 (one_frame (bars week))).2
        !! m
      = Some [("MACD", FloatCol (Fin <$> macd));
              ("Signal_Line", FloatCol (Fin <$> signal_line));
              ("Histogram", FloatCol (Fin <$> histogram))]
    ∧ length macd = 7 ∧ length signal_line = 7 ∧ length histogram = 7
    ∧ is_ema (spec_alpha 9) macd signal_line.
Proof.
  destruct (calculate_macd_defined
              (one_frame (bars week)) 0 (bars week) (inject_Z <$> week)
              12 26 9)
    as (m & e1 & e2 & macd & sg & hist & Hrun & _ & Hl1 & Hl2 & Hl3 & _ & _
        & _ & Hema & _).
  - reflexivity.
  - split; [apply NoDup_singleton|reflexivity].
  - lia.
  - lia.
  - lia.
  - exists m, macd, sg, hist. rewrite Hrun. cbn [fst snd heap].
    split; [reflexivity|]. split; [apply lookup_insert_eq|].
    split; [exact Hl1|]. split; [exact Hl2|]. split; [exact Hl3|exact Hema].
Defined.

(* ===================================================================== *)
(** ** Extremes, and the fluctuation alert *)
(* ===================================================================== *)

Section extremes.
Implicit Types (cs : list Q).

Lemma dropna_numbers cs : pd.dropna (Fin <$> cs) = Fin <$> cs.
Proof.
  unfold pd.dropna. induction cs as [|c cs IH]; csimpl; [done|].
  by rewrite IH.
Qed.

Lemma foldl_min_numbers (m : Q) cs :
  ∃ lo, foldl (λ m y, if fltb y m then y else m) (Fin m) (Fin <$> cs) = Fin lo
        ∧ lo ∈ m :: cs ∧ (lo <= m)%Q ∧ ∀ x, x ∈ cs → (lo <= x)%Q.
Proof.
  revert m. induction cs as [|y cs IH]; intros m.
  { exists m. split; [done|]. split; [left|]. split; [lra|].
    intros x Hx. by apply elem_of_nil in Hx. }
  rewrite fmap_cons. cbn [foldl].
  destruct (fltb (Fin y) (Fin m)) eqn:E.
  - apply fltb_Fin in E.
    destruct (IH y) as (lo & Hlo & Hin & Hle & Hall).
    exists lo. split; [done|]. split; [by right|]. split; [lra|].
    intros x [->|Hx]%elem_of_cons; [done|by apply Hall].
  - apply fltb_Fin_false in E.
    destruct (IH m) as (lo & Hlo & Hin & Hle & Hall).
    exists lo. split; [done|]. split.
    { apply elem_of_cons in Hin as [->|Hin]; [left|by do 2 right]. }
    split; [done|].
    intros x [->|Hx]%elem_of_cons; [lra|by apply Hall].
Qed.

Lemma foldl_max_numbers (m : Q) cs :
  ∃ hi, foldl (λ m y, if fltb m y then y else m) (Fin m) (Fin <$> cs) = Fin hi
        ∧ hi ∈ m :: cs ∧ (m <= hi)%Q ∧ ∀ x, x ∈ cs → (x <= hi)%Q.
Proof.
  revert m. induction cs as [|y cs IH]; intros m.
  { exists m. split; [done|]. split; [left|]. split; [lra|].
    intros x Hx. by apply elem_of_nil in Hx. }
  rewrite fmap_cons. cbn [foldl].
  destruct (fltb (Fin m) (Fin y)) eqn:E.
  - apply fltb_Fin in E.
    destruct (IH y) as (hi & Hhi & Hin & Hle & Hall).
    exists hi. split; [done|]. split; [by right|]. split; [lra|].
    intros x [->|Hx]%elem_of_cons; [done|by apply Hall].
  - apply fltb_Fin_false in E.
    destruct (IH m) as (hi & Hhi & Hin & Hle & Hall).
    exists hi. split; [done|]. split.
    { apply elem_of_cons in Hin as [->|Hin]; [left|by do 2 right]. }
    split; [done|].
    intros x [->|Hx]%elem_of_cons; [lra|by apply Hall].
Qed.

(** [min()] and [max()] of a non-empty column of numbers are its least and
    its greatest cell. *)
Lemma min_numbers cs :
  cs ≠ [] → ∃ lo, pd.min (Fin <$> cs) = Fin lo ∧ is_minimum lo cs.
Proof.
  intros Hne. destruct cs as [|c cs]; [done|].
  unfold pd.min. rewrite dropna_numbers, fmap_cons.
  destruct (foldl_min_numbers c cs) as (lo & Hlo & Hin & Hle & Hall).
  exists lo. split; [done|]. split; [done|].
  intros x [->|Hx]%elem_of_cons; [done|by apply Hall].
Qed.

Lemma max_numbers cs :
  cs ≠ [] → ∃ hi, pd.max (Fin <$> cs) = Fin hi ∧ is_maximum hi cs.
Proof.
  intros Hne. destruct cs as [|c cs]; [done|].
  unfold pd.max. rewrite dropna_numbers, fmap_cons.
  destruct (foldl_max_numbers c cs) as (hi & Hhi & Hin & Hle & Hall).
  exists hi. split; [done|]. split; [done|].
  intros x [->|Hx]%elem_of_cons; [done|by apply Hall].
Qed.

Lemma round_half_even_near (q : Q) :
  (Qabs (inject_Z (round_half_even q) - q) <= 1 # 2)%Q.
Proof.
  unfold round_half_even.
  pose proof (Qfloor_le q) as Hlo. pose proof (Qlt_floor q) as Hhi.
  rewrite inject_Z_plus in Hhi. change (inject_Z 1) with 1%Q in Hhi.
  set (f := Qfloor q) in *.
  apply Qabs_Qle_condition.
  destruct (q - inject_Z f ?= 1 # 2)%Q eqn:E.
  - apply Qeq_alt in E.
    destruct (Z.even f); [|rewrite inject_Z_plus; change (inject_Z 1) with 1%Q];
      split; lra.
  - apply Qlt_alt in E. split; lra.
  - apply Qgt_alt in E. rewrite inject_Z_plus. change (inject_Z 1) with 1%Q.
    split; lra.
Qed.

Lemma fround2_number (p : Q) :
  ∃ r, fround2 (Fin p) = Fin r ∧ rounded_to_cents r p.
Proof.
  eexists. split; [done|]. split.
  - exists (round_half_even (p * 100)). apply Qred_correct.
  - rewrite Qred_correct.
    pose proof (round_half_even_near (p * 100)) as H.
    set (n := round_half_even (p * 100)) in *.
    apply Qabs_Qle_condition in H. apply Qabs_Qle_condition.
    assert (n # 100 == inject_Z n * (1 # 100))%Q as ->.
    { unfold Qeq, Qmult, inject_Z; simpl. lia. }
    set (x := inject_Z n) in *. split; lra.
Qed.

End extremes.

Lemma price_range_percent_positive (lo hi : Q) :
  (0 < lo)%Q →
  ∃ percent, price_range_percent (Fin lo) (Fin hi) = Fin percent
             ∧ (percent == (hi - lo) / lo * 100)%Q.
Proof.
  intros Hlo. unfold price_range_percent. cbn [fsub fdiv].
  rewrite Qeq_bool_false by lra. cbn [fmul].
  eexists. split; [done|]. by rewrite !Qred_correct.
Qed.

Lemma price_range_percent_zero_min (lo hi : Q) :
  (lo == 0)%Q →
  ((0 < hi)%Q → price_range_percent (Fin lo) (Fin hi) = PInf)
  ∧ ((hi == 0)%Q → price_range_percent (Fin lo) (Fin hi) = NaN).
Proof.
  intros Hlo. unfold price_range_percent. cbn [fsub fdiv].
  rewrite (proj2 (Qeq_bool_iff lo 0) Hlo). split; intros Hhi.
  - rewrite Qcompare_Gt by (rewrite Qred_correct; lra). reflexivity.
  - rewrite Qcompare_Eq by (rewrite Qred_correct; lra). reflexivity.
Qed.




(** [round64] at a tenth, at a tie, at the largest number and at the
    smallest one. *)
Lemma round64_examples :
  b64.round64 (1 # 10) = Fin (3602879701896397 # 36028797018963968)
  ∧ b64.round64 (2 ^ 53 + 1) = Fin (Qred (2 ^ 53))
  ∧ b64.round64 (2 ^ 53 + 3) = Fin (Qred (2 ^ 53 + 4))
  ∧ b64.round64 (- (2 ^ 53 + 3)) = Fin (Qred (- (2 ^ 53 + 4)))
  ∧ b64.round64 (2 ^ 1024 - 2 ^ 970 - 1) = Fin (Qred (2 ^ 1024 - 2 ^ 971))
  ∧ b64.round64 (2 ^ 1024 - 2 ^ 970) = PInf
  ∧ b64.round64 (- 2 ^ 1024) = NInf
  ∧ b64.round64 (3 * 2 ^ (-1075)) = Fin (Qred (2 ^ (-1073)))
  ∧ b64.round64 (2 ^ (-1075)) = Fin 0.
Proof. repeat split; vm_compute; reflexivity. Qed.




(** C6, as the code has it.  When the least close is exactly 0 the quotient
    [(max - min) / min] is taken all the same: with a positive greatest
    close the percentage is +infinity and, for every finite threshold, an
    alert that carries +infinity is returned and printed; when every close
    is 0 the percentage is NaN and nothing is returned. *)
Theorem notify_zero_minimum (σ : state) (d : loc) (f : DataFrame)
    (cs : list Q) (ticker : string) (zero : Q) :
  heap σ !! d = Some f →
  price_frame f (Fin <$> cs) →
  is_minimum zero cs →
  (zero == 0)%Q →
  ∃ lo hi,
    pd.min (Fin <$> cs) = Fin lo ∧ (lo == 0)%Q
    ∧ pd.max (Fin <$> cs) = Fin hi ∧ is_maximum hi cs
    ∧ ((0 < hi)%Q →
         price_range_percent (Fin lo) (Fin hi) = PInf
         ∧ ∀ th : Q,
             notify_if_strong_fluctuations (Some d) ticker (Fin th) σ
             = (Ok (Some {| fi_ticker := ticker;
                            fi_min_price := Fin lo;
                            fi_max_price := Fin hi;
                            fi_fluctuation_percent := PInf |}),
                mkState (heap σ)
                  (stdout σ ++ alert_lines ticker (Fin lo) (Fin hi) PInf)))
    ∧ ((hi == 0)%Q →
         price_range_percent (Fin lo) (Fin hi) = NaN
         ∧ ∀ threshold,
             notify_if_strong_fluctuations (Some d) ticker threshold σ
             = (Ok None, σ)).
Proof.
  intros Hd Hpf [Hin Hleast] Hzero.
  assert (cs ≠ []) as Hne by (intros ->; by apply elem_of_nil in Hin).
  destruct (min_numbers cs Hne) as (lo & Hmin & Hlo_in & Hlo).
  destruct (max_numbers cs Hne) as (hi & Hmax & Hhi).
  assert (lo == 0)%Q as Hlo0.
  { pose proof (Hlo zero Hin). pose proof (Hleast lo Hlo_in). lra. }
  destruct (price_range_percent_zero_min lo hi Hlo0) as [Hinf Hnan].
  exists lo, hi. split; [done|]. split; [done|]. split; [done|].
  split; [done|]. split; intros Hhi0.
  - split; [by apply Hinf|]. intros th.
    rewrite (notify_run σ d f (Fin <$> cs)) by done.
    cbv zeta. by rewrite Hmin, Hmax, Hinf.
  - split; [by apply Hnan|]. intros threshold.
    rewrite (notify_run σ d f (Fin <$> cs)) by done.
    cbv zeta. rewrite Hmin, Hmax, Hnan by done.
    by destruct threshold.
Qed.


(** Ten bars that rise from 100 to 200, threshold 5: the alert carries
    100, 200 and a percent of exactly 100. *)
Lemma notify_rally_alert :
  (b64.notify_if_strong_fluctuations (Some 0%nat) "AAPL" (Fin 5)
     (one_frame (bars rally))).1
  = Ok (Some {| fi_ticker := "AAPL";
                fi_min_price := Fin 100;
                fi_max_price := Fin 200;
                fi_fluctuation_percent := Fin 100 |}).
Proof. vm_compute. reflexivity. Qed.

(** The comparison is made on the rounded quotient.  On two bars, 100
    then 107, the exact range is 7 percent, which is not above a
    threshold of 7; the source computes 7.000000000000000888 and returns
    the alert, with the percent rounded to 7.  The closes, the threshold
    and the result are binary64 numbers. *)
Lemma notify_rounds_above_threshold :
  price_range_percent (Fin 100) (Fin 107) = Fin 7
  ∧ b64.price_range_percent (Fin 100) (Fin 107)
    = Fin (7881299347898369 # 1125899906842624)
  ∧ binary64 100 ∧ binary64 107 ∧ binary64 7
  ∧ binary64 (7881299347898369 # 1125899906842624)
  ∧ b64.notify_if_strong_fluctuations (Some 0%nat) "AAPL" (Fin 7)
      (one_frame (bars seven_percent))
    = (Ok (Some {| fi_ticker := "AAPL";
                   fi_min_price := Fin 100;
                   fi_max_price := Fin 107;
                   fi_fluctuation_percent := Fin 7 |}),
       mkState (heap (one_frame (bars seven_percent)))
         (alert_lines "AAPL" (Fin 100) (Fin 107)
            (Fin (7881299347898369 # 1125899906842624)))).
Proof. repeat split; vm_compute; reflexivity. Qed.

(** The close that is 0 is divided by: two bars, 0 then 10, and the alert
    carries +infinity. *)
Lemma notify_divides_by_zero_minimum :
  pd.min (of_Z <$> from_zero) = Fin 0
  ∧ (notify_if_strong_fluctuations (Some 0%nat) "AAPL" (Fin 5)
       (one_frame (bars from_zero))).1
    = Ok (Some {| fi_ticker := "AAPL";
                  fi_min_price := Fin 0;
                  fi_max_price := Fin 10;
                  fi_fluctuation_percent := PInf |}).
Proof. split; vm_compute; reflexivity. Qed.

Lemma notify_zero_minimum_witness :
  ∃ lo hi,
    pd.min (of_Z <$> from_zero) = Fin lo ∧ (lo == 0)%Q
    ∧ pd.max (of_Z <$> from_zero) = Fin hi ∧ (0 < hi)%Q
    ∧ price_range_percent (Fin lo) (Fin hi) = PInf
    ∧ notify_if_strong_fluctuations (Some 0%nat) "AAPL" (Fin 5)
        (one_frame (bars from_zero))
      = (Ok (Some {| fi_ticker := "AAPL";
                     fi_min_price := Fin lo;
                     fi_max_price := Fin hi;
                     fi_fluctuation_percent := PInf |}),
         mkState (heap (one_frame (bars from_zero)))
           (alert_lines "AAPL" (Fin lo) (Fin hi) PInf)).
Proof.
  destruct (notify_zero_minimum (one_frame (bars from_zero)) 0
              (bars from_zero) (inject_Z <$> from_zero) "AAPL" 0%Q)
    as (lo & hi & Hmin & Hlo & Hmax & _ & Hpos & _).
  - reflexivity.
  - split; [apply NoDup_singleton|reflexivity].
  - split; [left|]. intros x Hx. unfold from_zero in Hx.
    repeat (apply elem_of_cons in Hx as [->|Hx]; [discriminate|]).
    by apply elem_of_nil in Hx.
  - reflexivity.
  - assert (0 < hi)%Q as Hhi.
    { change (pd.max (Fin <$> (inject_Z <$> from_zero))) with (Fin 10)
        in Hmax.
      injection Hmax as <-. reflexivity. }
    destruct (Hpos Hhi) as [Hinf Hrun].
    exists lo, hi. split; [exact Hmin|]. split; [exact Hlo|].
    split; [exact Hmax|]. split; [exact Hhi|]. split; [exact Hinf|].
    exact (Hrun 5%Q).
Defined.

(* ===================================================================== *)
(** ** Dispersion statistics and trend analysis *)
(* ===================================================================== *)

Lemma coefficient_variation_zero_mean (s : float64) (m : Q) :
  (m == 0)%Q →
  let cv := fmul (fdiv s (Fin m)) (Fin 100) in
  (∀ q, s = Fin q → (0 < q)%Q → cv = PInf)
  ∧ (∀ q, s = Fin q → (q == 0)%Q → cv = NaN)
  ∧ (s = NaN → cv = NaN)
  ∧ ¬ is_finite cv.
Proof.
  intros Hm cv. unfold cv.
  assert (Qeq_bool m 0 = true) as E by by apply Qeq_bool_iff.
  assert (Qle_bool 0 m = true) as E' by (apply Qle_bool_iff; lra).
  split; [|split; [|split]].
  - intros q -> Hq. cbn [fdiv]. rewrite E, Qcompare_Gt by done. reflexivity.
  - intros q -> Hq. cbn [fdiv]. rewrite E, Qcompare_Eq by done. reflexivity.
  - by intros ->.
  - destruct s as [q| | |]; cbn [fdiv]; rewrite ?E, ?E';
      try destruct (q ?= 0)%Q; vm_compute; tauto.
Qed.

(** C5, as the code has it.  On a numeric column (the empty one included)
    [calculate_standard_deviation] always returns and prints a record;
    the mean is divided by without a test, so when the mean is exactly 0
    the coefficient of variation is +infinity if the standard deviation
    is positive and NaN if it is 0 or undefined, never a number; on the
    empty column every field is NaN. *)
Theorem calculate_standard_deviation_unguarded (σ : state) (d : loc)
    (f : DataFrame) (label : string) (xs : Series) :
  heap σ !! d = Some f →
  numeric_column f label xs →
  ∃ stats,
    calculate_standard_deviation (Some d) label σ
    = (Ok (Some stats),
       mkState (heap σ) (stdout σ ++ [StatsReport stats]))
    ∧ stats = stats_of xs
    ∧ coefficient_variation stats
      = fmul (fdiv (std_deviation stats) (pd.mean xs)) (Fin 100)
    ∧ (∀ m, pd.mean xs = Fin m → (m == 0)%Q →
         (∀ s, std_deviation stats = Fin s → (0 < s)%Q →
               coefficient_variation stats = PInf)
         ∧ (∀ s, std_deviation stats = Fin s → (s == 0)%Q →
                 coefficient_variation stats = NaN)
         ∧ (std_deviation stats = NaN → coefficient_variation stats = NaN)
         ∧ ¬ is_finite (coefficient_variation stats))
    ∧ (xs = [] → stats = mkStats NaN NaN NaN NaN NaN NaN).
Proof.
  intros Hd [_ Hcol]. exists (stats_of xs).
  split; [|split; [done|split; [done|split]]].
  - unfold calculate_standard_deviation, try_except, subscript.
    rewrite bind_run, (subscript_numeric_run σ d f label xs) by done.
    by mrun.
  - intros m Hm Hm0. cbn [stats_of coefficient_variation std_deviation].
    rewrite Hm. by apply coefficient_variation_zero_mean.
  - by intros ->.
Qed.

Lemma total_return_flat (c : Q) :
  ¬ (c == 0)%Q →
  fmul (fdiv (fsub (Fin c) (Fin c)) (Fin c)) (Fin 100) = Fin 0.
Proof.
  intros Hc. cbn [fsub fdiv]. rewrite Qeq_bool_false by done.
  cbn [fmul]. f_equal. apply Qred_zero.
  rewrite !Qred_correct. by field.
Qed.

(** C9, as the code has it.  On a single bar whose close is a number other
    than 0, [advanced_price_analysis] returns (and prints) a record whose
    mean daily return, daily volatility and annualized volatility are NaN,
    whose start and end price are that close, and whose total return is
    0. *)
Theorem advanced_price_analysis_single_bar (σ : state) (d : loc)
    (f : DataFrame) (c : Q) :
  heap σ !! d = Some f →
  price_frame f [Fin c] →
  ¬ (c == 0)%Q →
  let analysis :=
    {| mean_daily_return := NaN;
       daily_volatility := NaN;
       annualized_volatility := NaN;
       start_price := Fin c;
       end_price := Fin c;
       total_return_percent := Fin 0 |} in
  advanced_price_analysis (Some d) σ
  = (Ok (Some analysis),
     mkState (heap σ) (stdout σ ++ [AnalysisReport analysis])).
Proof.
  intros Hd [_ Hclose] Hc analysis.
  unfold advanced_price_analysis, try_except, subscript.
  rewrite bind_run, (subscript_numeric_run σ d f "Close" [Fin c]) by done.
  unfold lift. mrun.
  change (pd.iloc_first [Fin c]) with (Ok (Fin c)).
  change (pd.iloc_last [Fin c]) with (Ok (Fin c)).
  mrun.
  change (pd.pct_change [Fin c]) with [NaN].
  change (pd.mean [NaN]) with NaN. change (pd.std [NaN]) with NaN.
  cbn [fmul]. by rewrite total_return_flat.
Qed.

(** A column of mean 0 gets a record all the same, and its coefficient of
    variation is +infinity. *)
Lemma calculate_standard_deviation_infinite :
  pd.mean (of_Z <$> balanced) = Fin 0
  ∧ (calculate_standard_deviation (Some 0%nat) "Close"
       (one_frame (bars balanced))).1
    = Ok (Some {| std_deviation := Fin 1;
                  variance := Fin 1;
                  min_price := Fin (-1);
                  max_price := Fin 1;
                  price_range := Fin 2;
                  coefficient_variation := PInf |})
  ∧ (calculate_standard_deviation (Some 0%nat) "Close"
       (one_frame (bars []))).1
    = Ok (Some (mkStats NaN NaN NaN NaN NaN NaN)).
Proof. repeat split; vm_compute; reflexivity. Qed.

Lemma calculate_standard_deviation_unguarded_witness :
  ∃ stats,
    calculate_standard_deviation (Some 0%nat) "Close"
      (one_frame (bars balanced))
    = (Ok (Some stats),
       mkState (heap (one_frame (bars balanced))) [StatsReport stats])
    ∧ coefficient_variation stats
      = fmul (fdiv (std_deviation stats) (pd.mean (of_Z <$> balanced)))
             (Fin 100)
    ∧ ¬ is_finite (coefficient_variation stats).
Proof.
  destruct (calculate_standard_deviation_unguarded
              (one_frame (bars balanced)) 0 (bars balanced) "Close"
              (of_Z <$> balanced))
    as (stats & Hrun & _ & Hcv & Hzero & _).
  - reflexivity.
  - split; [apply NoDup_singleton|reflexivity].
  - exists stats. split; [exact Hrun|]. split; [exact Hcv|].
    apply (Hzero 0%Q); reflexivity.
Defined.

(** A single bar at a close of 0: the total return is 0/0. *)
Lemma advanced_price_analysis_zero_close :
  (advanced_price_analysis (Some 0%nat) (one_frame (bars [0%Z]))).1
  = Ok (Some {| mean_daily_return := NaN;
                daily_volatility := NaN;
                annualized_volatility := NaN;
                start_price := Fin 0;
                end_price := Fin 0;
                total_return_percent := NaN |}).
Proof. vm_compute. reflexivity. Qed.

Lemma advanced_price_analysis_single_bar_witness :
  advanced_price_analysis (Some 0%nat) (one_frame (bars [7%Z]))
  = (Ok (Some (mkAnalysis NaN NaN NaN (Fin 7) (Fin 7) (Fin 0))),
     mkState (heap (one_frame (bars [7%Z])))
       [AnalysisReport (mkAnalysis NaN NaN NaN (Fin 7) (Fin 7) (Fin 0))]).
Proof.
  apply (advanced_price_analysis_single_bar
           (one_frame (bars [7%Z])) 0 (bars [7%Z]) 7%Q).
  - reflexivity.
  - split; [apply NoDup_singleton|reflexivity].
  - discriminate.
Defined.

(* ===================================================================== *)
(** ** What the transforms do to the frames they are given *)
(* ===================================================================== *)

Section effects.
Context (h0 : gmap nat (list (string * column))).








End effects.






(* ===================================================================== *)
(** ** Rejected windows, and the frame of indicators *)
(* ===================================================================== *)

Lemma roll_mean_zero (xs : Series) :
  pd.roll_mean 0 xs = replicate (length xs) NaN.
Proof.
  apply list_eq. intros t.
  destruct (decide (t < length xs)) as [Ht|Ht].
  - rewrite roll_mean_lookup, lookup_replicate_2 by done.
    unfold pd.roll_mean_at, pd.window_at.
    rewrite drop_ge by (rewrite length_take; lia). done.
  - rewrite !lookup_ge_None_2; [done|rewrite length_replicate; lia|].
    rewrite length_roll_mean. lia.
Qed.

(** C8, as the code has it.  A negative window is refused by [rolling]:
    the error is printed, no column is stored, the heap is as before and
    the frame given is returned.  A window of 0 is not refused: a
    [Moving_Average] column of NaN is stored, and nothing is printed. *)
Theorem add_moving_average_bad_window (σ : state) (d : loc)
    (f : DataFrame) (close : Series) :
  heap σ !! d = Some f →
  price_frame f close →
  (∀ w, (w < 0)%Z →
     add_moving_average (Some d) w σ
     = (Ok (Some d),
        mkState (heap σ)
          (stdout σ
           ++ [MovingAverageError
                 (ValueError "window must be an integer 0 or greater")])))
  ∧ add_moving_average (Some d) 0 σ
    = (Ok (Some d),
       mkState (<[d := frame_set f "Moving_Average"
                         (FloatCol (replicate (length close) NaN))]>
                  (heap σ))
               (stdout σ)).
Proof.
  intros Hd [_ Hclose]. split.
  - intros w Hw. unfold add_moving_average, try_except.
    rewrite bind_run, (subscript_numeric_run σ d f "Close" close) by done.
    mrun. rewrite rolling_mean_run.
    destruct (w <? 0)%Z eqn:E; [by mrun|]. apply Z.ltb_ge in E. lia.
  - unfold add_moving_average, try_except.
    rewrite bind_run, (subscript_numeric_run σ d f "Close" close) by done.
    mrun. rewrite rolling_mean_run. cbn [Z.ltb Z.compare Z.to_nat].
    mrun. rewrite (setitem_run σ d f) by done. by rewrite roll_mean_zero.
Qed.

Lemma calculate_rsi_run (σ : state) (d : loc) (f : DataFrame)
    (close : Series) (periods : Z) :
  heap σ !! d = Some f →
  price_frame f close →
  (0 <= periods)%Z →
  calculate_rsi (Some d) periods σ
  = (Ok (Some (rsi_series (Z.to_nat periods) close)), σ).
Proof.
  intros Hd Hpf Hp. pose proof Hpf as [_ Hclose]. unfold calculate_rsi.
  rewrite bind_run, (has_close_run σ d f close) by done.
  cbn [negb]. unfold try_except.
  rewrite bind_run, (subscript_numeric_run σ d f "Close" close) by done.
  mrun. rewrite !rolling_mean_run.
  destruct (periods <? 0)%Z eqn:E; [apply Z.ltb_lt in E; lia|]. by mrun.
Qed.

Lemma calculate_macd_run (σ : state) (d : loc) (f : DataFrame)
    (close : Series) (fast slow signal : Z) :
  heap σ !! d = Some f →
  price_frame f close →
  (1 <= fast)%Z → (1 <= slow)%Z → (1 <= signal)%Z →
  calculate_macd (Some d) fast slow signal σ
  = (Ok (Some (fresh (dom (heap σ)))),
     mkState (<[fresh (dom (heap σ)) := macd_frame fast slow signal close]>
                (heap σ))
             (stdout σ)).
Proof.
  intros Hd Hpf Hf Hs Hg. pose proof Hpf as [_ Hclose].
  unfold calculate_macd.
  rewrite bind_run, (has_close_run σ d f close) by done.
  cbn [negb]. unfold try_except.
  rewrite bind_run, (subscript_numeric_run σ d f "Close" close) by done.
  unfold pd.ewm_mean.
  destruct (fast <? 1)%Z eqn:E1; [apply Z.ltb_lt in E1; lia|].
  destruct (slow <? 1)%Z eqn:E2; [apply Z.ltb_lt in E2; lia|].
  destruct (signal <? 1)%Z eqn:E3; [apply Z.ltb_lt in E3; lia|].
  by mrun.
Qed.

(** C10, as the code has it.  On a frame of bars that has no [RSI] column
    yet, [add_technical_indicators] (with both indicators asked for)
    returns a new frame: the columns of the input, unchanged and in order,
    followed by [RSI], [MACD], [Signal_Line] and [Histogram] as
    [calculate_rsi] and [calculate_macd] compute them from the closes.
    Every frame that existed before, the input included, is as it was,
    and nothing is printed. *)
Theorem add_technical_indicators_appends (σ : state) (d : loc)
    (f : DataFrame) (close : Series) :
  heap σ !! d = Some f →
  price_frame f close →
  frame_get f "RSI" = None →
  ∃ (out : loc) (σ' : state),
    add_technical_indicators (Some d) true true σ = (Ok (Some out), σ')
    ∧ heap σ !! out = None
    ∧ heap σ' !! out = Some (f ++ indicator_columns close)
    ∧ heap σ' !! d = Some f
    ∧ (∀ l g, heap σ !! l = Some g → heap σ' !! l = Some g)
    ∧ stdout σ' = stdout σ.
Proof.
  intros Hd Hpf Hrsi.
  set (h := heap σ).
  set (l1 := fresh (dom h)).
  set (f1 := frame_set f "RSI" (FloatCol (rsi_series 14 close))).
  set (h2 := <[l1 := f1]> (<[l1 := f]> h)).
  set (l2 := fresh (dom h2)).
  set (h3 := <[l2 := macd_frame 12 26 9 close]> h2).
  set (l3 := fresh (dom h3)).
  set (h4 := <[l3 := f1 ++ macd_frame 12 26 9 close]> h3).
  assert (h !! l1 = None) as Hl1 by apply fresh_unused.
  assert (h2 !! l2 = None) as Hl2 by apply fresh_unused.
  assert (h3 !! l3 = None) as Hl3 by apply fresh_unused.
  assert (h ⊆ h2) as Hh2.
  { unfold h2. rewrite insert_insert_eq. by apply insert_subseteq. }
  assert (h2 ⊆ h3) as Hh3 by by apply insert_subseteq.
  assert (h3 ⊆ h4) as Hh4 by by apply insert_subseteq.
  assert (h ⊆ h4) as Hh by (trans h2; [done|by trans h3]).
  assert (add_technical_indicators (Some d) true true σ
          = (Ok (Some l3), mkState h4 (stdout σ))) as Hrun.
  { unfold add_technical_indicators, try_except.
    rewrite bind_run, (copy_run σ d f), alloc_run by done.
    mrun. fold h l1.
    pose (σ1 := mkState (<[l1 := f]> h) (stdout σ)).
    assert (heap σ1 !! d = Some f) as Hd1.
    { cbn [σ1 heap]. rewrite lookup_insert_ne; [done|].
      intros Heq. rewrite Heq in Hl1. unfold h in Hl1. congruence. }
    fold σ1. rewrite (calculate_rsi_run σ1 d f close 14) by done.
    mrun. rewrite (setitem_run σ1 l1 f) by apply lookup_insert_eq.
    mrun. cbn [σ1 heap stdout rsi_column].
    change (Z.to_nat 14) with 14. fold f1 h2.
    pose (σ2 := mkState h2 (stdout σ)).
    assert (heap σ2 !! d = Some f) as Hd2.
    { cbn [σ2 heap]. by apply (lookup_weaken h h2 d f Hd). }
    fold σ2. rewrite (calculate_macd_run σ2 d f close 12 26 9) by done.
    mrun. cbn [σ2 heap stdout]. fold l2 h3.
    rewrite (concat_columns_run _ l1 l2 f1 (macd_frame 12 26 9 close)).
    - by mrun.
    - cbn [heap]. eapply lookup_weaken; [|done]. apply lookup_insert_eq.
    - cbn [heap]. apply lookup_insert_eq. }
  exists l3, (mkState h4 (stdout σ)). cbn [heap stdout].
  split; [done|]. split.
  { apply (lookup_weaken_None h h3 l3 Hl3). by trans h2. }
  split.
  { unfold h4. rewrite lookup_insert_eq. unfold f1.
    rewrite frame_set_new by done. by rewrite <- app_assoc. }
  split; [by apply (lookup_weaken h h4 d f Hd)|].
  split; [|done]. intros l g Hl. by apply (lookup_weaken h h4 l g Hl).
Qed.

(** A window of 0 is taken: a column of NaN is stored and nothing is
    printed. *)
Lemma add_moving_average_takes_zero_window :
  add_moving_average (Some 0%nat) 0 (one_frame (bars week))
  = (Ok (Some 0%nat),
     mkState {[ 0%nat := bars week
                         ++ [("Moving_Average", FloatCol (replicate 7 NaN))] ]}
             []).
Proof. vm_compute. reflexivity. Qed.

Lemma add_moving_average_bad_window_witness :
  add_moving_average (Some 0%nat) (-1) (one_frame (bars week))
  = (Ok (Some 0%nat),
     mkState (heap (one_frame (bars week)))
       [MovingAverageError
          (ValueError "window must be an integer 0 or greater")])
  ∧ add_moving_average (Some 0%nat) 0 (one_frame (bars week))
    = (Ok (Some 0%nat),
       mkState (<[0%nat := frame_set (bars week) "Moving_Average"
                             (FloatCol (replicate 7 NaN))]>
                  (heap (one_frame (bars week))))
               []).
Proof.
  destruct (add_moving_average_bad_window
              (one_frame (bars week)) 0 (bars week) (of_Z <$> week))
    as [Hneg Hzero].
  - reflexivity.
  - split; [apply NoDup_singleton|reflexivity].
  - split; [apply Hneg; lia|exact Hzero].
Defined.

(** A column called [RSI] in the input is not carried over: the new frame
    has the recomputed one in its place. *)
Lemma add_technical_indicators_replaces_rsi :
  frame_get with_rsi "RSI" = Some (FloatCol [Fin 50; Fin 50])
  ∧ (add_technical_indicators (Some 0%nat) true true (one_frame with_rsi)).1
    = Ok (Some 3%nat)
  ∧ (g ← heap (add_technical_indicators (Some 0%nat) true true
                 (one_frame with_rsi)).2 !! 3%nat;
     frame_get g "RSI")
    = Some (FloatCol [NaN; NaN]).
Proof. repeat split; vm_compute; reflexivity. Qed.

Lemma add_technical_indicators_appends_witness :
  ∃ (out : loc) (σ' : state),
    add_technical_indicators (Some 0%nat) true true (one_frame (bars week))
    = (Ok (Some out), σ')
    ∧ heap (one_frame (bars week)) !! out = None
    ∧ heap σ' !! out = Some (bars week ++ indicator_columns (of_Z <$> week))
    ∧ heap σ' !! 0%nat = Some (bars week)
    ∧ stdout σ' = [].
Proof.
  destruct (add_technical_indicators_appends
              (one_frame (bars week)) 0 (bars week) (of_Z <$> week))
    as (out & σ' & Hrun & Hnew & Hout & Hin & _ & Hprint).
  - reflexivity.
  - split; [apply NoDup_singleton|reflexivity].
  - reflexivity.
  - by exists out, σ'.
Defined.

(* ===================================================================== *)
(** ** Sums and means of numbers *)
(* ===================================================================== *)

Section sums.
Implicit Types (cs qs : list Q).

Lemma foldl_fadd_numbers (a : Q) cs :
  ∃ q, foldl fadd (Fin a) (Fin <$> cs) = Fin q ∧ (q == a + pd.Qsum cs)%Q.
Proof.
  revert a. induction cs as [|c cs IH]; intros a.
  { exists a. split; [done|]. simpl. ring. }
  rewrite fmap_cons. cbn [foldl fadd].
  destruct (IH (Qred (a + c))) as (q & Hq & Hsum).
  exists q. split; [done|]. rewrite Hsum, Qred_correct.
  unfold pd.Qsum. cbn [foldr]. ring.
Qed.

Lemma fsum_numbers cs :
  ∃ q, pd.fsum (Fin <$> cs) = Fin q ∧ (q == pd.Qsum cs)%Q.
Proof.
  destruct (foldl_fadd_numbers 0 cs) as (q & Hq & Hsum).
  exists q. split; [done|]. rewrite Hsum. ring.
Qed.

Lemma inject_nat_pos (n : nat) : 0 < n → (0 < inject_Z (Z.of_nat n))%Q.
Proof.
  intros Hn. change 0%Q with (inject_Z 0). rewrite <- Zlt_Qlt. lia.
Qed.

Lemma inject_nat_S (n : nat) :
  (inject_Z (Z.of_nat (S n)) == inject_Z (Z.of_nat n) + 1)%Q.
Proof. rewrite Nat2Z.inj_succ, <- Z.add_1_r, inject_Z_plus. reflexivity. Qed.

Lemma Qsum_bounds cs (lo hi : Q) :
  (∀ x, x ∈ cs → (lo <= x <= hi)%Q) →
  (inject_Z (Z.of_nat (length cs)) * lo <= pd.Qsum cs
   <= inject_Z (Z.of_nat (length cs)) * hi)%Q.
Proof.
  induction cs as [|c cs IH]; intros Hall.
  { change (inject_Z (Z.of_nat (length (@nil Q)))) with 0%Q.
    change (pd.Qsum []) with 0%Q. lra. }
  cbn [length]. rewrite inject_nat_S. unfold pd.Qsum. cbn [foldr].
  fold (pd.Qsum cs).
  assert (lo <= c <= hi)%Q as Hc by (apply Hall; left).
  destruct IH as [IH1 IH2]; [intros x Hx; apply Hall; by right|].
  set (n := inject_Z (Z.of_nat (length cs))) in *.
  split; nra.
Qed.

(** The mean of numbers lies between any bounds of theirs. *)
Lemma arithmetic_mean_bounds cs (lo hi : Q) :
  cs ≠ [] →
  (∀ x, x ∈ cs → (lo <= x <= hi)%Q) →
  (lo <= arithmetic_mean cs <= hi)%Q.
Proof.
  intros Hne Hall. unfold arithmetic_mean.
  assert (0 < inject_Z (Z.of_nat (length cs)))%Q as Hn.
  { apply inject_nat_pos. destruct cs; [done|simpl; lia]. }
  destruct (Qsum_bounds cs lo hi Hall) as [H1 H2]. split.
  - apply Qle_shift_div_l; [done|]. lra.
  - apply Qle_shift_div_r; [done|]. lra.
Qed.

Lemma mean_numbers cs :
  cs ≠ [] →
  ∃ m, pd.mean (Fin <$> cs) = Fin m ∧ (m == arithmetic_mean cs)%Q.
Proof.
  intros Hne. unfold pd.mean. rewrite dropna_numbers.
  assert (0 < inject_Z (Z.of_nat (length cs)))%Q as Hn.
  { apply inject_nat_pos. destruct cs; [done|simpl; lia]. }
  remember (Fin <$> cs) as v eqn:Ev. destruct v as [|x xs].
  { by destruct cs. }
  rewrite Ev. clear Ev.
  destruct (fsum_numbers cs) as (q & Hq & Hsum).
  rewrite Hq, length_fmap. unfold of_nat. cbn [fdiv].
  rewrite Qeq_bool_false by lra.
  eexists. split; [done|]. unfold arithmetic_mean.
  by rewrite Qred_correct, Hsum.
Qed.

End sums.

(* ===================================================================== *)
(** ** The average price *)
(* ===================================================================== *)


(* ===================================================================== *)
(** ** More on the moving average *)
(* ===================================================================== *)

Lemma frame_set_set (f : DataFrame) (label : string) (c1 c2 : column) :
  frame_set (frame_set f label c1) label c2 = frame_set f label c2.
Proof.
  induction f as [|[k c0] f IH]; simpl.
  - by rewrite String.eqb_refl.
  - destruct (String.eqb k label) eqn:E; simpl; rewrite E; [done|].
    by rewrite IH.
Qed.

Lemma add_moving_average_run (σ : state) (d : loc) (f : DataFrame)
    (close : Series) (w : Z) :
  heap σ !! d = Some f →
  frame_get f "Close" = Some (FloatCol close) →
  (0 <= w)%Z →
  add_moving_average (Some d) w σ
  = (Ok (Some d),
     mkState (<[d := frame_set f "Moving_Average"
                       (FloatCol (pd.roll_mean (Z.to_nat w) close))]>
                (heap σ))
             (stdout σ)).
Proof.
  intros Hd Hclose Hw. unfold add_moving_average, try_except.
  rewrite bind_run, (subscript_numeric_run σ d f "Close" close) by done.
  mrun. rewrite rolling_mean_run.
  destruct (w <? 0)%Z eqn:E; [apply Z.ltb_lt in E; lia|].
  mrun. by rewrite (setitem_run σ d f) by done.
Qed.

(** X2.  Calling [add_moving_average] again on the same frame replaces the
    column: after a call with window [w1], a call with window [w2] ends
    exactly where a single call with [w2] ends.  (With [w1 = w2]: the call
    is idempotent.) *)
Theorem add_moving_average_last_window_wins (σ : state) (d : loc)
    (f : DataFrame) (close : Series) (w1 w2 : Z) :
  heap σ !! d = Some f →
  price_frame f close →
  (0 <= w1)%Z → (0 <= w2)%Z →
  add_moving_average (Some d) w2 (add_moving_average (Some d) w1 σ).2
  = add_moving_average (Some d) w2 σ.
Proof.
  intros Hd [_ Hclose] Hw1 Hw2.
  rewrite (add_moving_average_run σ d f close w1) by done. cbn [snd].
  set (f1 := frame_set f "Moving_Average"
               (FloatCol (pd.roll_mean (Z.to_nat w1) close))).
  rewrite (add_moving_average_run _ d f1 close w2); cbn [heap stdout].
  - rewrite (add_moving_average_run σ d f close w2) by done.
    unfold f1. by rewrite insert_insert_eq, frame_set_set.
  - apply lookup_insert_eq.
  - unfold f1. by rewrite frame_get_set_ne.
  - done.
Qed.

Lemma add_moving_average_last_window_wins_witness :
  add_moving_average (Some 0%nat) 3
    (add_moving_average (Some 0%nat) 5 (one_frame (bars week))).2
  = add_moving_average (Some 0%nat) 3 (one_frame (bars week)).
Proof.
  apply (add_moving_average_last_window_wins
           (one_frame (bars week)) 0 (bars week) (of_Z <$> week) 5 3).
  - reflexivity.
  - split; [apply NoDup_singleton|reflexivity].
  - lia.
  - lia.
Defined.

Lemma roll_mean_long_window (w : nat) (xs : Series) :
  length xs < w → pd.roll_mean w xs = replicate (length xs) NaN.
Proof.
  intros Hw. apply list_eq. intros t.
  destruct (decide (t < length xs)) as [Ht|Ht].
  - rewrite roll_mean_lookup, lookup_replicate_2 by done.
    by rewrite roll_mean_at_warmup by lia.
  - rewrite !lookup_ge_None_2; [done|rewrite length_replicate; lia|].
    rewrite length_roll_mean. lia.
Qed.

(** X3.  A window longer than the series is no error: the column is
    stored, every entry of it is NaN, and nothing is printed. *)
Theorem add_moving_average_long_window (σ : state) (d : loc)
    (f : DataFrame) (close : Series) (w : Z) :
  heap σ !! d = Some f →
  price_frame f close →
  (Z.of_nat (length close) < w)%Z →
  add_moving_average (Some d) w σ
  = (Ok (Some d),
     mkState (<[d := frame_set f "Moving_Average"
                       (FloatCol (replicate (length close) NaN))]>
                (heap σ))
             (stdout σ)).
Proof.
  intros Hd [_ Hclose] Hw.
  rewrite (add_moving_average_run σ d f close w) by (done || lia).
  by rewrite roll_mean_long_window by lia.
Qed.

Lemma add_moving_average_long_window_witness :
  add_moving_average (Some 0%nat) 8 (one_frame (bars week))
  = (Ok (Some 0%nat),
     mkState (<[0%nat := frame_set (bars week) "Moving_Average"
                           (FloatCol (replicate 7 NaN))]>
                (heap (one_frame (bars week))))
             []).
Proof.
  assert (Z.of_nat (length (of_Z <$> week)) < 8)%Z as Hw by (simpl; lia).
  exact (add_moving_average_long_window
           (one_frame (bars week)) 0 (bars week) (of_Z <$> week) 8
           eq_refl (conj (NoDup_singleton _) eq_refl) Hw).
Defined.



(* ===================================================================== *)
(** ** More on the relative strength index *)
(* ===================================================================== *)

Section rsi_regimes.
Implicit Types (cs ss : list Q) (w t : nat).

Lemma diff_numbers cs :
  cs ≠ [] → pd.diff (Fin <$> cs) = NaN :: (Fin <$> steps cs).
Proof.
  destruct cs as [|c cs]; [done|]. intros _. unfold steps.
  rewrite fmap_cons. cbn [pd.diff tail]. f_equal.
  by rewrite <- fmap_cons, zip_with_fsub_numbers.
Qed.

Lemma length_steps cs : length (steps cs) = length cs - 1.
Proof.
  unfold steps. rewrite length_zip_with, length_tl. lia.
Qed.

Lemma steps_lookup cs i s :
  steps cs !! i = Some s →
  ∃ a b, cs !! i = Some a ∧ cs !! S i = Some b ∧ s = Qred (b - a).
Proof.
  unfold steps. intros (b & a & -> & Hb & Ha)%lookup_zip_with_Some.
  exists a, b. split; [done|]. split; [|done].
  by rewrite lookup_tail in Hb.
Qed.

Lemma rsi_gain_numbers cs :
  cs ≠ [] → rsi_gain (Fin <$> cs) = NaN :: (Fin <$> (gain_of <$> steps cs)).
Proof.
  intros Hne. unfold rsi_gain, pd.clip_lower0.
  rewrite diff_numbers by done. rewrite fmap_cons. cbn [fltb]. f_equal.
  rewrite <- !list_fmap_compose. apply list_fmap_ext. intros i s _.
  unfold compose, gain_of. cbn [fltb]. by destruct (Qle_bool 0 s).
Qed.

Lemma rsi_loss_numbers cs :
  cs ≠ [] → rsi_loss (Fin <$> cs) = NaN :: (Fin <$> (loss_of <$> steps cs)).
Proof.
  intros Hne. unfold rsi_loss, pd.neg, pd.clip_upper0.
  rewrite diff_numbers by done. rewrite !fmap_cons. cbn [fltb fopp].
  f_equal. rewrite <- !list_fmap_compose. apply list_fmap_ext.
  intros i s _. unfold compose, loss_of. cbn [fltb].
  by destruct (Qle_bool s 0).
Qed.

(** Past the warm-up, the window of a series that starts with a NaN and
    goes on with numbers holds numbers only. *)
Lemma roll_mean_at_past_warmup w t ss :
  1 ≤ w → w ≤ t → t ≤ length ss →
  ∃ qs, pd.roll_mean_at w (NaN :: (Fin <$> ss)) t
        = Fin (Qred (arithmetic_mean qs))
        ∧ length qs = w
        ∧ ∀ x, x ∈ qs → x ∈ ss.
Proof.
  intros Hw Hwt Ht. exists (take w (drop (t - w) ss)).
  assert (length (take w (drop (t - w) ss)) = w) as Hlen.
  { rewrite length_take, length_drop. lia. }
  split; [|split; [done|]].
  - rewrite (roll_mean_at_full w t _ (take w (drop (t - w) ss)));
      [|lia|lia|done|].
    + unfold arithmetic_mean. by rewrite Hlen.
    + replace (t + 1 - w) with (S (t - w)) by lia.
      by rewrite skipn_cons, fmap_take, fmap_drop.
  - intros x Hx. by apply (subseteq_drop (t - w) ss), (subseteq_take w).
Qed.

Lemma arithmetic_mean_zero (qs : list Q) :
  (∀ x, x ∈ qs → (x == 0)%Q) → (arithmetic_mean qs == 0)%Q.
Proof.
  intros Hall. destruct qs as [|q qs].
  { reflexivity. }
  destruct (arithmetic_mean_bounds (q :: qs) 0 0) as [H1 H2]; [done| |lra].
  intros x Hx. rewrite (Hall x Hx). lra.
Qed.

Lemma arithmetic_mean_positive (qs : list Q) :
  qs ≠ [] → (∀ x, x ∈ qs → (0 < x)%Q) → (0 < arithmetic_mean qs)%Q.
Proof.
  intros Hne Hall. unfold arithmetic_mean.
  assert (0 < inject_Z (Z.of_nat (length qs)))%Q as Hn.
  { apply inject_nat_pos. destruct qs; [done|simpl; lia]. }
  apply Qlt_shift_div_l; [done|]. rewrite Qmult_0_l.
  clear Hn. induction qs as [|q qs IH]; [done|].
  unfold pd.Qsum. cbn [foldr]. fold (pd.Qsum qs).
  assert (0 < q)%Q by (apply Hall; left).
  destruct qs as [|q' qs'].
  { change (pd.Qsum []) with 0%Q. lra. }
  assert (0 < pd.Qsum (q' :: qs'))%Q.
  { apply IH; [done|]. intros x Hx. apply Hall. by right. }
  lra.
Qed.

(** The entry of the RSI at a position past the warm-up, from the mean
    gain and the mean loss of its window. *)
Lemma rsi_series_entry cs w t :
  1 ≤ w → w ≤ t → t < length cs →
  ∃ gs ls,
    rsi_series w (Fin <$> cs) !! t
    = Some (rsi_of_strength
              (fdiv (Fin (Qred (arithmetic_mean gs)))
                    (Fin (Qred (arithmetic_mean ls)))))
    ∧ length gs = w ∧ length ls = w
    ∧ (∀ x, x ∈ gs → x ∈ gain_of <$> steps cs)
    ∧ (∀ x, x ∈ ls → x ∈ loss_of <$> steps cs).
Proof.
  intros Hw Hwt Ht.
  assert (cs ≠ []) as Hne by (intros ->; simpl in Ht; lia).
  destruct (roll_mean_at_past_warmup w t (gain_of <$> steps cs))
    as (gs & Hg & Hgl & Hgs); [done|done| |].
  { rewrite length_fmap, length_steps. lia. }
  destruct (roll_mean_at_past_warmup w t (loss_of <$> steps cs))
    as (ls & Hl & Hll & Hls); [done|done| |].
  { rewrite length_fmap, length_steps. lia. }
  exists gs, ls. split; [|done].
  unfold rsi_series. rewrite list_lookup_fmap.
  rewrite (proj2 (lookup_zip_with_Some fdiv _ _ t
                    (fdiv (Fin (Qred (arithmetic_mean gs)))
                          (Fin (Qred (arithmetic_mean ls)))))); [done|].
  eexists _, _. split; [done|].
  rewrite !roll_mean_lookup
    by (rewrite ?length_rsi_gain, ?length_rsi_loss, length_fmap; done).
  rewrite rsi_gain_numbers, rsi_loss_numbers by done.
  by rewrite Hg, Hl.
Qed.

Lemma rsi_of_strength_no_gain (g l : Q) :
  (g == 0)%Q → (0 < l)%Q →
  rsi_of_strength (fdiv (Fin g) (Fin l)) = Fin 0.
Proof.
  intros Hg Hl. unfold rsi_of_strength. cbn [fdiv].
  rewrite Qeq_bool_false by lra. cbn [fadd fdiv].
  assert (Qred (1 + Qred (g / l)) == 1)%Q as Hone.
  { rewrite !Qred_correct, Hg. field. lra. }
  rewrite Qeq_bool_false by (rewrite Hone; lra).
  cbn [fsub]. f_equal. apply Qred_zero.
  rewrite Qred_correct, Hone. reflexivity.
Qed.

Lemma rsi_of_strength_flat (g l : Q) :
  (g == 0)%Q → (l == 0)%Q → rsi_of_strength (fdiv (Fin g) (Fin l)) = NaN.
Proof.
  intros Hg Hl. cbn [fdiv].
  by rewrite (proj2 (Qeq_bool_iff l 0) Hl), Qcompare_Eq.
Qed.

End rsi_regimes.

Lemma roll_mean_at_leading_nan (w t : nat) (xs : Series) :
  t < w → pd.roll_mean_at w (NaN :: xs) t = NaN.
Proof.
  intros Ht.
  destruct (roll_mean_at_cases w (NaN :: xs) t) as [|[q Hq]]; [done|].
  destruct (roll_mean_at_defined w t (NaN :: xs) (Fin q) Hq)
    as (Hw & Hwt & qs & Hlen & Hwin); [done|].
  replace (t + 1 - w) with 0 in Hwin by lia.
  destruct w as [|w]; [lia|]. destruct qs as [|q0 qs]; [done|].
  cbn in Hwin. congruence.
Qed.

Lemma rsi_gain_head (x : float64) (xs : Series) :
  ∃ gs, rsi_gain (x :: xs) = NaN :: gs.
Proof. unfold rsi_gain, pd.clip_lower0. cbn [pd.diff fmap list_fmap fltb]. eauto. Qed.

Lemma rsi_series_lookup (w t : nat) (close : Series) :
  t < length close →
  rsi_series w close !! t
  = Some (rsi_of_strength
            (fdiv (pd.roll_mean_at w (rsi_gain close) t)
                  (pd.roll_mean_at w (rsi_loss close) t))).
Proof.
  intros Ht. unfold rsi_series. rewrite list_lookup_fmap.
  rewrite (proj2 (lookup_zip_with_Some fdiv _ _ t
                    (fdiv (pd.roll_mean_at w (rsi_gain close) t)
                          (pd.roll_mean_at w (rsi_loss close) t))));
    [done|].
  eexists _, _. split; [done|].
  by rewrite !roll_mean_lookup
    by (rewrite ?length_rsi_gain, ?length_rsi_loss; done).
Qed.

Lemma length_rsi_series (w : nat) (close : Series) :
  length (rsi_series w close) = length close.
Proof.
  unfold rsi_series.
  rewrite length_fmap, length_zip_with, !length_roll_mean,
    length_rsi_gain, length_rsi_loss. lia.
Qed.

Lemma rsi_series_warm_up (w t : nat) (close : Series) :
  t < w → t < length close → rsi_series w close !! t = Some NaN.
Proof.
  intros Htw Ht. rewrite rsi_series_lookup by done.
  destruct close as [|x xs]; [simpl in Ht; lia|].
  destruct (rsi_gain_head x xs) as [gs ->].
  by rewrite roll_mean_at_leading_nan by done.
Qed.

(** X5.  The first [periods] entries of the RSI are NaN, whatever the
    closes: the first change is missing and the window needs [periods]
    of them. *)
Theorem calculate_rsi_warm_up (σ : state) (d : loc) (f : DataFrame)
    (close : Series) (periods : Z) :
  heap σ !! d = Some f →
  price_frame f close →
  (1 <= periods)%Z →
  ∃ rsi,
    calculate_rsi (Some d) periods σ = (Ok (Some rsi), σ)
    ∧ length rsi = length close
    ∧ ∀ t, (Z.of_nat t < periods)%Z → t < length close →
        rsi !! t = Some NaN.
Proof.
  intros Hd Hpf Hp. exists (rsi_series (Z.to_nat periods) close).
  split; [by apply (calculate_rsi_run σ d f close periods); [| |lia]|].
  split; [apply length_rsi_series|].
  intros t Htp Ht. apply rsi_series_warm_up; [lia|done].
Qed.

Lemma calculate_rsi_warm_up_witness :
  ∃ rsi,
    calculate_rsi (Some 0%nat) 2 (one_frame (bars climb))
    = (Ok (Some rsi), one_frame (bars climb))
    ∧ length rsi = 3
    ∧ rsi !! 0%nat = Some NaN ∧ rsi !! 1%nat = Some NaN.
Proof.
  destruct (calculate_rsi_warm_up
              (one_frame (bars climb)) 0 (bars climb) (of_Z <$> climb) 2)
    as (rsi & Hrun & Hlen & Hnan).
  - reflexivity.
  - split; [apply NoDup_singleton|reflexivity].
  - lia.
  - exists rsi. split; [exact Hrun|]. split; [exact Hlen|].
    split; apply Hnan; simpl; lia.
Defined.

Section rsi_trends.
Implicit Types (cs : list Q).

Lemma rising_steps cs s : rising cs → s ∈ steps cs → (0 < s)%Q.
Proof.
  intros Hr [i Hi]%list_elem_of_lookup.
  apply steps_lookup in Hi as (a & b & Ha & Hb & ->).
  rewrite Qred_correct. specialize (Hr i a b Ha Hb). lra.
Qed.

Lemma falling_steps cs s : falling cs → s ∈ steps cs → (s < 0)%Q.
Proof.
  intros Hr [i Hi]%list_elem_of_lookup.
  apply steps_lookup in Hi as (a & b & Ha & Hb & ->).
  rewrite Qred_correct. specialize (Hr i a b Ha Hb). lra.
Qed.

Lemma flat_steps cs s : flat cs → s ∈ steps cs → (s == 0)%Q.
Proof.
  intros Hr [i Hi]%list_elem_of_lookup.
  apply steps_lookup in Hi as (a & b & Ha & Hb & ->).
  rewrite Qred_correct. specialize (Hr i a b Ha Hb). lra.
Qed.

Lemma gain_of_sign (s : Q) :
  ((0 < s)%Q → (0 < gain_of s)%Q) ∧ ((s <= 0)%Q → (gain_of s == 0)%Q).
Proof.
  unfold gain_of. destruct (Qle_bool 0 s) eqn:E.
  - apply Qle_bool_iff in E. split; [done|]. intros. lra.
  - split; [|reflexivity]. intros Hs.
    rewrite (proj2 (Qle_bool_iff 0 s)) in E by lra. done.
Qed.

Lemma loss_of_sign (s : Q) :
  ((s < 0)%Q → (0 < loss_of s)%Q) ∧ ((0 <= s)%Q → (loss_of s == 0)%Q).
Proof.
  unfold loss_of. rewrite Qred_correct. destruct (Qle_bool s 0) eqn:E.
  - apply Qle_bool_iff in E. split; intros; lra.
  - split; [|intros; lra]. intros Hs.
    rewrite (proj2 (Qle_bool_iff s 0)) in E by lra. done.
Qed.

End rsi_trends.

(** X6.  On closes that rise bar after bar the RSI is exactly 100 at every
    position past the warm-up; on closes that fall bar after bar it is
    exactly 0. *)
Theorem calculate_rsi_trend (σ : state) (d : loc) (f : DataFrame)
    (cs : list Q) (periods : Z) :
  heap σ !! d = Some f →
  price_frame f (Fin <$> cs) →
  (1 <= periods)%Z →
  ∃ rsi,
    calculate_rsi (Some d) periods σ = (Ok (Some rsi), σ)
    ∧ (rising cs →
       ∀ t, (periods <= Z.of_nat t)%Z → t < length cs →
         rsi !! t = Some (Fin 100))
    ∧ (falling cs →
       ∀ t, (periods <= Z.of_nat t)%Z → t < length cs →
         rsi !! t = Some (Fin 0)).
Proof.
  intros Hd Hpf Hp. exists (rsi_series (Z.to_nat periods) (Fin <$> cs)).
  split; [by apply (calculate_rsi_run σ d f _ periods); [| |lia]|].
  split; intros Hcs t Hpt Ht.
  - destruct (rsi_series_entry cs (Z.to_nat periods) t)
      as (gs & ls & -> & Hgl & Hll & Hgs & Hls); [lia|lia|done|].
    f_equal. apply rsi_of_strength_saturated; rewrite Qred_correct.
    + apply arithmetic_mean_positive.
      { intros ->. simpl in Hgl. lia. }
      intros x (s & -> & Hs)%Hgs%list_elem_of_fmap.
      by apply gain_of_sign, (rising_steps cs).
    + apply arithmetic_mean_zero.
      intros x (s & -> & Hs)%Hls%list_elem_of_fmap.
      apply loss_of_sign. apply Qlt_le_weak. by apply (rising_steps cs).
  - destruct (rsi_series_entry cs (Z.to_nat periods) t)
      as (gs & ls & -> & Hgl & Hll & Hgs & Hls); [lia|lia|done|].
    f_equal. apply rsi_of_strength_no_gain; rewrite Qred_correct.
    + apply arithmetic_mean_zero.
      intros x (s & -> & Hs)%Hgs%list_elem_of_fmap.
      apply gain_of_sign. apply Qlt_le_weak. by apply (falling_steps cs).
    + apply arithmetic_mean_positive.
      { intros ->. simpl in Hll. lia. }
      intros x (s & -> & Hs)%Hls%list_elem_of_fmap.
      by apply loss_of_sign, (falling_steps cs).
Qed.

Lemma calculate_rsi_trend_witness :
  ∃ rsi,
    calculate_rsi (Some 0%nat) 2 (one_frame (bars climb))
    = (Ok (Some rsi), one_frame (bars climb))
    ∧ rsi !! 2%nat = Some (Fin 100).
Proof.
  destruct (calculate_rsi_trend
              (one_frame (bars climb)) 0 (bars climb) (inject_Z <$> climb) 2)
    as (rsi & Hrun & Hrise & _).
  - reflexivity.
  - split; [apply NoDup_singleton|reflexivity].
  - lia.
  - exists rsi. split; [exact Hrun|]. apply Hrise; [|lia|simpl; lia].
    intros [|[|[|i]]] a b Ha Hb; try discriminate;
      injection Ha as <-; injection Hb as <-; reflexivity.
Defined.

(** X7.  On closes that do not move the RSI is NaN at every position: the
    mean gain and the mean loss are both 0 and their quotient is 0/0. *)
Theorem calculate_rsi_flat (σ : state) (d : loc) (f : DataFrame)
    (cs : list Q) (periods : Z) :
  heap σ !! d = Some f →
  price_frame f (Fin <$> cs) →
  (1 <= periods)%Z →
  flat cs →
  ∃ rsi,
    calculate_rsi (Some d) periods σ = (Ok (Some rsi), σ)
    ∧ length rsi = length cs
    ∧ ∀ t, t < length cs → rsi !! t = Some NaN.
Proof.
  intros Hd Hpf Hp Hflat.
  exists (rsi_series (Z.to_nat periods) (Fin <$> cs)).
  split; [by apply (calculate_rsi_run σ d f _ periods); [| |lia]|].
  split; [by rewrite length_rsi_series, length_fmap|].
  intros t Ht.
  destruct (decide (t < Z.to_nat periods)) as [Hwarm|Hpast].
  { apply rsi_series_warm_up; [done|by rewrite length_fmap]. }
  destruct (rsi_series_entry cs (Z.to_nat periods) t)
    as (gs & ls & -> & Hgl & Hll & Hgs & Hls); [lia|lia|done|].
  f_equal. apply rsi_of_strength_flat; rewrite Qred_correct.
  - apply arithmetic_mean_zero.
    intros x (s & -> & Hs)%Hgs%list_elem_of_fmap.
    apply gain_of_sign. rewrite (flat_steps cs s) by done. lra.
  - apply arithmetic_mean_zero.
    intros x (s & -> & Hs)%Hls%list_elem_of_fmap.
    apply loss_of_sign. rewrite (flat_steps cs s) by done. lra.
Qed.

Lemma calculate_rsi_flat_witness :
  ∃ rsi,
    calculate_rsi (Some 0%nat) 2 (one_frame (bars [50; 50; 50; 50]%Z))
    = (Ok (Some rsi), one_frame (bars [50; 50; 50; 50]%Z))
    ∧ length rsi = 4
    ∧ rsi !! 3%nat = Some NaN.
Proof.
  destruct (calculate_rsi_flat
              (one_frame (bars [50; 50; 50; 50]%Z)) 0
              (bars [50; 50; 50; 50]%Z)
              (inject_Z <$> [50; 50; 50; 50]%Z) 2)
    as (rsi & Hrun & Hlen & Hnan).
  - reflexivity.
  - split; [apply NoDup_singleton|reflexivity].
  - lia.
  - intros [|[|[|[|i]]]] a b Ha Hb; try discriminate;
      injection Ha as <-; injection Hb as <-; reflexivity.
  - exists rsi. split; [exact Hrun|]. split; [exact Hlen|].
    apply Hnan. simpl. lia.
Defined.

(** X8.  A negative period count is refused by [rolling]: the error is
    printed and no series is returned.  A period count of 0 is taken: the
    series returned is NaN throughout. *)
Theorem calculate_rsi_degenerate_periods (σ : state) (d : loc)
    (f : DataFrame) (close : Series) :
  heap σ !! d = Some f →
  price_frame f close →
  (∀ periods, (periods < 0)%Z →
     calculate_rsi (Some d) periods σ
     = (Ok None,
        mkState (heap σ)
          (stdout σ
           ++ [RSIError
                 (ValueError "window must be an integer 0 or greater")])))
  ∧ calculate_rsi (Some d) 0 σ
    = (Ok (Some (replicate (length close) NaN)), σ).
Proof.
  intros Hd Hpf. pose proof Hpf as [_ Hclose]. split.
  - intros periods Hp. unfold calculate_rsi.
    rewrite bind_run, (has_close_run σ d f close) by done.
    cbn [negb]. unfold try_except.
    rewrite bind_run, (subscript_numeric_run σ d f "Close" close) by done.
    mrun. rewrite !rolling_mean_run.
    destruct (periods <? 0)%Z eqn:E; [by mrun|]. apply Z.ltb_ge in E. lia.
  - rewrite (calculate_rsi_run σ d f close 0) by done. do 3 f_equal.
    unfold rsi_series. change (Z.to_nat 0) with 0.
    rewrite !roll_mean_zero, length_rsi_gain, length_rsi_loss.
    by rewrite zip_with_replicate, fmap_replicate.
Qed.

Lemma calculate_rsi_degenerate_periods_witness :
  calculate_rsi (Some 0%nat) (-14) (one_frame (bars week))
  = (Ok None,
     mkState (heap (one_frame (bars week)))
       [RSIError (ValueError "window must be an integer 0 or greater")])
  ∧ calculate_rsi (Some 0%nat) 0 (one_frame (bars week))
    = (Ok (Some (replicate 7 NaN)), one_frame (bars week)).
Proof.
  destruct (calculate_rsi_degenerate_periods
              (one_frame (bars week)) 0 (bars week) (of_Z <$> week))
    as [Hneg Hzero].
  - reflexivity.
  - split; [apply NoDup_singleton|reflexivity].
  - split; [apply Hneg; lia|exact Hzero].
Defined.

(* ===================================================================== *)
(** ** More on MACD *)
(* ===================================================================== *)

Section ema_facts.
Implicit Types (cs qs ys : list Q) (alpha : Q).



(** An observation equal to the running average leaves it where it is. *)
Lemma ewm_loop_constant alpha (c : Q) (nobs : nat) cs :
  1 ≤ nobs →
  (∀ x, x ∈ cs → (x == c)%Q) →
  pd.ewm_loop alpha (Fin c) 1 nobs (Fin <$> cs)
  = replicate (length cs) (Fin c).
Proof.
  revert nobs. induction cs as [|x cs IH]; intros nobs Hn Hall; [done|].
  rewrite fmap_cons. cbn [pd.ewm_loop is_observation feqb length replicate].
  assert (x == c)%Q as Hx by (apply Hall; left).
  rewrite (proj2 (Qeq_bool_iff c x)) by by symmetry.
  rewrite IH; [done|lia|]. intros y Hy. apply Hall. by right.
Qed.

Lemma ewm_constant alpha (c : Q) cs :
  (∀ x, x ∈ cs → (x == c)%Q) →
  ∃ c0, (c0 == c)%Q
        ∧ pd.ewm alpha (Fin <$> cs) = replicate (length cs) (Fin c0).
Proof.
  intros Hall. destruct cs as [|c0 cs].
  { exists c. by split. }
  assert (c0 == c)%Q as H0 by (apply Hall; left).
  exists c0. split; [done|].
  rewrite fmap_cons. cbn [pd.ewm is_observation Nat.leb length replicate].
  rewrite ewm_loop_constant; [done|done|].
  intros y Hy. rewrite H0. apply Hall. by right.
Qed.

Lemma ewm_zeros alpha (n : nat) :
  pd.ewm alpha (replicate n (Fin 0)) = replicate n (Fin 0).
Proof.
  destruct (ewm_constant alpha 0 (replicate n 0%Q)) as (c0 & Hc & Hew).
  { by intros x ->%elem_of_replicate_inv. }
  rewrite fmap_replicate, length_replicate in Hew.
  destruct n as [|n]; [done|]. rewrite Hew.
  cbn [replicate pd.ewm is_observation Nat.leb] in Hew.
  by injection Hew as <- _.
Qed.

End ema_facts.

(** X9.  On closes that are all the same number the MACD line, the signal
    line and the histogram are exactly 0 at every position. *)
Theorem calculate_macd_constant (σ : state) (d : loc) (f : DataFrame)
    (cs : list Q) (c : Q) (fast slow signal : Z) :
  heap σ !! d = Some f →
  price_frame f (Fin <$> cs) →
  (1 <= fast)%Z → (1 <= slow)%Z → (1 <= signal)%Z →
  (∀ x, x ∈ cs → (x == c)%Q) →
  ∃ m,
    calculate_macd (Some d) fast slow signal σ
    = (Ok (Some m),
       mkState
         (<[m := [("MACD", FloatCol (replicate (length cs) (Fin 0)));
                  ("Signal_Line", FloatCol (replicate (length cs) (Fin 0)));
                  ("Histogram", FloatCol (replicate (length cs) (Fin 0)))]]>
            (heap σ))
         (stdout σ))
    ∧ heap σ !! m = None.
Proof.
  intros Hd Hpf Hf Hs Hg Hall. exists (fresh (dom (heap σ))).
  split; [|apply fresh_unused].
  rewrite (calculate_macd_run σ d f (Fin <$> cs) fast slow signal) by done.
  do 3 f_equal. unfold macd_frame, macd_histogram, macd_signal, macd_line.
  destruct (ewm_constant (pd.ewm_alpha fast) c cs Hall) as (c1 & Hc1 & ->).
  destruct (ewm_constant (pd.ewm_alpha slow) c cs Hall) as (c2 & Hc2 & ->).
  rewrite zip_with_replicate. cbn [fsub].
  rewrite (Qred_zero (c1 - c2)) by (rewrite Hc1, Hc2; ring).
  rewrite ewm_zeros, zip_with_replicate. done.
Qed.

Lemma calculate_macd_constant_witness :
  ∃ m,
    calculate_macd (Some 0%nat) 12 26 9 (one_frame (bars [50; 50; 50]%Z))
    = (Ok (Some m),
       mkState
         (<[m := [("MACD", FloatCol [Fin 0; Fin 0; Fin 0]);
                  ("Signal_Line", FloatCol [Fin 0; Fin 0; Fin 0]);
                  ("Histogram", FloatCol [Fin 0; Fin 0; Fin 0])]]>
            (heap (one_frame (bars [50; 50; 50]%Z))))
         []).
Proof.
  destruct (calculate_macd_constant
              (one_frame (bars [50; 50; 50]%Z)) 0 (bars [50; 50; 50]%Z)
              (inject_Z <$> [50; 50; 50]%Z) 50 12 26 9)
    as (m & Hrun & _).
  - reflexivity.
  - split; [apply NoDup_singleton|reflexivity].
  - lia.
  - lia.
  - lia.
  - intros x Hx.
    repeat (apply elem_of_cons in Hx as [->|Hx]; [reflexivity|]).
    by apply elem_of_nil in Hx.
  - exists m. exact Hrun.
Defined.

(** X10.  A span below 1, for any of the three averages, is refused by
    [ewm]: the error is printed, no frame is made and none is returned. *)
Theorem calculate_macd_bad_span (σ : state) (d : loc) (f : DataFrame)
    (close : Series) (fast slow signal : Z) :
  heap σ !! d = Some f →
  price_frame f close →
  (fast < 1 ∨ slow < 1 ∨ signal < 1)%Z →
  calculate_macd (Some d) fast slow signal σ
  = (Ok None,
     mkState (heap σ)
       (stdout σ ++ [MACDError (ValueError "span must satisfy: span >= 1")])).
Proof.
  intros Hd Hpf Hbad. pose proof Hpf as [_ Hclose].
  unfold calculate_macd.
  rewrite bind_run, (has_close_run σ d f close) by done.
  cbn [negb]. unfold try_except.
  rewrite bind_run, (subscript_numeric_run σ d f "Close" close) by done.
  unfold pd.ewm_mean.
  destruct (fast <? 1)%Z eqn:E1; [by mrun|].
  destruct (slow <? 1)%Z eqn:E2; [by mrun|].
  destruct (signal <? 1)%Z eqn:E3; [by mrun|].
  apply Z.ltb_ge in E1, E2, E3. lia.
Qed.

Lemma calculate_macd_bad_span_witness :
  calculate_macd (Some 0%nat) 12 26 0 (one_frame (bars week))
  = (Ok None,
     mkState (heap (one_frame (bars week)))
       [MACDError (ValueError "span must satisfy: span >= 1")]).
Proof.
  apply (calculate_macd_bad_span
           (one_frame (bars week)) 0 (bars week) (of_Z <$> week) 12 26 0).
  - reflexivity.
  - split; [apply NoDup_singleton|reflexivity].
  - lia.
Defined.




(* ===================================================================== *)
(** ** More on the dispersion statistics *)
(* ===================================================================== *)

Section statistics_facts.
Implicit Types (cs : list Q).

Lemma of_nat_nonzero (n : nat) : 0 < n → Qeq_bool (inject_Z (Z.of_nat n)) 0 = false.
Proof.
  intros Hn. apply Qeq_bool_false. pose proof (inject_nat_pos n Hn). lra.
Qed.

(** The squared deviations of numbers from a number, as [var] sums them. *)
Lemma squared_deviations_numbers (m : Q) cs :
  ((λ x, let d := fsub (Fin m) x in fmul d d) <$> (Fin <$> cs) : Series)
  = Fin <$> ((λ x, Qred (Qred (m - x) * Qred (m - x))) <$> cs).
Proof. by rewrite <- !list_fmap_compose. Qed.

Lemma Qsum_nonneg (qs : list Q) :
  (∀ x, x ∈ qs → (0 <= x)%Q) → (0 <= pd.Qsum qs)%Q.
Proof.
  induction qs as [|q qs IH]; intros Hall.
  { change (pd.Qsum []) with 0%Q. lra. }
  unfold pd.Qsum. cbn [foldr]. fold (pd.Qsum qs).
  assert (0 <= q)%Q by (apply Hall; left).
  assert (0 <= pd.Qsum qs)%Q by (apply IH; intros x Hx; apply Hall; by right).
  lra.
Qed.

Lemma mean_unfold cs :
  cs ≠ [] →
  pd.mean (Fin <$> cs)
  = fdiv (pd.fsum (Fin <$> cs)) (of_nat (length cs)).
Proof.
  intros Hne. unfold pd.mean. rewrite dropna_numbers, length_fmap.
  by destruct cs.
Qed.

(** The variance of at least two numbers: the sum of the squared
    deviations from the mean over [n - 1]. *)
Lemma var_numbers cs :
  2 ≤ length cs →
  ∃ m v,
    pd.mean (Fin <$> cs) = Fin m ∧ (m == arithmetic_mean cs)%Q
    ∧ pd.var (Fin <$> cs) = Fin (Qred v)
    ∧ (v == pd.Qsum ((λ x, Qred (Qred (m - x) * Qred (m - x))) <$> cs)
            / inject_Z (Z.of_nat (length cs - 1)))%Q.
Proof.
  intros Hn.
  assert (cs ≠ []) as Hne by (intros ->; simpl in Hn; lia).
  destruct (mean_numbers cs Hne) as (m & Hm & Hmean).
  pose proof Hm as Hm'. rewrite mean_unfold in Hm' by done.
  unfold pd.var. rewrite dropna_numbers, length_fmap.
  destruct (length cs <=? 1) eqn:E1; [apply Nat.leb_le in E1; lia|].
  rewrite Hm', squared_deviations_numbers.
  destruct (fsum_numbers ((λ x, Qred (Qred (m - x) * Qred (m - x))) <$> cs))
    as (q & -> & Hq).
  unfold of_nat. cbn [fdiv]. rewrite of_nat_nonzero by lia.
  exists m, (q / inject_Z (Z.of_nat (length cs - 1)))%Q.
  split; [done|]. split; [done|]. split; [done|]. by rewrite Hq.
Qed.

Lemma Qsqrt_nonneg (a : Q) : (0 <= Qsqrt a)%Q.
Proof.
  unfold Qsqrt. rewrite Qred_correct. unfold Qle. simpl.
  rewrite Z.mul_1_r. apply Z.sqrt_nonneg.
Qed.

End statistics_facts.


(** X13.  On a column of a single number the standard deviation and the
    variance divide by [n - 1 = 0] observations and are NaN, and so is the
    coefficient of variation; the least and the greatest price are that
    number and the range is 0. *)
Theorem calculate_standard_deviation_single (σ : state) (d : loc)
    (f : DataFrame) (label : string) (c : Q) :
  heap σ !! d = Some f →
  numeric_column f label [Fin c] →
  calculate_standard_deviation (Some d) label σ
  = (Ok (Some (mkStats NaN NaN (Fin c) (Fin c) (Fin 0) NaN)),
     mkState (heap σ)
       (stdout σ
        ++ [StatsReport (mkStats NaN NaN (Fin c) (Fin c) (Fin 0) NaN)])).
Proof.
  intros Hd [_ Hcol].
  unfold calculate_standard_deviation, try_except, subscript.
  rewrite bind_run, (subscript_numeric_run σ d f label [Fin c]) by done.
  mrun.
  change (pd.std [Fin c]) with NaN. change (pd.var [Fin c]) with NaN.
  change (pd.min [Fin c]) with (Fin c). change (pd.max [Fin c]) with (Fin c).
  cbn [fsub fdiv fmul]. by rewrite (Qred_zero (c - c)) by ring.
Qed.

Lemma calculate_standard_deviation_single_witness :
  calculate_standard_deviation (Some 0%nat) "Close" (one_frame (bars [7%Z]))
  = (Ok (Some (mkStats NaN NaN (Fin 7) (Fin 7) (Fin 0) NaN)),
     mkState (heap (one_frame (bars [7%Z])))
       [StatsReport (mkStats NaN NaN (Fin 7) (Fin 7) (Fin 0) NaN)]).
Proof.
  exact (calculate_standard_deviation_single
           (one_frame (bars [7%Z])) 0 (bars [7%Z]) "Close" 7
           eq_refl (conj (NoDup_singleton _) eq_refl)).
Defined.

(** X14.  On a column of at least two numbers every field but the
    coefficient of variation is a number: the variance and the standard
    deviation are not negative, the least price is at most the greatest,
    and the range is their difference. *)
Theorem calculate_standard_deviation_ordered (σ : state) (d : loc)
    (f : DataFrame) (label : string) (cs : list Q) :
  heap σ !! d = Some f →
  numeric_column f label (Fin <$> cs) →
  2 ≤ length cs →
  ∃ stats s v lo hi r,
    calculate_standard_deviation (Some d) label σ
    = (Ok (Some stats),
       mkState (heap σ) (stdout σ ++ [StatsReport stats]))
    ∧ std_deviation stats = Fin s ∧ (0 <= s)%Q
    ∧ variance stats = Fin v ∧ (0 <= v)%Q
    ∧ min_price stats = Fin lo ∧ is_minimum lo cs
    ∧ max_price stats = Fin hi ∧ is_maximum hi cs
    ∧ (lo <= hi)%Q
    ∧ price_range stats = Fin r ∧ (r == hi - lo)%Q.
Proof.
  intros Hd [_ Hcol] Hn.
  assert (cs ≠ []) as Hne by (intros ->; simpl in Hn; lia).
  destruct (var_numbers cs Hn) as (m & v & Hm & Hmean & Hvar & Hv).
  destruct (min_numbers cs Hne) as (lo & Hmin & Hlo).
  destruct (max_numbers cs Hne) as (hi & Hmax & Hhi).
  assert (0 <= Qred v)%Q as Hv0.
  { rewrite Qred_correct, Hv. apply Qle_shift_div_l.
    - apply inject_nat_pos. lia.
    - rewrite Qmult_0_l. apply Qsum_nonneg.
      intros x (y & -> & _)%list_elem_of_fmap. rewrite Qred_correct.
      set (e := Qred (m - y)). nra. }
  exists (stats_of (Fin <$> cs)), (Qsqrt (Qred v)), (Qred v), lo, hi,
    (Qred (hi - lo)).
  cbn [stats_of std_deviation variance price_range min_price max_price].
  split.
  { unfold calculate_standard_deviation, try_except, subscript.
    rewrite bind_run, (subscript_numeric_run σ d f label (Fin <$> cs))
      by done.
    by mrun. }
  unfold pd.std. rewrite Hvar, Hmin, Hmax. cbn [fsqrt fsub].
  rewrite (proj2 (Qle_bool_iff 0 (Qred v)) Hv0).
  split; [done|]. split; [apply Qsqrt_nonneg|]. split; [done|].
  split; [done|]. split; [done|]. split; [done|]. split; [done|].
  split; [done|]. split; [apply Hhi, Hlo|]. split; [done|].
  apply Qred_correct.
Qed.

Lemma calculate_standard_deviation_ordered_witness :
  ∃ stats s v lo hi r,
    calculate_standard_deviation (Some 0%nat) "Close" (one_frame (bars week))
    = (Ok (Some stats),
       mkState (heap (one_frame (bars week))) [StatsReport stats])
    ∧ std_deviation stats = Fin s ∧ (0 <= s)%Q
    ∧ variance stats = Fin v ∧ (0 <= v)%Q
    ∧ min_price stats = Fin lo ∧ max_price stats = Fin hi ∧ (lo <= hi)%Q
    ∧ price_range stats = Fin r ∧ (r == hi - lo)%Q.
Proof.
  destruct (calculate_standard_deviation_ordered
              (one_frame (bars week)) 0 (bars week) "Close"
              (inject_Z <$> week))
    as (stats & s & v & lo & hi & r & Hrun & Hs & Hs0 & Hv & Hv0 & Hlo & _
        & Hhi & _ & Hle & Hr & Hrq).
  - reflexivity.
  - split; [apply NoDup_singleton|reflexivity].
  - simpl. lia.
  - exists stats, s, v, lo, hi, r. repeat (split; [assumption|]). assumption.
Defined.

(* ===================================================================== *)
(** ** More on the trend analysis *)
(* ===================================================================== *)

Lemma total_return_number (c_first c_last : Q) :
  ¬ (c_first == 0)%Q →
  ∃ r, fmul (fdiv (fsub (Fin c_last) (Fin c_first)) (Fin c_first)) (Fin 100)
       = Fin r
       ∧ (r == (c_last - c_first) / c_first * 100)%Q.
Proof.
  intros Hf. cbn [fsub fdiv]. rewrite Qeq_bool_false by done. cbn [fmul].
  eexists. split; [done|]. by rewrite !Qred_correct.
Qed.

(** X15.  On a frame of numbers whose first close is positive,
    [advanced_price_analysis] reports the first close as the start price,
    the last close as the end price and
    [(end - start) / start * 100] as the total return, which is positive
    exactly when the last close is above the first and 0 exactly when the
    two are equal. *)
Theorem advanced_price_analysis_trend (σ : state) (d : loc) (f : DataFrame)
    (c_first c_last : Q) (cs : list Q) :
  heap σ !! d = Some f →
  price_frame f (Fin <$> cs) →
  cs !! 0 = Some c_first →
  last cs = Some c_last →
  (0 < c_first)%Q →
  ∃ analysis r,
    advanced_price_analysis (Some d) σ
    = (Ok (Some analysis),
       mkState (heap σ) (stdout σ ++ [AnalysisReport analysis]))
    ∧ start_price analysis = Fin c_first
    ∧ end_price analysis = Fin c_last
    ∧ total_return_percent analysis = Fin r
    ∧ (r == (c_last - c_first) / c_first * 100)%Q
    ∧ ((0 < r)%Q ↔ (c_first < c_last)%Q)
    ∧ ((r == 0)%Q ↔ (c_last == c_first)%Q).
Proof.
  intros Hd [_ Hclose] Hfirst Hlast Hpos.
  assert (pd.iloc_first (Fin <$> cs) = Ok (Fin c_first)) as Hf.
  { destruct cs as [|c0 cs']; [done|]. by injection Hfirst as ->. }
  assert (pd.iloc_last (Fin <$> cs) = Ok (Fin c_last)) as Hl.
  { unfold pd.iloc_last. by rewrite fmap_last, Hlast. }
  destruct (total_return_number c_first c_last) as (r & Hr & Hrq); [lra|].
  eexists _, r. split.
  { unfold advanced_price_analysis, try_except, subscript.
    rewrite bind_run, (subscript_numeric_run σ d f "Close" (Fin <$> cs))
      by done.
    mrun. rewrite Hf. mrun. rewrite Hl. by mrun. }
  cbn [start_price end_price total_return_percent].
  split; [done|]. split; [done|]. split; [done|]. split; [done|].
  assert (0 < / c_first)%Q as Hinv by by apply Qinv_lt_0_compat.
  assert (r == (c_last - c_first) * (100 * / c_first))%Q as Hr'.
  { rewrite Hrq. field. lra. }
  set (k := (100 * / c_first)%Q) in *.
  assert (0 < k)%Q as Hk by (unfold k; nra).
  split; split; intros H; nra.
Qed.

Lemma advanced_price_analysis_trend_witness :
  ∃ analysis r,
    advanced_price_analysis (Some 0%nat) (one_frame (bars week))
    = (Ok (Some analysis),
       mkState (heap (one_frame (bars week))) [AnalysisReport analysis])
    ∧ start_price analysis = Fin 100
    ∧ end_price analysis = Fin 107
    ∧ total_return_percent analysis = Fin r
    ∧ (r == 7)%Q.
Proof.
  destruct (advanced_price_analysis_trend
              (one_frame (bars week)) 0 (bars week) 100 107
              (inject_Z <$> week))
    as (a & r & Hrun & Hs & He & Hr & Hrq & _).
  - reflexivity.
  - split; [apply NoDup_singleton|reflexivity].
  - reflexivity.
  - reflexivity.
  - reflexivity.
  - exists a, r. split; [exact Hrun|]. split; [exact Hs|].
    split; [exact He|]. split; [exact Hr|]. rewrite Hrq. reflexivity.
Defined.

(** X16.  With exactly two bars of numbers (the first not 0) there is one
    daily return: the mean daily return is [c1 / c0 - 1], but the daily
    and the annualized volatility, which need two returns, are NaN. *)
Theorem advanced_price_analysis_two_bars (σ : state) (d : loc)
    (f : DataFrame) (c0 c1 : Q) :
  heap σ !! d = Some f →
  price_frame f [Fin c0; Fin c1] →
  ¬ (c0 == 0)%Q →
  ∃ analysis m,
    advanced_price_analysis (Some d) σ
    = (Ok (Some analysis),
       mkState (heap σ) (stdout σ ++ [AnalysisReport analysis]))
    ∧ mean_daily_return analysis = Fin m
    ∧ (m == c1 / c0 - 1)%Q
    ∧ daily_volatility analysis = NaN
    ∧ annualized_volatility analysis = NaN
    ∧ start_price analysis = Fin c0
    ∧ end_price analysis = Fin c1.
Proof.
  intros Hd [_ Hclose] Hc0.
  assert (pd.pct_change [Fin c0; Fin c1]
          = [NaN; Fin (Qred (Qred (c1 / c0) - 1))]) as Hpct.
  { cbn [pd.pct_change zip_with fdiv]. rewrite Qeq_bool_false by done.
    done. }
  eexists _, _. split.
  { unfold advanced_price_analysis, try_except, subscript.
    rewrite bind_run, (subscript_numeric_run σ d f "Close" [Fin c0; Fin c1])
      by done.
    mrun. change (pd.iloc_first [Fin c0; Fin c1]) with (Ok (Fin c0)).
    mrun. change (pd.iloc_last [Fin c0; Fin c1]) with (Ok (Fin c1)).
    by mrun. }
  cbn [mean_daily_return daily_volatility annualized_volatility start_price
       end_price].
  rewrite Hpct.
  change (pd.std [NaN; Fin (Qred (Qred (c1 / c0) - 1))]) with NaN.
  split; [|split; [|done]].
  - unfold pd.mean. cbn [pd.dropna List.filter is_observation length
                         pd.fsum foldl fadd of_nat fdiv].
    rewrite Qeq_bool_false by done. done.
  - rewrite !Qred_correct. by field.
Qed.

Lemma advanced_price_analysis_two_bars_witness :
  ∃ analysis m,
    advanced_price_analysis (Some 0%nat) (one_frame (bars [100; 110]%Z))
    = (Ok (Some analysis),
       mkState (heap (one_frame (bars [100; 110]%Z)))
         [AnalysisReport analysis])
    ∧ mean_daily_return analysis = Fin m
    ∧ (m == 1 # 10)%Q
    ∧ daily_volatility analysis = NaN
    ∧ annualized_volatility analysis = NaN.
Proof.
  destruct (advanced_price_analysis_two_bars
              (one_frame (bars [100; 110]%Z)) 0 (bars [100; 110]%Z) 100 110)
    as (a & m & Hrun & Hm & Hmq & Hv & Hav & _).
  - reflexivity.
  - split; [apply NoDup_singleton|reflexivity].
  - discriminate.
  - exists a, m. split; [exact Hrun|]. split; [exact Hm|].
    split; [rewrite Hmq; reflexivity|]. by split.
Defined.

(** X17.  On a frame with a [Close] column but no bar,
    [advanced_price_analysis] gives no record: taking the first close
    raises, the error is printed and [None] is returned. *)
Theorem advanced_price_analysis_no_bars (σ : state) (d : loc)
    (f : DataFrame) :
  heap σ !! d = Some f →
  price_frame f [] →
  advanced_price_analysis (Some d) σ
  = (Ok None, mkState (heap σ) (stdout σ ++ [AnalysisError IndexError])).
Proof.
  intros Hd [_ Hclose].
  unfold advanced_price_analysis, try_except, subscript.
  rewrite bind_run, (subscript_numeric_run σ d f "Close" []) by done.
  by mrun.
Qed.

Lemma advanced_price_analysis_no_bars_witness :
  advanced_price_analysis (Some 0%nat) (one_frame (bars []))
  = (Ok None,
     mkState (heap (one_frame (bars []))) [AnalysisError IndexError]).
Proof.
  exact (advanced_price_analysis_no_bars
           (one_frame (bars [])) 0 (bars [])
           eq_refl (conj (NoDup_singleton _) eq_refl)).
Defined.

(* ===================================================================== *)
(** ** More on the fluctuation alert *)
(* ===================================================================== *)

Lemma fgtb_antitone (p : float64) (th th' : Q) :
  (th' <= th)%Q → fgtb p (Fin th) = true → fgtb p (Fin th') = true.
Proof.
  unfold fgtb. intros Hle. destruct p as [q| | |]; try done.
  rewrite !fltb_Fin. lra.
Qed.

(** X18.  Lowering the threshold never loses an alert: if an alert is
    returned for a threshold, the same alert is returned, and the same
    lines are printed, for every lower threshold. *)
Theorem notify_threshold_antitone (σ : state) (d : loc) (f : DataFrame)
    (close : Series) (ticker : string) (th th' : Q) (info : FluctuationInfo)
    (σ' : state) :
  heap σ !! d = Some f →
  price_frame f close →
  (th' <= th)%Q →
  notify_if_strong_fluctuations (Some d) ticker (Fin th) σ
  = (Ok (Some info), σ') →
  notify_if_strong_fluctuations (Some d) ticker (Fin th') σ
  = (Ok (Some info), σ').
Proof.
  intros Hd Hpf Hle. rewrite !(notify_run σ d f close) by done. cbv zeta.
  destruct (fgtb _ (Fin th)) eqn:E; [|done].
  by rewrite (fgtb_antitone _ th th' Hle E).
Qed.

Lemma notify_threshold_antitone_witness :
  notify_if_strong_fluctuations (Some 0%nat) "AAPL" (Fin 3)
    (one_frame (bars week))
  = (Ok (Some (mkFluctuationInfo "AAPL" (Fin 100) (Fin 108) (Fin 8))),
     mkState (heap (one_frame (bars week)))
       (alert_lines "AAPL" (Fin 100) (Fin 108) (Fin 8))).
Proof.
  apply (notify_threshold_antitone
           (one_frame (bars week)) 0 (bars week) (of_Z <$> week) "AAPL" 5 3).
  - reflexivity.
  - split; [apply NoDup_singleton|reflexivity].
  - discriminate.
  - vm_compute. reflexivity.
Defined.

(** X19.  On positive closes that are all equal the range percent is 0,
    and no alert is returned or printed for any threshold that is not
    negative. *)
Theorem notify_constant_series (σ : state) (d : loc) (f : DataFrame)
    (cs : list Q) (c : Q) (ticker : string) (th : Q) :
  heap σ !! d = Some f →
  price_frame f (Fin <$> cs) →
  cs ≠ [] →
  (∀ x, x ∈ cs → (x == c)%Q) →
  (0 < c)%Q →
  (0 <= th)%Q →
  price_range_percent (pd.min (Fin <$> cs)) (pd.max (Fin <$> cs)) = Fin 0
  ∧ notify_if_strong_fluctuations (Some d) ticker (Fin th) σ = (Ok None, σ).
Proof.
  intros Hd Hpf Hne Hall Hc Hth.
  destruct (min_numbers cs Hne) as (lo & Hmin & Hlo_in & _).
  destruct (max_numbers cs Hne) as (hi & Hmax & Hhi_in & _).
  pose proof (Hall lo Hlo_in) as Hlo. pose proof (Hall hi Hhi_in) as Hhi.
  assert (price_range_percent (Fin lo) (Fin hi) = Fin 0) as Hp.
  { destruct (price_range_percent_positive lo hi) as (p & Hp & Hpq); [lra|].
    rewrite Hp. unfold price_range_percent in Hp. cbn [fsub fdiv] in Hp.
    rewrite Qeq_bool_false in Hp by lra. cbn [fmul] in Hp.
    injection Hp as <-. f_equal. apply Qred_zero. rewrite Qred_correct.
    rewrite Qred_correct, Hlo, Hhi. field. lra. }
  rewrite Hmin, Hmax. split; [done|].
  rewrite (notify_run σ d f (Fin <$> cs)) by done. cbv zeta.
  rewrite Hmin, Hmax, Hp. unfold fgtb.
  by rewrite (proj2 (fltb_Fin_false th 0)).
Qed.

Lemma notify_constant_series_witness :
  notify_if_strong_fluctuations (Some 0%nat) "AAPL" (Fin 5)
    (one_frame (bars [50; 50; 50]%Z))
  = (Ok None, one_frame (bars [50; 50; 50]%Z)).
Proof.
  apply (notify_constant_series
           (one_frame (bars [50; 50; 50]%Z)) 0 (bars [50; 50; 50]%Z)
           (inject_Z <$> [50; 50; 50]%Z) 50 "AAPL" 5).
  - reflexivity.
  - split; [apply NoDup_singleton|reflexivity].
  - discriminate.
  - intros x Hx.
    repeat (apply elem_of_cons in Hx as [->|Hx]; [reflexivity|]).
    by apply elem_of_nil in Hx.
  - reflexivity.
  - discriminate.
Defined.

(** X20.  On a frame with a [Close] column but no bar the least and the
    greatest close are NaN, and no alert is returned or printed, whatever
    the threshold. *)
Theorem notify_no_bars (σ : state) (d : loc) (f : DataFrame)
    (ticker : string) (threshold : float64) :
  heap σ !! d = Some f →
  price_frame f [] →
  notify_if_strong_fluctuations (Some d) ticker threshold σ = (Ok None, σ).
Proof.
  intros Hd Hpf. rewrite (notify_run σ d f []) by done. cbv zeta.
  change (price_range_percent (pd.min []) (pd.max [])) with NaN.
  by destruct threshold.
Qed.

Lemma notify_no_bars_witness :
  notify_if_strong_fluctuations (Some 0%nat) "AAPL" (Fin 5)
    (one_frame (bars []))
  = (Ok None, one_frame (bars [])).
Proof.
  exact (notify_no_bars (one_frame (bars [])) 0 (bars []) "AAPL" (Fin 5)
           eq_refl (conj (NoDup_singleton _) eq_refl)).
Defined.

(* ===================================================================== *)
(** ** More on the frame of indicators *)
(* ===================================================================== *)

Lemma calculate_rsi_no_close (σ : state) (d : loc) (f : DataFrame)
    (periods : Z) :
  heap σ !! d = Some f →
  frame_get f "Close" = None →
  calculate_rsi (Some d) periods σ
  = (Ok None, mkState (heap σ) (stdout σ ++ [InsufficientRSI])).
Proof.
  intros Hd Hc. unfold calculate_rsi.
  rewrite bind_run, (has_column_run σ d f) by done. rewrite Hc.
  rewrite bool_decide_eq_false_2 by (by intros [? ?]). by mrun.
Qed.

Lemma calculate_macd_no_close (σ : state) (d : loc) (f : DataFrame)
    (fast slow signal : Z) :
  heap σ !! d = Some f →
  frame_get f "Close" = None →
  calculate_macd (Some d) fast slow signal σ
  = (Ok None, mkState (heap σ) (stdout σ ++ [InsufficientMACD])).
Proof.
  intros Hd Hc. unfold calculate_macd.
  rewrite bind_run, (has_column_run σ d f) by done. rewrite Hc.
  rewrite bool_decide_eq_false_2 by (by intros [? ?]). by mrun.
Qed.

(** X21.  On a frame without a [Close] column (and without an [RSI]
    column) [add_technical_indicators] still returns a new frame: the
    columns of the input followed by an [RSI] column of [None]; no MACD
    column is appended, and the two "not enough data" lines are
    printed. *)
Theorem add_technical_indicators_no_close (σ : state) (d : loc)
    (f : DataFrame) :
  heap σ !! d = Some f →
  frame_get f "Close" = None →
  frame_get f "RSI" = None →
  ∃ out : loc,
    add_technical_indicators (Some d) true true σ
    = (Ok (Some out),
       mkState (<[out := f ++ [("RSI", NoneCol)]]> (heap σ))
               (stdout σ ++ [InsufficientRSI; InsufficientMACD]))
    ∧ heap σ !! out = None.
Proof.
  intros Hd Hclose Hrsi. exists (fresh (dom (heap σ))).
  split; [|apply fresh_unused].
  set (l1 := fresh (dom (heap σ))).
  assert (l1 ≠ d) as Hne.
  { intros Heq. pose proof (fresh_unused (heap σ)) as Hnew.
    fold l1 in Hnew. rewrite Heq in Hnew. congruence. }
  unfold add_technical_indicators, try_except.
  rewrite bind_run, (copy_run σ d f), alloc_run by done. mrun. fold l1.
  rewrite (calculate_rsi_no_close _ d f) by
    (done || (cbn [heap]; by rewrite lookup_insert_ne)).
  mrun. rewrite (setitem_run _ l1 f) by (cbn [heap]; apply lookup_insert_eq).
  mrun. rewrite (calculate_macd_no_close _ d f) by
    (done || (cbn [heap]; by rewrite !lookup_insert_ne)).
  mrun. cbn [rsi_column].
  by rewrite insert_insert_eq, frame_set_new, <- app_assoc by done.
Qed.

Lemma add_technical_indicators_no_close_witness :
  ∃ out : loc,
    add_technical_indicators (Some 0%nat) true true
      (one_frame [("Open", FloatCol [Fin 1; Fin 2])])
    = (Ok (Some out),
       mkState (<[out := [("Open", FloatCol [Fin 1; Fin 2]); ("RSI", NoneCol)]]>
                  (heap (one_frame [("Open", FloatCol [Fin 1; Fin 2])])))
               [InsufficientRSI; InsufficientMACD]).
Proof.
  destruct (add_technical_indicators_no_close
              (one_frame [("Open", FloatCol [Fin 1; Fin 2])]) 0
              [("Open", FloatCol [Fin 1; Fin 2])])
    as (out & Hrun & _).
  - reflexivity.
  - reflexivity.
  - reflexivity.
  - exists out. exact Hrun.
Defined.

(** The run of [add_technical_indicators] on a frame of bars, for any
    choice of the two flags. *)
Lemma add_technical_indicators_selected (σ : state) (d : loc) (f : DataFrame)
    (close : Series) (add_rsi add_macd : bool) :
  heap σ !! d = Some f →
  price_frame f close →
  frame_get f "RSI" = None →
  ∃ (out : loc) (σ' : state),
    add_technical_indicators (Some d) add_rsi add_macd σ
    = (Ok (Some out), σ')
    ∧ heap σ !! out = None
    ∧ heap σ' !! out = Some (f ++ selected_columns add_rsi add_macd close)
    ∧ (∀ l g, heap σ !! l = Some g → heap σ' !! l = Some g)
    ∧ stdout σ' = stdout σ.
Proof.
  intros Hd Hpf Hrsi.
  set (h := heap σ).
  set (l1 := fresh (dom h)).
  assert (h !! l1 = None) as Hl1 by apply fresh_unused.
  assert (l1 ≠ d) as Hne.
  { intros Heq. rewrite Heq in Hl1. unfold h in Hl1. congruence. }
  set (f1 := if add_rsi
             then frame_set f "RSI" (FloatCol (rsi_series 14 close))
             else f).
  set (h1 := <[l1 := f1]> h).
  assert (h ⊆ h1) as Hh1 by by apply insert_subseteq.
  assert (h1 !! d = Some f) as Hd1.
  { by apply (lookup_weaken h h1 d f Hd). }
  assert (f1 = f ++ (if add_rsi
                     then [("RSI", FloatCol (rsi_series 14 close))]
                     else [])) as Hf1.
  { unfold f1. destruct add_rsi; [by apply frame_set_new|].
    by rewrite app_nil_r. }
  (* the state after the RSI step *)
  assert (add_technical_indicators (Some d) add_rsi add_macd σ
          = (if add_macd then
               try_except
                 (macd_indicators ← calculate_macd (Some d) 12 26 9;
                  match macd_indicators with
                  | Some m =>
                      merged ← concat_columns l1 m; mret (Some merged)
                  | None => mret (Some l1)
                  end)
                 (λ e, print (IndicatorsError e);; mret None)
             else mret (Some l1))
              (mkState h1 (stdout σ))) as Hstep.
  { clear Hf1 Hd1 Hh1. subst h1 f1. destruct add_rsi.
    - unfold add_technical_indicators, try_except.
      rewrite bind_run, (copy_run σ d f), alloc_run by done.
      mrun. fold h l1.
      pose (σ1 := mkState (<[l1 := f]> h) (stdout σ)).
      assert (heap σ1 !! d = Some f) as Hd'.
      { cbn [σ1 heap]. by rewrite lookup_insert_ne. }
      fold σ1. rewrite (calculate_rsi_run σ1 d f close 14) by done.
      mrun. rewrite (setitem_run σ1 l1 f) by apply lookup_insert_eq.
      mrun. cbn [σ1 heap stdout rsi_column].
      change (Z.to_nat 14) with 14. rewrite insert_insert_eq.
      by destruct add_macd.
    - unfold add_technical_indicators, try_except.
      rewrite bind_run, (copy_run σ d f), alloc_run by done.
      mrun. fold h l1. by destruct add_macd. }
  rewrite Hstep. clear Hstep.
  destruct add_macd.
  - set (σ1 := mkState h1 (stdout σ)).
    set (l2 := fresh (dom h1)).
    set (h2 := <[l2 := macd_frame 12 26 9 close]> h1).
    set (l3 := fresh (dom h2)).
    assert (h1 !! l2 = None) as Hl2 by apply fresh_unused.
    assert (h2 !! l3 = None) as Hl3 by apply fresh_unused.
    assert (h1 ⊆ h2) as Hh2 by by apply insert_subseteq.
    exists l3, (mkState (<[l3 := f1 ++ macd_frame 12 26 9 close]> h2)
                        (stdout σ)).
    assert (h2 ⊆ <[l3 := f1 ++ macd_frame 12 26 9 close]> h2) as Hh3
      by by apply insert_subseteq.
    split; [|split; [|split; [|split]]].
    + unfold try_except.
      rewrite bind_run, (calculate_macd_run σ1 d f close 12 26 9) by done.
      mrun. cbn [σ1 heap stdout]. fold l2 h2.
      rewrite (concat_columns_run _ l1 l2 f1 (macd_frame 12 26 9 close)).
      * by mrun.
      * cbn [heap]. apply (lookup_weaken h1 h2); [|done].
        apply lookup_insert_eq.
      * cbn [heap]. apply lookup_insert_eq.
    + apply (lookup_weaken_None h h2 l3 Hl3). by trans h1.
    + cbn [heap]. rewrite lookup_insert_eq, Hf1. unfold selected_columns.
      by rewrite <- app_assoc.
    + intros l g Hl. cbn [heap].
      apply (lookup_weaken h); [done|]. trans h1; [done|by trans h2].
    + done.
  - exists l1, (mkState h1 (stdout σ)). rewrite ret_run.
    split; [done|]. split; [done|]. cbn [heap stdout].
    split; [|split; [|done]].
    + unfold h1. rewrite lookup_insert_eq, Hf1. unfold selected_columns.
      by rewrite app_nil_r.
    + intros l g Hl. by apply (lookup_weaken h h1 l g Hl).
Qed.

(** X22.  The two flags choose the columns: on a frame of bars without an
    [RSI] column, [add_technical_indicators] returns a new frame that is
    the input followed by [RSI] if [add_rsi] is set and by [MACD],
    [Signal_Line] and [Histogram] if [add_macd] is set; with both flags
    off the result is a plain copy.  The frame returned is never the one
    that was passed, no frame that existed before is changed and nothing
    is printed. *)
Theorem add_technical_indicators_flags (σ : state) (d : loc) (f : DataFrame)
    (close : Series) (add_rsi add_macd : bool) :
  heap σ !! d = Some f →
  price_frame f close →
  frame_get f "RSI" = None →
  ∃ (out : loc) (σ' : state),
    add_technical_indicators (Some d) add_rsi add_macd σ
    = (Ok (Some out), σ')
    ∧ heap σ !! out = None
    ∧ out ≠ d
    ∧ heap σ' !! out = Some (f ++ selected_columns add_rsi add_macd close)
    ∧ heap σ' !! d = Some f
    ∧ (∀ l g, heap σ !! l = Some g → heap σ' !! l = Some g)
    ∧ stdout σ' = stdout σ.
Proof.
  intros Hd Hpf Hrsi.
  destruct (add_technical_indicators_selected σ d f close add_rsi add_macd
              Hd Hpf Hrsi)
    as (out & σ' & Hrun & Hnew & Hout & Hkeep & Hprint).
  exists out, σ'. split; [exact Hrun|]. split; [exact Hnew|].
  split; [intros ->; congruence|]. split; [exact Hout|].
  split; [by apply Hkeep|]. by split.
Qed.

Lemma add_technical_indicators_flags_witness :
  ∃ (out : loc) (σ' : state),
    add_technical_indicators (Some 0%nat) false false (one_frame (bars week))
    = (Ok (Some out), σ')
    ∧ heap (one_frame (bars week)) !! out = None
    ∧ heap σ' !! out = Some (bars week)
    ∧ stdout σ' = [].
Proof.
  destruct (add_technical_indicators_flags
              (one_frame (bars week)) 0 (bars week) (of_Z <$> week)
              false false)
    as (out & σ' & Hrun & Hnew & _ & Hout & _ & _ & Hprint).
  - reflexivity.
  - split; [apply NoDup_singleton|reflexivity].
  - reflexivity.
  - exists out, σ'. split; [exact Hrun|]. split; [exact Hnew|].
    split; [exact Hout|exact Hprint].
Defined.

(* ===================================================================== *)
(** ** What the reporting functions read, and what no function raises *)
(* ===================================================================== *)

Lemma close_run (σ : state) (d : loc) (g : DataFrame) :
  heap σ !! d = Some g →
  (getitem d "Close" ≫= numeric) σ
  = (match frame_get g "Close" with
     | Some (FloatCol xs) => Ok xs
     | Some NoneCol => Raise (TypeError "unsupported operand type: NoneType")
     | None => Raise (KeyError "Close")
     end, σ).
Proof.
  intros Hd. rewrite bind_run, (getitem_run σ d g) by done.
  by destruct (frame_get g "Close") as [[xs|]|].
Qed.

Lemma silent_run {A} (a : A) (σ : state) :
  (Ok a, σ) = (Ok a, mkState (heap σ) (stdout σ ++ [])).
Proof. by rewrite app_nil_r, state_eta. Qed.

(** Closes a goal [reports m σ ?a ?lines] once [m] has been run. *)
Ltac reported :=
  unfold reports; mrun; rewrite <- ?app_assoc;
  first [reflexivity | apply silent_run].

Lemma average_reads_close (c : option column) :
  ∃ r lines, ∀ (σ : state) (d : loc) (g : DataFrame),
    heap σ !! d = Some g → frame_get g "Close" = c →
    reports (calculate_average_price (Some d)) σ r lines.
Proof.
  destruct c as [[xs|]|]; eexists _, _; intros σ d g Hd Hc;
    unfold reports, calculate_average_price, try_except;
    rewrite bind_run, (close_run σ d g Hd), Hc; reported.
Qed.

Lemma notify_reads_close (ticker : string) (threshold : float64)
    (c : option column) :
  ∃ r lines, ∀ (σ : state) (d : loc) (g : DataFrame),
    heap σ !! d = Some g → frame_get g "Close" = c →
    reports (notify_if_strong_fluctuations (Some d) ticker threshold)
            σ r lines.
Proof.
  destruct c as [[xs|]|].
  - destruct (fgtb (price_range_percent (pd.min xs) (pd.max xs)) threshold)
      eqn:E; eexists _, _; intros σ d g Hd Hc;
      unfold reports, notify_if_strong_fluctuations, try_except;
      rewrite bind_run, (close_run σ d g Hd), Hc; cbv beta iota zeta;
      rewrite E; reported.
  - eexists _, _; intros σ d g Hd Hc.
    unfold reports, notify_if_strong_fluctuations, try_except.
    rewrite bind_run, (close_run σ d g Hd), Hc. reported.
  - eexists _, _; intros σ d g Hd Hc.
    unfold reports, notify_if_strong_fluctuations, try_except.
    rewrite bind_run, (close_run σ d g Hd), Hc. reported.
Qed.

Lemma statistics_reads_close (c : option column) :
  ∃ r lines, ∀ (σ : state) (d : loc) (g : DataFrame),
    heap σ !! d = Some g → frame_get g "Close" = c →
    reports (calculate_standard_deviation (Some d) "Close") σ r lines.
Proof.
  destruct c as [[xs|]|]; eexists _, _; intros σ d g Hd Hc;
    unfold reports, calculate_standard_deviation, try_except, subscript;
    rewrite bind_run, (close_run σ d g Hd), Hc; reported.
Qed.

Lemma analysis_reads_close (c : option column) :
  ∃ r lines, ∀ (σ : state) (d : loc) (g : DataFrame),
    heap σ !! d = Some g → frame_get g "Close" = c →
    reports (advanced_price_analysis (Some d)) σ r lines.
Proof.
  destruct c as [[xs|]|].
  - destruct (pd.iloc_first xs) as [a|e] eqn:Ea;
      [destruct (pd.iloc_last xs) as [b|e] eqn:Eb|];
      eexists _, _; intros σ d g Hd Hc;
      unfold reports, advanced_price_analysis, try_except, subscript;
      rewrite bind_run, (close_run σ d g Hd), Hc; cbv beta iota zeta;
      mrun; rewrite ?Ea, ?Eb; reported.
  - eexists _, _; intros σ d g Hd Hc.
    unfold reports, advanced_price_analysis, try_except, subscript.
    rewrite bind_run, (close_run σ d g Hd), Hc. reported.
  - eexists _, _; intros σ d g Hd Hc.
    unfold reports, advanced_price_analysis, try_except, subscript.
    rewrite bind_run, (close_run σ d g Hd), Hc. reported.
Qed.

Lemma rsi_reads_close (periods : Z) (c : option column) :
  ∃ r lines, ∀ (σ : state) (d : loc) (g : DataFrame),
    heap σ !! d = Some g → frame_get g "Close" = c →
    reports (calculate_rsi (Some d) periods) σ r lines.
Proof.
  destruct c as [[xs|]|].
  - destruct (pd.rolling_mean periods (rsi_gain xs)) as [a|e] eqn:Ea;
      [destruct (pd.rolling_mean periods (rsi_loss xs)) as [b|e] eqn:Eb|];
      eexists _, _; intros σ d g Hd Hc;
      unfold reports, calculate_rsi, try_except;
      rewrite bind_run, (has_column_run σ d g), Hc by done;
      (rewrite bool_decide_eq_true_2 by by eexists); cbn [negb];
      rewrite bind_run, (close_run σ d g Hd), Hc; cbv beta iota zeta;
      mrun; rewrite ?Ea, ?Eb; reported.
  - eexists _, _; intros σ d g Hd Hc.
    unfold reports, calculate_rsi, try_except.
    rewrite bind_run, (has_column_run σ d g), Hc by done.
    (rewrite bool_decide_eq_true_2 by by eexists); cbn [negb].
    rewrite bind_run, (close_run σ d g Hd), Hc. reported.
  - eexists _, _; intros σ d g Hd Hc.
    unfold reports, calculate_rsi, try_except.
    rewrite bind_run, (has_column_run σ d g), Hc by done.
    (rewrite bool_decide_eq_false_2 by by intros [? ?]); cbn [negb].
    reported.
Qed.

(** X23.  The five functions that only report - the average, the
    fluctuation alert, the RSI, the statistics of [Close] and the trend
    analysis - read nothing of a frame but its [Close] column: on two
    frames with the same [Close] column (or both without one), in any two
    states, each function returns the same result and prints the same
    lines, and it changes no frame. *)
Theorem reports_read_only_close (σ1 σ2 : state) (d1 d2 : loc)
    (g1 g2 : DataFrame) (ticker : string) (threshold : float64)
    (periods : Z) :
  heap σ1 !! d1 = Some g1 →
  heap σ2 !! d2 = Some g2 →
  frame_get g1 "Close" = frame_get g2 "Close" →
  (∃ r lines,
     reports (calculate_average_price (Some d1)) σ1 r lines
     ∧ reports (calculate_average_price (Some d2)) σ2 r lines)
  ∧ (∃ r lines,
       reports (notify_if_strong_fluctuations (Some d1) ticker threshold)
               σ1 r lines
       ∧ reports (notify_if_strong_fluctuations (Some d2) ticker threshold)
                 σ2 r lines)
  ∧ (∃ r lines,
       reports (calculate_rsi (Some d1) periods) σ1 r lines
       ∧ reports (calculate_rsi (Some d2) periods) σ2 r lines)
  ∧ (∃ r lines,
       reports (calculate_standard_deviation (Some d1) "Close") σ1 r lines
       ∧ reports (calculate_standard_deviation (Some d2) "Close") σ2 r lines)
  ∧ (∃ r lines,
       reports (advanced_price_analysis (Some d1)) σ1 r lines
       ∧ reports (advanced_price_analysis (Some d2)) σ2 r lines).
Proof.
  intros H1 H2 Hc.
  destruct (average_reads_close (frame_get g2 "Close")) as (r1 & l1 & Ha).
  destruct (notify_reads_close ticker threshold (frame_get g2 "Close"))
    as (r2 & l2 & Hn).
  destruct (rsi_reads_close periods (frame_get g2 "Close"))
    as (r3 & l3 & Hr).
  destruct (statistics_reads_close (frame_get g2 "Close"))
    as (r4 & l4 & Hs).
  destruct (analysis_reads_close (frame_get g2 "Close")) as (r5 & l5 & Ht).
  repeat split; eexists _, _; eauto.
Qed.

Lemma reports_read_only_close_witness :
  ∃ r lines,
    reports (calculate_average_price (Some 0%nat))
            (one_frame (bars week)) r lines
    ∧ reports (calculate_average_price (Some 0%nat))
              (one_frame (("Open", FloatCol [Fin 1]) :: bars week)) r lines.
Proof.
  destruct (reports_read_only_close
              (one_frame (bars week))
              (one_frame (("Open", FloatCol [Fin 1]) :: bars week))
              0 0 (bars week) (("Open", FloatCol [Fin 1]) :: bars week)
              "AAPL" (Fin 3) 14)
    as (Ha & _).
  - reflexivity.
  - reflexivity.
  - reflexivity.
  - exact Ha.
Defined.

Lemma try_except_returns {A} (body : M A) (handler : exn → M A) (σ : state) :
  (∀ e σ', returns (handler e) σ') → returns (try_except body handler) σ.
Proof.
  intros Hh. unfold returns, try_except.
  destruct (body σ) as [[a|e] σ']; [by eexists _, _|apply Hh].
Qed.

Lemma print_then_returns {A} (m : message) (a : A) (σ : state) :
  returns (print m;; mret a) σ.
Proof. unfold returns. mrun. by eexists _, _. Qed.

(** X24.  No function of the analysis layer lets an exception out: handed
    [None] or a frame, with any parameters, each of the eight functions
    returns. *)
Theorem transforms_never_raise (σ : state) (data : option loc)
    (window_size periods fast slow signal : Z) (ticker label : string)
    (threshold : float64) (add_rsi add_macd : bool) :
  live σ data →
  returns (add_moving_average data window_size) σ
  ∧ returns (calculate_average_price data) σ
  ∧ returns (notify_if_strong_fluctuations data ticker threshold) σ
  ∧ returns (calculate_rsi data periods) σ
  ∧ returns (calculate_macd data fast slow signal) σ
  ∧ returns (add_technical_indicators data add_rsi add_macd) σ
  ∧ returns (calculate_standard_deviation data label) σ
  ∧ returns (advanced_price_analysis data) σ.
Proof.
  intros Hlive.
  assert (returns (calculate_standard_deviation data label) σ
          ∧ returns (advanced_price_analysis data) σ) as [Hs Ht].
  { split; apply try_except_returns; intros e σ'; apply print_then_returns. }
  destruct data as [d|]; cbn [live] in Hlive.
  - destruct Hlive as [g Hd].
    repeat split; try done;
      try (apply try_except_returns; intros e σ'; apply print_then_returns).
    + unfold calculate_rsi, returns.
      rewrite bind_run, (has_column_run σ d g) by done.
      destruct (negb _); [apply print_then_returns|].
      apply try_except_returns; intros e σ'; apply print_then_returns.
    + unfold calculate_macd, returns.
      rewrite bind_run, (has_column_run σ d g) by done.
      destruct (negb _); [apply print_then_returns|].
      apply try_except_returns; intros e σ'; apply print_then_returns.
  - repeat split; try done; try apply print_then_returns.
    unfold returns, add_moving_average. mrun. by eexists _, _.
Qed.

Lemma transforms_never_raise_witness :
  returns (add_moving_average (Some 0%nat) (-1)) (one_frame (bars week))
  ∧ returns (calculate_macd (Some 0%nat) 0 26 9) (one_frame (bars week))
  ∧ returns (calculate_standard_deviation (Some 0%nat) "Volume")
            (one_frame (bars week)).
Proof.
  destruct (transforms_never_raise (one_frame (bars week)) (Some 0%nat)
              (-1) 14 0 26 9 "AAPL" "Volume" (Fin 5) true true)
    as (Hma & _ & _ & _ & Hmacd & _ & Hstd & _).
  - by exists (bars week).
  - split; [exact Hma|]. split; [exact Hmacd|exact Hstd].
Defined.

(* ===================================================================== *)
(** ** The analysis steps of [main] *)
(* ===================================================================== *)

Lemma frame_get_app (f g : DataFrame) (label : string) :
  frame_get (f ++ g) label
  = match frame_get f label with
    | Some c => Some c
    | None => frame_get g label
    end.
Proof.
  induction f as [|[k c] f IH]; cbn [frame_get app]; [done|].
  by destruct (String.eqb k label).
Qed.

Lemma elem_of_labels_frame_set (f : DataFrame) (label k : string)
    (c : column) :
  k ∈ labels (frame_set f label c) → k ∈ labels f ∨ k = label.
Proof.
  unfold labels. induction f as [|[k0 c0] f IH]; cbn [frame_set].
  - rewrite list_elem_of_fmap. intros ([k1 c1] & -> & Hin).
    apply list_elem_of_singleton in Hin. injection Hin as -> _. by right.
  - destruct (String.eqb k0 label) eqn:E.
    + rewrite !fmap_cons. intros Hk. by left.
    + rewrite !fmap_cons, !elem_of_cons. intros [->|Hk]; [by left; left|].
      destruct (IH Hk) as [Hin| ->]; [by left; right|by right].
Qed.

Lemma NoDup_labels_frame_set (f : DataFrame) (label : string) (c : column) :
  NoDup (labels f) → NoDup (labels (frame_set f label c)).
Proof.
  induction f as [|[k0 c0] f IH]; cbn [frame_set].
  - intros _. apply NoDup_singleton.
  - unfold labels in *. rewrite fmap_cons. intros Hnd.
    apply NoDup_cons in Hnd as [Hk0 Hnd].
    destruct (String.eqb k0 label) eqn:E; rewrite fmap_cons.
    + apply NoDup_cons. by split.
    + apply NoDup_cons. split; [|by apply IH].
      cbn [fst] in *. intros Hin.
      apply elem_of_labels_frame_set in Hin as [Hin|Heq].
      * by apply Hk0.
      * rewrite Heq in E. by rewrite String.eqb_refl in E.
Qed.

(** X25.  The analysis steps of [main] on a frame of bars without an [RSI]
    column: the downloaded frame gains the [Moving_Average] column (window
    5) in place, the frame handed on to the chart is a new one, that frame
    followed by the four indicator columns computed from the closes, every
    other frame stays as it is, and the statistics and the trend analysis -
    though read from the new frame - are those of the downloaded closes. *)
Theorem main_analysis_frames (σ : state) (d : loc) (f : DataFrame)
    (close : Series) (ticker : string) :
  heap σ !! d = Some f →
  price_frame f close →
  frame_get f "RSI" = None →
  let averaged :=
    frame_set f "Moving_Average" (FloatCol (pd.roll_mean 5 close)) in
  ∃ (out : loc) (σ' : state) (std : option Stats) (trend : option Analysis),
    main_analysis d ticker σ = (Ok (Some out, std, trend), σ')
    ∧ heap σ !! out = None
    ∧ heap σ' !! d = Some averaged
    ∧ heap σ' !! out = Some (averaged ++ indicator_columns close)
    ∧ (∀ l g, l ≠ d → heap σ !! l = Some g → heap σ' !! l = Some g)
    ∧ (calculate_standard_deviation (Some d) "Close" σ).1 = Ok std
    ∧ (advanced_price_analysis (Some d) σ).1 = Ok trend.
Proof.
  intros Hd Hpf Hrsi averaged. pose proof Hpf as [Hnd Hclose].
  set (σ1 := mkState (<[d := averaged]> (heap σ)) (stdout σ)).
  assert (heap σ1 !! d = Some averaged) as Hd1 by apply lookup_insert_eq.
  assert (price_frame averaged close) as Hpf1.
  { split; [by apply NoDup_labels_frame_set|].
    unfold averaged. by rewrite frame_get_set_ne. }
  assert (frame_get averaged "RSI" = None) as Hrsi1.
  { unfold averaged. by rewrite frame_get_set_ne. }
  destruct (add_technical_indicators_selected σ1 d averaged close true true
              Hd1 Hpf1 Hrsi1)
    as (out & σ2 & Hrun & Hnew & Hout & Hkeep & Hprint).
  assert (out ≠ d) as Hne by (intros ->; congruence).
  assert (frame_get (averaged ++ selected_columns true true close) "Close"
          = Some (FloatCol close)) as Hc2.
  { rewrite frame_get_app. by destruct Hpf1 as [_ ->]. }
  destruct (notify_reads_close ticker (Fin 3) (Some (FloatCol close)))
    as (r1 & l1 & Hn).
  destruct (average_reads_close (Some (FloatCol close))) as (r2 & l2 & Ha).
  destruct (statistics_reads_close (Some (FloatCol close)))
    as (std & l3 & Hs).
  destruct (analysis_reads_close (Some (FloatCol close)))
    as (trend & l4 & Ht).
  exists out, (mkState (heap σ2) ((((stdout σ2 ++ l1) ++ l2) ++ l3) ++ l4)),
    std, trend.
  split; [|split; [|split; [|split; [|split; [|split]]]]].
  - unfold main_analysis.
    rewrite bind_run, (add_moving_average_run σ d f close 5) by done.
    change (Z.to_nat 5) with 5. fold averaged σ1.
    rewrite bind_run, Hrun.
    rewrite bind_run, (Hn σ2 out _ Hout Hc2).
    rewrite bind_run,
      (Ha (mkState (heap σ2) (stdout σ2 ++ l1)) out _ Hout Hc2).
    cbn [heap stdout].
    rewrite bind_run,
      (Hs (mkState (heap σ2) ((stdout σ2 ++ l1) ++ l2)) out _ Hout Hc2).
    cbn [heap stdout].
    rewrite bind_run,
      (Ht (mkState (heap σ2) (((stdout σ2 ++ l1) ++ l2) ++ l3)) out _
          Hout Hc2).
    cbn [heap stdout]. by rewrite ret_run.
  - cbn [σ1 heap] in Hnew. by rewrite lookup_insert_ne in Hnew.
  - cbn [heap]. by apply Hkeep.
  - done.
  - intros l g Hl Hg. cbn [heap]. apply Hkeep. cbn [σ1 heap].
    by rewrite lookup_insert_ne.
  - by rewrite (Hs σ d f Hd Hclose).
  - by rewrite (Ht σ d f Hd Hclose).
Qed.

Lemma main_analysis_frames_witness :
  ∃ (out : loc) (σ' : state) (std : option Stats) (trend : option Analysis),
    main_analysis 0 "AAPL" (one_frame (bars week))
    = (Ok (Some out, std, trend), σ')
    ∧ heap σ' !! 0%nat
      = Some (bars week
              ++ [("Moving_Average",
                   FloatCol (pd.roll_mean 5 (of_Z <$> week)))])
    ∧ heap σ' !! out
      = Some ((bars week
               ++ [("Moving_Average",
                    FloatCol (pd.roll_mean 5 (of_Z <$> week)))])
              ++ indicator_columns (of_Z <$> week)).
Proof.
  destruct (main_analysis_frames (one_frame (bars week)) 0 (bars week)
              (of_Z <$> week) "AAPL")
    as (out & σ' & std & trend & Hrun & _ & Hd & Hout & _).
  - reflexivity.
  - split; [apply NoDup_singleton|reflexivity].
  - reflexivity.
  - exists out, σ', std, trend.
    split; [exact Hrun|]. split; [exact Hd|exact Hout].
Defined.

(* ===================================================================== *)
(** ** Downloading and exporting *)
(* ===================================================================== *)

Lemma length_app_string (s t : string) :
  String.length (s ++ t) = String.length s + String.length t.
Proof. induction s as [|c s IH]; simpl; [done|]. by rewrite IH. Qed.

Lemma substring_whole (t : string) :
  String.substring 0 (String.length t) t = t.
Proof. induction t as [|c t IH]; simpl; [done|]. by rewrite IH. Qed.

Lemma substring_app_skip (s t : string) (n : nat) :
  String.substring (String.length s) n (s ++ t) = String.substring 0 n t.
Proof. induction s as [|c s IH]; simpl; [done|]. apply IH. Qed.

Lemma endswith_app (s t : string) : endswith (s ++ t) t = true.
Proof.
  unfold endswith. rewrite length_app_string.
  rewrite (proj2 (Nat.leb_le _ _)) by lia.
  replace (String.length s + String.length t - String.length t)
    with (String.length s) by lia.
  rewrite substring_app_skip, substring_whole. cbn [andb].
  apply String.eqb_refl.
Qed.

Section outside_facts.
Context `{Outside}.

Lemma io_bind_run {A B} (m : IO A) (k : A → IO B) (w : world) :
  (m ≫= k) w
  = match m w with
    | (Returned a, w') => k a w'
    | (Failed e, w') => (Failed e, w')
    end.
Proof. done. Qed.

Lemma io_ret_run {A} (a : A) (w : world) : (mret a : IO A) w = (Returned a, w).
Proof. done. Qed.

Lemma say_run (l : line) (w : world) :
  say l w = (Returned (), mkWorld (disk w) (stdin w) (console w ++ [l])).
Proof. done. Qed.

Lemma call_run {A} (r : result A) (w : world) : call r w = (r, w).
Proof. done. Qed.

Lemma exists_path_run (path : string) (w : world) :
  exists_path path w = (Returned (path_exists (disk w) path), w).
Proof. done. Qed.

Lemma world_eta (w : world) : mkWorld (disk w) (stdin w) (console w) = w.
Proof. by destruct w. Qed.

(** Runs the binds, prints, calls and returns at the head of a
    computation. *)
Ltac iorun :=
  repeat first
    [ rewrite io_bind_run
    | rewrite say_run
    | rewrite call_run
    | rewrite io_ret_run
    | rewrite exists_path_run
    | progress cbv beta iota
    | progress cbn [disk stdin console] ].

(** What the download step of [fetch_stock_data] gives: a frame, or an
    early [None] with one line printed, or an exception; the world is
    otherwise as it was. *)
Lemma fetch_date_branch (stock : Stock) (start_date end_date : string)
    (w : world) :
  let branch :=
    attempt_value
      (start ← call (to_datetime start_date);
       end_ ← call (to_datetime end_date);
       late ← call (timestamp_ge start end_);
       if late : bool then say DateOrderError;; mret (inr None)
       else
         data ← call (history_between stock start end_);
         mret (inl data))
      (λ date_error, say (DateFormatError date_error);; mret (inr None))
    : IO (DataFrame + option DataFrame) in
  (∃ data, branch w = (Returned (inl data), w))
  ∨ (∃ l, branch w
          = (Returned (inr None),
             mkWorld (disk w) (stdin w) (console w ++ [l])))
  ∨ (∃ e, branch w = (Failed e, w)).
Proof.
  intros branch. unfold branch, attempt_value. iorun.
  destruct (to_datetime start_date) as [start|[t|t]]; iorun;
    [|by right; left; eexists|by right; right; eexists].
  destruct (to_datetime end_date) as [end_|[t|t]]; iorun;
    [|by right; left; eexists|by right; right; eexists].
  destruct (timestamp_ge start end_) as [[|]|[t|t]]; iorun;
    [by right; left; eexists| |by right; left; eexists
    |by right; right; eexists].
  destruct (history_between stock start end_) as [data|[t|t]]; iorun;
    [by left; eexists|by right; left; eexists|by right; right; eexists].
Qed.

(** X26.  Whatever Yahoo Finance and the date parser answer,
    [fetch_stock_data] has two outcomes only: it returns a frame, which is
    then not empty, and prints nothing; or it returns [None] and prints
    exactly one line.  No exception leaves it, and the frame it returns is
    never empty. *)
Theorem fetch_stock_data_outcomes (ticker : string)
    (period start_date end_date : option string) (w : world) :
  (∃ data,
     fetch_stock_data ticker period start_date end_date w
     = (Returned (Some data), w)
     ∧ frame_empty data = false)
  ∨ (∃ l,
       fetch_stock_data ticker period start_date end_date w
       = (Returned None, mkWorld (disk w) (stdin w) (console w ++ [l]))).
Proof.
  unfold fetch_stock_data, attempt. iorun.
  destruct (yf_Ticker ticker) as [stock|e]; iorun; [|by right; eexists].
  assert (∀ (m : IO (DataFrame + option DataFrame)),
            ((∃ data, m w = (Returned (inl data), w))
             ∨ (∃ l, m w
                     = (Returned (inr None),
                        mkWorld (disk w) (stdin w) (console w ++ [l])))
             ∨ (∃ e, m w = (Failed e, w))) →
            let r :=
              match
                match m w with
                | (Returned a, w') =>
                    match a with
                    | inl data =>
                        if frame_empty data
                        then say (DownloadEmpty ticker);; mret None
                        else mret (Some data)
                    | inr returned => mret returned
                    end w'
                | (Failed e, w') => (Failed e, w')
                end
              with
              | (Failed e, w') => (say (DownloadError e);; mret None) w'
              | r => r
              end in
            (∃ data, r = (Returned (Some data), w)
                     ∧ frame_empty data = false)
            ∨ (∃ l, r = (Returned None,
                         mkWorld (disk w) (stdin w) (console w ++ [l]))))
    as Hfinish.
  { intros m [[data ->]|[[l ->]|[e ->]]] r; unfold r; iorun.
    - destruct (frame_empty data) eqn:E; iorun.
      + by right; eexists.
      + left. by exists data.
    - by right; eexists.
    - by right; eexists. }
  destruct (truthy start_date) as [s|]; [destruct (truthy end_date) as [e|]|].
  - apply Hfinish, fetch_date_branch.
  - apply Hfinish. iorun.
    destruct (history_period stock period) as [data|e]; iorun;
      [by left; eexists|by right; right; eexists].
  - apply Hfinish. iorun.
    destruct (history_period stock period) as [data|e]; iorun;
      [by left; eexists|by right; right; eexists].
Qed.

(** X27.  Which arguments [fetch_stock_data] reads.  With a start date and
    an end date that are both given and not empty, [period] is ignored.
    Otherwise - one date is [None] or the empty string - both dates are
    ignored, a lone start date included, and the period is used. *)
Theorem fetch_stock_data_priority (ticker : string)
    (period start_date end_date : option string) (w : world) :
  (is_Some (truthy start_date) → is_Some (truthy end_date) →
   ∀ period', fetch_stock_data ticker period' start_date end_date w
              = fetch_stock_data ticker period start_date end_date w)
  ∧ (truthy start_date = None ∨ truthy end_date = None →
     fetch_stock_data ticker period start_date end_date w
     = fetch_stock_data ticker period None None w).
Proof.
  split.
  - intros [s Hs] [e He] period'. unfold fetch_stock_data. by rewrite Hs, He.
  - intros Hnone. unfold fetch_stock_data. cbn [truthy].
    destruct (truthy start_date) as [s|]; [|done].
    destruct Hnone as [Hs|He]; [done|]. by rewrite He.
Qed.

(** X28.  [export_data_to_csv] does not overwrite without a yes: if the
    file it would write exists, and the answer typed at the prompt is not,
    in lower case, one of "да", "yes" and "y" - or there is no answer -
    nothing is returned and the disk is as it was. *)
Theorem export_overwrite_protection (data : option DataFrame)
    (filename : string) (w : world) :
  path_exists (disk w) (csv_name filename) = true →
  (∀ answer, head (stdin w) = Some answer →
     str_lower answer ∉ affirmative) →
  ∃ w', export_data_to_csv data filename w = (Returned None, w')
        ∧ disk w' = disk w.
Proof.
  intros Hexists Hno. unfold export_data_to_csv, attempt.
  destruct data as [frame|]; iorun; [|by eexists].
  rewrite Hexists. iorun. unfold input.
  destruct (stdin w) as [|answer rest] eqn:Hin; iorun; [by eexists|].
  rewrite bool_decide_eq_false_2 by by apply Hno.
  iorun. by eexists.
Qed.

(** X29.  What [export_data_to_csv] can do.  It always returns.  A path it
    returns is [filename] with the extension (added unless the name has
    it in some case), and then [to_csv] has written the frame there
    without failing.  The disk is touched by that one write or not at
    all, and a line of input is read only if the file exists, and only
    one. *)
Theorem export_data_to_csv_effects (data : option DataFrame)
    (filename : string) (w : world) :
  let path := csv_name filename in
  (endswith path ".csv" = true ∨ endswith (str_lower path) ".csv" = true)
  ∧ ∃ (r : option string) (w' : world),
      export_data_to_csv data filename w = (Returned r, w')
      ∧ (∀ p, r = Some p →
           p = path
           ∧ ∃ frame, data = Some frame
                      ∧ to_csv frame path (disk w) = (Returned (), disk w'))
      ∧ (disk w' = disk w
         ∨ ∃ frame, data = Some frame
                    ∧ disk w' = (to_csv frame path (disk w)).2)
      ∧ (stdin w' = stdin w
         ∨ (path_exists (disk w) path = true ∧ stdin w' = tail (stdin w))).
Proof.
  intros path. split.
  { unfold path, csv_name.
    destruct (endswith (str_lower filename) ".csv") eqn:E; [by right|].
    left. apply endswith_app. }
  assert (∀ frame (w1 : world),
            disk w1 = disk w →
            ∃ (r : option string) (w' : world),
              match
                (write_csv frame path;;
                 say (ExportSaved path);; mret (Some path)) w1
              with
              | (Failed e, w') => (say (ExportError e);; mret None) w'
              | r => r
              end = (Returned r, w')
              ∧ (∀ p, r = Some p →
                   p = path
                   ∧ to_csv frame path (disk w) = (Returned (), disk w'))
              ∧ disk w' = (to_csv frame path (disk w)).2
              ∧ stdin w' = stdin w1) as Hwrite.
  { intros frame w1 Hdisk. rewrite io_bind_run. unfold write_csv.
    rewrite Hdisk.
    destruct (to_csv frame path (disk w)) as [[[]|e] d]; iorun.
    - eexists _, _. split; [done|]. cbn [disk stdin].
      split; [|done]. by intros p [= <-].
    - eexists _, _. split; [done|]. cbn [disk stdin].
      split; [|done]. by intros p [=]. }
  unfold export_data_to_csv, attempt.
  destruct data as [frame|]; iorun; fold path.
  2: { eexists _, _. split; [done|]. cbn [disk stdin].
       split; [by intros p [=]|]. split; by left. }
  destruct (path_exists (disk w) path) eqn:Hexists.
  - iorun. unfold input.
    destruct (stdin w) as [|answer rest] eqn:Hin; iorun.
    { eexists _, _. split; [done|]. cbn [disk stdin].
      split; [by intros p [=]|]. by split; left. }
    destruct (bool_decide (str_lower answer ∈ affirmative)).
    + destruct (Hwrite frame (mkWorld (disk w) rest
                                (console w ++ [OverwritePrompt path]))
                  eq_refl)
        as (r & w' & Hrun & Hr & Hd & Hs).
      exists r, w'. split; [exact Hrun|]. split; [|split].
      * intros p Hp. destruct (Hr p Hp) as [-> Hcsv]. split; [done|].
        by exists frame.
      * right. by exists frame.
      * right. by rewrite Hs.
    + iorun. eexists _, _. split; [done|]. cbn [disk stdin].
      split; [by intros p [=]|]. split; [by left|by right].
  - rewrite io_ret_run. cbv beta iota.
    destruct (Hwrite frame w eq_refl) as (r & w' & Hrun & Hr & Hd & Hs).
    exists r, w'. split; [exact Hrun|]. split; [|split].
    + intros p Hp. destruct (Hr p Hp) as [-> Hcsv]. split; [done|].
      by exists frame.
    + right. by exists frame.
    + by left.
Qed.

End outside_facts.

Lemma fetch_stock_data_priority_witness :
  let w := @mkWorld sample_outside ∅ [] [] in
  @fetch_stock_data sample_outside "AAPL" (Some "5d")
    (Some "2023-01-01") (Some "2023-12-31") w
  = @fetch_stock_data sample_outside "AAPL" (Some "1mo")
      (Some "2023-01-01") (Some "2023-12-31") w
  ∧ @fetch_stock_data sample_outside "AAPL" (Some "1mo")
      (Some "2023-01-01") (Some "") w
    = @fetch_stock_data sample_outside "AAPL" (Some "1mo") None None w.
Proof.
  intros w.
  destruct (@fetch_stock_data_priority sample_outside "AAPL" (Some "1mo")
              (Some "2023-01-01") (Some "2023-12-31") w) as [Hperiod _].
  destruct (@fetch_stock_data_priority sample_outside "AAPL" (Some "1mo")
              (Some "2023-01-01") (Some "") w) as [_ Hdates].
  split.
  - apply Hperiod; by eexists.
  - apply Hdates. by right.
Defined.

Lemma export_overwrite_protection_witness :
  let w := @mkWorld sample_outside {[ "AAPL.csv" := bars week ]} ["No"] [] in
  ∃ w', @export_data_to_csv sample_outside (Some (bars climb)) "AAPL" w
        = (Returned None, w')
        ∧ @disk sample_outside w' = {[ "AAPL.csv" := bars week ]}.
Proof.
  intros w.
  apply (@export_overwrite_protection sample_outside (Some (bars climb))
           "AAPL" w).
  - reflexivity.
  - intros answer [= <-]. vm_compute. intros Hin.
    repeat (apply elem_of_cons in Hin as [Heq|Hin]; [discriminate Heq|]).
    by apply elem_of_nil in Hin.
Defined.
